(** * Board-v2: zone allocator, item endpoints and focus/camera engine

    A shallow embedding of the parts of the two board servers (the
    Redis-backed and the file-backed Express server) and of the board client
    ([src/App.tsx], [src/components/Canvas.tsx]) that position new items in
    the Task Management Zone, update and clear stored items, broadcast focus
    requests and animate the viewport.

    JavaScript numbers are modelled as exact rationals [Q]; [Math.floor] is
    [Qfloor].  The item store is a list of records that every handler loads,
    changes and saves; storage I/O is taken to succeed.  [Date.now()],
    [new Date().toISOString()] and [Math.random()] are inputs of the handlers
    (an environment record). *)

From Stdlib Require Import QArith Qround Lqa Lia ZArith.
From stdpp Require Import base list strings.

Open Scope Q_scope.

(** ** JavaScript helpers *)

Definition Qleb (a b : Q) : bool := Qle_bool a b.
Definition Qltb (a b : Q) : bool := negb (Qle_bool b a).

(** [Math.max], [Math.min], [Math.floor]. *)
Definition Math_max (a b : Q) : Q := if Qleb a b then b else a.
Definition Math_min (a b : Q) : Q := if Qleb a b then a else b.
Definition Math_floor (a : Q) : Z := Qfloor a.

(** Truthiness of an optional string: [undefined] and the empty string are
    falsy. *)
Definition truthy_str (s : option string) : bool :=
  match s with
  | Some s => negb (String.eqb s EmptyString)
  | None => false
  end.

(** The string itself when it is truthy. *)
Definition truthy_val (s : option string) : option string :=
  match s with
  | Some s => if String.eqb s EmptyString then None else Some s
  | None => None
  end.

(** [a || b] on optional strings, and [a || d] on an optional number with a
    numeric default: [undefined] and [0] are falsy. *)
Definition or_str (a b : option string) : option string :=
  if truthy_str a then a else b.

Definition or_num (a : option Q) (d : Q) : Q :=
  match a with
  | Some q => if Qeq_bool q 0 then d else q
  | None => d
  end.

(** ** Data model *)

(** A board item: identity, geometry and the fields every item carries.
    The type-specific payloads ([content], [todoData], [agentData],
    [labResultData], [ehrData]) are left out; no handler below reads them. *)
Record BoardItem := mkItem {
  id : string;
  type : string;
  x : Q;
  y : Q;
  width : Q;
  height : Q;
  color : string;
  rotation : Q;
  createdAt : string;
  updatedAt : string
}.

Record Zone := mkZone {
  zone_x : Q;
  zone_y : Q;
  zone_width : Q;
  zone_height : Q
}.

Record Position := mkPos { pos_x : Q; pos_y : Q }.

(** The object literal [{ type, width, height }] handed to the allocator. *)
Record TempItem := mkTemp {
  temp_type : string;
  temp_width : Q;
  temp_height : Q
}.

(** ** Zone allocator ([findTaskZonePosition], identical in both servers) *)

Module Alloc.

Definition TASK_ZONE : Zone :=
  {| zone_x := 4200; zone_y := 0; zone_width := 2000; zone_height := 2100 |}.

Definition padding : Q := 60.
Definition rowHeight : Q := 490.
Definition colWidth : Q := 560.

Definition inTaskZone (item : BoardItem) : bool :=
  Qleb (zone_x TASK_ZONE) (x item) &&
  Qltb (x item) (zone_x TASK_ZONE + zone_width TASK_ZONE) &&
  Qleb (zone_y TASK_ZONE) (y item) &&
  Qltb (y item) (zone_y TASK_ZONE + zone_height TASK_ZONE).

Definition isApiItem (item : BoardItem) : bool :=
  String.eqb (type item) "agent" ||
  String.eqb (type item) "todo" ||
  String.eqb (type item) "lab-result".

(** [existingItems.filter(...)]. *)
Definition taskZoneItems (existingItems : list BoardItem) : list BoardItem :=
  List.filter (fun item => inTaskZone item && isApiItem item) existingItems.

Definition maxCols : Z := Math_floor (zone_width TASK_ZONE / colWidth).
Definition maxRows : Z := Math_floor (zone_height TASK_ZONE / rowHeight).

Abbreviation Grid := (list (list bool)).

(** [Array(maxRows).fill(null).map(() => Array(maxCols).fill(false))]. *)
Definition emptyGrid : Grid :=
  replicate (Z.to_nat maxRows) (replicate (Z.to_nat maxCols) false).

Definition itemCol (item : BoardItem) : Z :=
  Math_floor ((x item - zone_x TASK_ZONE) / colWidth).

Definition itemRow (item : BoardItem) : Z :=
  Math_floor ((y item - zone_y TASK_ZONE - 60) / rowHeight).

Definition inGrid (row col : Z) : bool :=
  (0 <=? row)%Z && (row <? maxRows)%Z && (0 <=? col)%Z && (col <? maxCols)%Z.

(** The body of the [forEach]: [grid[row][col] = true] when in bounds. *)
Definition markItem (grid : Grid) (item : BoardItem) : Grid :=
  let col := itemCol item in
  let row := itemRow item in
  if inGrid row col
  then alter (fun r => <[Z.to_nat col := true]> r) (Z.to_nat row) grid
  else grid.

Definition markGrid (items : list BoardItem) : Grid :=
  fold_left markItem items emptyGrid.

(** [grid[row][col]] for the cells the scan visits. *)
Definition gridAt (grid : Grid) (row col : nat) : bool :=
  match grid !! row with
  | Some r => default false (r !! col)
  | None => false
  end.

(** The cells in the order of the nested [for] loops: rows outermost. *)
Definition scanOrder : list (nat * nat) :=
  flat_map (fun row => map (fun col => (row, col)) (seq 0 (Z.to_nat maxCols)))
           (seq 0 (Z.to_nat maxRows)).

(** The first cell for which [!grid[row][col]] holds, if any. *)
Definition firstFree (grid : Grid) : option (nat * nat) :=
  List.find (fun rc => negb (gridAt grid rc.1 rc.2)) scanOrder.

Definition cellX (col : nat) : Q :=
  zone_x TASK_ZONE + inject_Z (Z.of_nat col) * colWidth + padding.

Definition cellY (row : nat) : Q :=
  zone_y TASK_ZONE + inject_Z (Z.of_nat row) * rowHeight + 60.

(** The vertical stack used when no cell is free. *)
Definition stackPosition (n : nat) : Position :=
  {| pos_x := zone_x TASK_ZONE + padding;
     pos_y := zone_y TASK_ZONE + 60 + inject_Z (Z.of_nat n) * (rowHeight + padding) |}.

Definition findTaskZonePosition (newItem : TempItem) (existingItems : list BoardItem)
  : Position :=
  let items := taskZoneItems existingItems in
  let grid := markGrid items in
  match firstFree grid with
  | Some (row, col) => {| pos_x := cellX col; pos_y := cellY row |}
  | None => stackPosition (length items)
  end.

(** [checkCollision] of the file server: the rectangles overlap unless one
    lies wholly to the left of, to the right of, above or below the other. *)
Definition checkCollision (item1 item2 : BoardItem) : bool :=
  let noCollision :=
    Qleb (x item1 + width item1) (x item2) ||
    Qleb (x item2 + width item2) (x item1) ||
    Qleb (y item1 + height item1) (y item2) ||
    Qleb (y item2 + height item2) (y item1) in
  negb noCollision.

End Alloc.


(** ** Server state and effects *)

(** Merged focus options, and the caller's partial [focusOptions] object. *)
Record FocusOptions := mkFocusOptions {
  fo_zoom : Q;
  fo_highlight : bool;
  fo_duration : Q;
  fo_scrollIntoView : bool
}.

Record FocusOptionsPatch := mkFocusPatch {
  fp_zoom : option Q;
  fp_highlight : option bool;
  fp_duration : option Q;
  fp_scrollIntoView : option bool
}.

(** [{ ...defaultOptions, ...(focusOptions || {}) }]. *)
Definition mergeFocusOptions (d : FocusOptions) (o : option FocusOptionsPatch)
  : FocusOptions :=
  match o with
  | None => d
  | Some p =>
      {| fo_zoom := default (fo_zoom d) (fp_zoom p);
         fo_highlight := default (fo_highlight d) (fp_highlight p);
         fo_duration := default (fo_duration d) (fp_duration p);
         fo_scrollIntoView := default (fo_scrollIntoView d) (fp_scrollIntoView p) |}
  end.

(** Messages handed to [broadcastSSE]; the constructor is the [event] field. *)
Inductive SseMessage :=
| NewItemEvent (item : BoardItem) (timestamp : string)
| FocusEvent (objectId itemId : string) (subElement : option string)
             (focusOptions : FocusOptions) (timestamp : string).

(** Lines written with [console.log]. *)
Inductive LogLine :=
| LogLoaded (n : nat)
| LogUsingProvided (kind : string) (px py : Q)
| LogFindingPosition (ty : string)
| LogAutoPositioned (kind : string) (px py : Q)
| LogFocusRequest (targetId : string) (subElement : option string)
| LogCleared (removed : nat).

Record ServerState := mkServer {
  store : list BoardItem;        (* the persisted item collection *)
  sourceData : list BoardItem;   (* src/data/boardItems.json *)
  sseClients : list nat;         (* connected event streams *)
  sent : list (nat * SseMessage);(* what each stream was written *)
  console : list LogLine
}.

Definition setStore (items : list BoardItem) (st : ServerState) : ServerState :=
  mkServer items (sourceData st) (sseClients st) (sent st) (console st).

Definition setSourceData (items : list BoardItem) (st : ServerState) : ServerState :=
  mkServer (store st) items (sseClients st) (sent st) (console st).

Definition log (lines : list LogLine) (st : ServerState) : ServerState :=
  mkServer (store st) (sourceData st) (sseClients st) (sent st) (console st ++ lines).

(** [broadcastSSE]: the message is written to every connected client. *)
Definition broadcastSSE (message : SseMessage) (st : ServerState) : ServerState :=
  mkServer (store st) (sourceData st) (sseClients st)
           (sent st ++ map (fun client => (client, message)) (sseClients st))
           (console st).

Inductive ResponseBody :=
| ErrorBody (error : string)
| ItemBody (item : BoardItem)
| FocusAck (itemId : string) (subElement : option string) (focusOptions : FocusOptions)
| ClearedBody (removedCount remainingCount : nat).

Record Response := mkResponse { status : nat; body : ResponseBody }.

(** What a handler reads from its surroundings: the generated id, the
    timestamp and the two [Math.random()] draws. *)
Record Env := mkEnv {
  newId : string;
  now : string;
  randomX : Q;
  randomY : Q
}.

(** The caller's partial item in [PUT /api/board-items/:id]. *)
Record ItemPatch := mkPatch {
  p_id : option string;
  p_type : option string;
  p_x : option Q;
  p_y : option Q;
  p_width : option Q;
  p_height : option Q;
  p_color : option string;
  p_rotation : option Q;
  p_createdAt : option string;
  p_updatedAt : option string
}.

(** [{ ...item, ...updates, updatedAt: new Date().toISOString() }]. *)
Definition mergeItem (item : BoardItem) (updates : ItemPatch) (stamp : string)
  : BoardItem :=
  {| id := default (id item) (p_id updates);
     type := default (type item) (p_type updates);
     x := default (x item) (p_x updates);
     y := default (y item) (p_y updates);
     width := default (width item) (p_width updates);
     height := default (height item) (p_height updates);
     color := default (color item) (p_color updates);
     rotation := default (rotation item) (p_rotation updates);
     createdAt := default (createdAt item) (p_createdAt updates);
     updatedAt := stamp |}.

(** [items.findIndex((item) => item.id === id)] together with
    [items[itemIndex]]: the first item with that id and its index. *)
Definition findItem (target : string) (items : list BoardItem)
  : option (nat * BoardItem) :=
  list_find (fun item => id item = target) items.

(** The item of a grid-managed type written by the todo, agent and
    lab-result handlers. *)
Definition newGridItem (env : Env) (t : TempItem) (px py : Q) : BoardItem :=
  {| id := newId env; type := temp_type t; x := px; y := py;
     width := temp_width t; height := temp_height t;
     color := "#ffffff"; rotation := 0;
     createdAt := now env; updatedAt := now env |}.

(** The positioning block that each of these handlers repeats: explicit
    coordinates when both [x] and [y] are present in the body, the zone
    allocator otherwise.  The second component is what the block logs;
    [LogFindingPosition] is the allocator's own first line. *)
Definition resolvePosition (kind : string) (bx by_ : option Q) (tempItem : TempItem)
    (existingItems : list BoardItem) : Position * list LogLine :=
  match bx, by_ with
  | Some itemX, Some itemY =>
      (mkPos itemX itemY, [LogUsingProvided kind itemX itemY])
  | _, _ =>
      let taskPosition := Alloc.findTaskZonePosition tempItem existingItems in
      (taskPosition,
       [LogFindingPosition (temp_type tempItem);
        LogAutoPositioned kind (pos_x taskPosition) (pos_y taskPosition)])
  end.

(** ** Redis-backed server *)

Module RedisServer.

(** Only the number of entries of [todo_items] bears on the item's
    geometry; their normalisation into [{ text, status }] is left out. *)
Record TodosBody := mkTodosBody {
  title : option string;
  description : option string;
  todo_items : option (list string);   (* [None]: absent or not an array *)
  todos_x : option Q;
  todos_y : option Q
}.

Definition calculateTodoHeight (totalItems : nat) (description : option string) : Q :=
  let baseHeight := 80 in
  let itemHeight := 35 in
  let descriptionHeight := if truthy_str description then 20 else 0 in
  let padding := 20 in
  let contentHeight :=
    baseHeight + inject_Z (Z.of_nat totalItems) * itemHeight + descriptionHeight + padding in
  Math_min (Math_max contentHeight 200) 600.

(** [POST /api/todos]. *)
Definition post_todos (env : Env) (b : TodosBody) (st : ServerState)
  : Response * ServerState :=
  match todo_items b with
  | Some items =>
      if truthy_str (title b) then
        let dynamicHeight := calculateTodoHeight (length items) (description b) in
        let existingItems := store st in
        let tempItem := mkTemp "todo" 420 dynamicHeight in
        let '(p, lines) :=
          resolvePosition "TODO" (todos_x b) (todos_y b) tempItem existingItems in
        let newItem := newGridItem env tempItem (pos_x p) (pos_y p) in
        let st1 := log (LogLoaded (length existingItems) :: lines) st in
        let st2 := setStore (store st1 ++ [newItem]) st1 in
        let st3 := broadcastSSE (NewItemEvent newItem (now env)) st2 in
        (mkResponse 201 (ItemBody newItem), st3)
      else
        (mkResponse 400 (ErrorBody "title (string) and todo_items (array) are required"), st)
  | None =>
      (mkResponse 400 (ErrorBody "title (string) and todo_items (array) are required"), st)
  end.

Record AgentsBody := mkAgentsBody {
  agent_title : option string;
  agent_content : option string;
  agents_x : option Q;
  agents_y : option Q
}.

Definition calculateHeight (content : string) : Q :=
  let baseHeight := 80 in
  let lineHeight := 20 in
  let maxWidth := 520 in
  let estimatedLines :=
    inject_Z (Qceiling (inject_Z (Z.of_nat (String.length content)) / (maxWidth / 12))) in
  let contentHeight := Math_max (estimatedLines * lineHeight) 100 in
  Math_min (baseHeight + contentHeight) 800.

(** [POST /api/agents]. *)
Definition post_agents (env : Env) (b : AgentsBody) (st : ServerState)
  : Response * ServerState :=
  match truthy_val (agent_title b), truthy_val (agent_content b) with
  | Some _, Some content =>
      let dynamicHeight := calculateHeight content in
      let existingItems := store st in
      let tempItem := mkTemp "agent" 520 dynamicHeight in
      let '(p, lines) :=
        resolvePosition "AGENT" (agents_x b) (agents_y b) tempItem existingItems in
      let newItem := newGridItem env tempItem (pos_x p) (pos_y p) in
      let st1 := log (LogLoaded (length existingItems) :: lines) st in
      let st2 := setStore (store st1 ++ [newItem]) st1 in
      let st3 := broadcastSSE (NewItemEvent newItem (now env)) st2 in
      (mkResponse 201 (ItemBody newItem), st3)
  | _, _ =>
      (mkResponse 400 (ErrorBody "title (string) and content (string) are required"), st)
  end.

Record LabRange := mkLabRange { range_min : option Q; range_max : option Q }.

Record LabResultsBody := mkLabResultsBody {
  lab_parameter : option string;
  lab_value : option Q;
  lab_unit : option string;
  lab_status : option string;
  lab_range : option LabRange;
  lab_x : option Q;
  lab_y : option Q
}.

Definition validStatuses : list string := ["optimal"; "warning"; "critical"].

(** [!range.min || !range.max || range.min >= range.max]. *)
Definition invalidRange (r : LabRange) : bool :=
  match range_min r, range_max r with
  | Some lo, Some hi => Qeq_bool lo 0 || Qeq_bool hi 0 || Qleb hi lo
  | _, _ => true
  end.

(** [POST /api/lab-results]. *)
Definition post_lab_results (env : Env) (b : LabResultsBody) (st : ServerState)
  : Response * ServerState :=
  match truthy_val (lab_parameter b), truthy_val (lab_unit b),
        truthy_val (lab_status b), lab_range b with
  | Some _, Some _, Some status, Some range =>
      if Qeq_bool (or_num (lab_value b) 0) 0 then
        (mkResponse 400
           (ErrorBody "parameter, value, unit, status, and range are required"), st)
      else if negb (existsb (String.eqb status) validStatuses) then
        (mkResponse 400
           (ErrorBody "status must be one of: optimal, warning, critical"), st)
      else if invalidRange range then
        (mkResponse 400
           (ErrorBody "range must have valid min and max values where min < max"), st)
      else
        let existingItems := store st in
        let tempItem := mkTemp "lab-result" 400 280 in
        let '(p, lines) :=
          resolvePosition "LAB RESULT" (lab_x b) (lab_y b) tempItem existingItems in
        let newItem := newGridItem env tempItem (pos_x p) (pos_y p) in
        let st1 := log (LogLoaded (length existingItems) :: lines) st in
        let st2 := setStore (store st1 ++ [newItem]) st1 in
        let st3 := broadcastSSE (NewItemEvent newItem (now env)) st2 in
        (mkResponse 201 (ItemBody newItem), st3)
  | _, _, _, _ =>
      (mkResponse 400
         (ErrorBody "parameter, value, unit, status, and range are required"), st)
  end.

(** [PUT /api/board-items/:id]. *)
Definition put_board_item (env : Env) (target : string) (updates : ItemPatch)
    (st : ServerState) : Response * ServerState :=
  let items := store st in
  match findItem target items with
  | None => (mkResponse 404 (ErrorBody "Board item not found"), st)
  | Some (itemIndex, old) =>
      let merged := mergeItem old updates (now env) in
      (mkResponse 200 (ItemBody merged), setStore (<[itemIndex := merged]> items) st)
  end.

Record FocusBody := mkFocusBody {
  objectId : option string;
  itemId : option string;
  subElement : option string;
  focusOptions : option FocusOptionsPatch
}.

Definition defaultOptions (subElement : option string) : FocusOptions :=
  {| fo_zoom := if truthy_str subElement then 1.5 else 0.8;
     fo_highlight := truthy_str subElement;
     fo_duration := 2000;
     fo_scrollIntoView := true |}.

(** [subElement || null]. *)
Definition orNull (s : option string) : option string :=
  if truthy_str s then s else None.

(** [POST /api/focus]. *)
Definition post_focus (env : Env) (b : FocusBody) (st : ServerState)
  : Response * ServerState :=
  match truthy_val (or_str (itemId b) (objectId b)) with
  | None => (mkResponse 400 (ErrorBody "objectId or itemId is required"), st)
  | Some targetId =>
      let options := mergeFocusOptions (defaultOptions (subElement b)) (focusOptions b) in
      let st1 := log [LogFocusRequest targetId (orNull (subElement b))] st in
      let st2 :=
        broadcastSSE (FocusEvent targetId targetId (orNull (subElement b)) options (now env))
                     st1 in
      (mkResponse 200 (FocusAck targetId (orNull (subElement b)) options), st2)
  end.

End RedisServer.

(** ** File-backed server *)

Module FileServer.

Record BoardItemBody := mkBoardItemBody {
  b_type : option string;
  b_componentType : option string;
  b_x : option Q;
  b_y : option Q;
  b_width : option Q;
  b_height : option Q;
  b_color : option string;
  b_rotation : option Q
}.

Definition componentDefaults (componentType : option string) : Q * Q :=
  match componentType with
  | Some "PatientContext" => (1600, 300)
  | Some "EncounterTimeline" => (1600, 400)
  | Some "AdverseEventAnalytics" => (1600, 500)
  | Some "LabTable" | Some "LabChart" | Some "DifferentialDiagnosis" => (520, 400)
  | _ => (600, 400)
  end.

Definition legacyDefaults (ty : string) : Q * Q :=
  (if String.eqb ty "text" then 200 else if String.eqb ty "ehr" then 550 else 150,
   if String.eqb ty "text" then 100 else if String.eqb ty "ehr" then 450 else 150).

Definition defaultColor (ty : string) : string :=
  if String.eqb ty "component" then "#ffffff"
  else if String.eqb ty "sticky" then "#ffeb3b"
  else if String.eqb ty "ehr" then "#e8f5e8" else "#2196f3".

(** [POST /api/board-items]. *)
Definition post_board_items (env : Env) (b : BoardItemBody) (st : ServerState)
  : Response * ServerState :=
  match truthy_val (b_type b) with
  | None => (mkResponse 400 (ErrorBody "Type is required"), st)
  | Some ty =>
      let '(defaultWidth, defaultHeight) :=
        if String.eqb ty "component" then componentDefaults (b_componentType b)
        else legacyDefaults ty in
      let newItem :=
        {| id := newId env;
           type := ty;
           x := or_num (b_x b) (randomX env * 8000 + 100);
           y := or_num (b_y b) (randomY env * 7000 + 100);
           width := or_num (b_width b) defaultWidth;
           height := or_num (b_height b) defaultHeight;
           color := default (defaultColor ty) (truthy_val (b_color b));
           rotation := or_num (b_rotation b) 0;
           createdAt := now env;
           updatedAt := now env |} in
      let existingItems := store st in
      let updatedItems := existingItems ++ [newItem] in
      (mkResponse 201 (ItemBody newItem), setStore updatedItems st)
  end.

(** [updateSourceDataHeight]. *)
Definition updateSourceDataHeight (target : string) (newHeight : Q) (st : ServerState)
  : ServerState :=
  let sourceItems := sourceData st in
  match findItem target sourceItems with
  | Some (itemIndex, _) =>
      setSourceData
        (alter (fun it => mkItem (id it) (type it) (x it) (y it) (width it) newHeight
                                 (color it) (rotation it) (createdAt it) (updatedAt it))
               itemIndex sourceItems) st
  | None => st
  end.

(** [PUT /api/board-items/:id]. *)
Definition put_board_item (env : Env) (target : string) (updates : ItemPatch)
    (st : ServerState) : Response * ServerState :=
  let items := store st in
  match findItem target items with
  | None => (mkResponse 404 (ErrorBody "Board item not found"), st)
  | Some (itemIndex, old) =>
      let merged := mergeItem old updates (now env) in
      let st1 := setStore (<[itemIndex := merged]> items) st in
      let st2 :=
        match p_height updates with
        | Some h => updateSourceDataHeight target h st1
        | None => st1
        end in
      (mkResponse 200 (ItemBody merged), st2)
  end.


End FileServer.

(** ** Client: viewport, camera animation and focus handling *)

Record Viewport := mkViewport { vp_x : Q; vp_y : Q; vp_zoom : Q }.

(** [canvasRef.current.parentElement], with its client size. *)
Record Container := mkContainer { clientWidth : Q; clientHeight : Q }.

(** What one [centerOnItem] call closes over for its [animate] callback. *)
Record Animation := mkAnimation {
  a_start : Viewport;
  a_container : Container;
  a_item : BoardItem;
  a_finalZoom : Q;
  a_duration : Q;
  a_startTime : Q
}.

Inductive TimerTask :=
| HighlightSubElement (subElement : string) (duration : Q)
| RemoveHighlight (subElement : string).

Inductive ClientLog :=
| FocusRequestReceived
| ItemFound (itemId : string)
| SubElementRequested (subElement : string)
| Highlighting (subElement : string)
| SubElementNotFound (subElement : string)
| CallingCenterOnItem (itemId : string) (zoom duration : Q)
| CenterOnItemUnavailable
| ItemNotFound (targetId : option string).

Record ClientState := mkClient {
  items : list BoardItem;
  selectedItemId : option string;
  viewport : Viewport;
  container : option Container;    (* [None]: the canvas is not mounted *)
  centerOnItemExposed : bool;      (* [window.centerOnItem] is set *)
  clock : Q;                       (* [Date.now()] *)
  timers : list (Q * TimerTask);   (* due time and task of each [setTimeout] *)
  animations : list Animation;     (* pending [requestAnimationFrame] loops *)
  focusIds : list string;          (* elements carrying [data-focus-id] *)
  highlighted : list string;       (* elements with class [focus-highlighted] *)
  clientLog : list ClientLog
}.

Module Canvas.

Definition clampZoom (z : Q) : Q := Math_max 0.1 (Math_min 3 z).

Definition easeInOut (t : Q) : Q :=
  if Qltb t 0.5 then 2 * t * t else -1 + (4 - 2 * t) * t.

(** The world point shown at the middle of the container. *)
Definition centerWorld (c : Container) (v : Viewport) : Q * Q :=
  ((clientWidth c / 2 - vp_x v) / vp_zoom v,
   (clientHeight c / 2 - vp_y v) / vp_zoom v).

(** The [current] viewport that [animate] computes [elapsed] milliseconds
    after the call. *)
Definition animate (a : Animation) (elapsed : Q) : Viewport :=
  let containerWidth := clientWidth (a_container a) in
  let containerHeight := clientHeight (a_container a) in
  let start := a_start a in
  let item := a_item a in
  let finalZoom := a_finalZoom a in
  let duration := a_duration a in
  let phaseDuration := duration / 3 in
  let t1 := phaseDuration in
  let t2 := phaseDuration * 2 in
  let t3 := duration in
  let zoomOutZoom := clampZoom (vp_zoom start * 0.3) in
  let targetObjectCenterX := x item + width item / 2 in
  let targetObjectCenterY := y item + height item / 2 in
  let targetViewportX := containerWidth / 2 - targetObjectCenterX * zoomOutZoom in
  let targetViewportY := containerHeight / 2 - targetObjectCenterY * zoomOutZoom in
  let finalViewportX := containerWidth / 2 - targetObjectCenterX * finalZoom in
  let finalViewportY := containerHeight / 2 - targetObjectCenterY * finalZoom in
  if Qleb elapsed t1 then
    let k := easeInOut (elapsed / t1) in
    let currentZoom := vp_zoom start + (zoomOutZoom - vp_zoom start) * k in
    let currentCenterX := (containerWidth / 2 - vp_x start) / vp_zoom start in
    let currentCenterY := (containerHeight / 2 - vp_y start) / vp_zoom start in
    let newX := containerWidth / 2 - currentCenterX * currentZoom in
    let newY := containerHeight / 2 - currentCenterY * currentZoom in
    {| vp_x := newX; vp_y := newY; vp_zoom := currentZoom |}
  else if Qleb elapsed t2 then
    let k := easeInOut ((elapsed - t1) / (t2 - t1)) in
    let step1EndX :=
      containerWidth / 2 - ((containerWidth / 2 - vp_x start) / vp_zoom start) * zoomOutZoom in
    let step1EndY :=
      containerHeight / 2 - ((containerHeight / 2 - vp_y start) / vp_zoom start) * zoomOutZoom in
    let currentX := step1EndX + (targetViewportX - step1EndX) * k in
    let currentY := step1EndY + (targetViewportY - step1EndY) * k in
    {| vp_x := currentX; vp_y := currentY; vp_zoom := zoomOutZoom |}
  else
    let k := easeInOut ((elapsed - t2) / (t3 - t2)) in
    let currentX := targetViewportX + (finalViewportX - targetViewportX) * k in
    let currentY := targetViewportY + (finalViewportY - targetViewportY) * k in
    let currentZoom := zoomOutZoom + (finalZoom - zoomOutZoom) * k in
    {| vp_x := currentX; vp_y := currentY; vp_zoom := currentZoom |}.

(** [progress < 1]: the callback asks for another frame. *)
Definition continues (a : Animation) (elapsed : Q) : bool :=
  Qltb (Math_min (elapsed / a_duration a) 1) 1.

(** [items.find((i) => i.id === itemId)]. *)
Definition findById (itemId : string) (l : list BoardItem) : option BoardItem :=
  List.find (fun i => String.eqb (id i) itemId) l.

(** [centerOnItem(itemId, finalZoom, duration)]: returns at once when the
    item is unknown or the canvas is not mounted, and otherwise requests
    the first animation frame. *)
Definition centerOnItem (itemId : string) (finalZoom duration : Q) (st : ClientState)
  : ClientState :=
  match findById itemId (items st), container st with
  | Some item, Some c =>
      let a := mkAnimation (viewport st) c item finalZoom duration (clock st) in
      mkClient (items st) (selectedItemId st) (viewport st) (container st)
               (centerOnItemExposed st) (clock st) (timers st)
               (animations st ++ [a]) (focusIds st) (highlighted st) (clientLog st)
  | _, _ => st
  end.

(** One animation frame at time [t]: every pending loop runs [animate] and
    [updateViewport], in the order the loops were started, and stays
    pending while its progress is below 1. *)
Definition frame (t : Q) (st : ClientState) : ClientState :=
  let current :=
    fold_left (fun _ a => animate a (t - a_startTime a)) (animations st) (viewport st) in
  let pending :=
    List.filter (fun a => continues a (t - a_startTime a)) (animations st) in
  mkClient (items st) (selectedItemId st) current (container st)
           (centerOnItemExposed st) t (timers st) pending
           (focusIds st) (highlighted st) (clientLog st).

End Canvas.

Module App.

Record FocusRequest := mkFocusRequest {
  objectId : option string;
  itemId : option string;
  subElement : option string;
  focusOptions : option FocusOptionsPatch
}.

Definition say (lines : list ClientLog) (st : ClientState) : ClientState :=
  mkClient (items st) (selectedItemId st) (viewport st) (container st)
           (centerOnItemExposed st) (clock st) (timers st) (animations st)
           (focusIds st) (highlighted st) (clientLog st ++ lines).

(** [focusOnItem]: [setSelectedItemId(itemId)]. *)
Definition focusOnItem (itemId : string) (st : ClientState) : ClientState :=
  mkClient (items st) (Some itemId) (viewport st) (container st)
           (centerOnItemExposed st) (clock st) (timers st) (animations st)
           (focusIds st) (highlighted st) (clientLog st).

(** [setTimeout(task, delay)]. *)
Definition setTimeout (task : TimerTask) (delay : Q) (st : ClientState) : ClientState :=
  mkClient (items st) (selectedItemId st) (viewport st) (container st)
           (centerOnItemExposed st) (clock st) (timers st ++ [(clock st + delay, task)])
           (animations st) (focusIds st) (highlighted st) (clientLog st).

(** [items.find(i => i.id === targetId)]; no item has the id [undefined]. *)
Definition findTarget (targetId : option string) (l : list BoardItem)
  : option (string * BoardItem) :=
  match targetId with
  | Some target => (fun item => (target, item)) <$> Canvas.findById target l
  | None => None
  end.

Definition noOptions : FocusOptionsPatch := mkFocusPatch None None None None.

(** [handleFocusRequest(request)]. *)
Definition handleFocusRequest (request : FocusRequest) (st : ClientState) : ClientState :=
  let st0 := say [FocusRequestReceived] st in
  let targetId := or_str (objectId request) (itemId request) in
  match findTarget targetId (items st0) with
  | Some (target, item) =>
      let focusOptions := default noOptions (focusOptions request) in
      let zoom := or_num (fp_zoom focusOptions) 0.8 in
      let duration := or_num (fp_duration focusOptions) 3000 in
      let st1 := focusOnItem target (say [ItemFound (id item)] st0) in
      let st2 :=
        match truthy_val (subElement request) with
        | Some sub =>
            setTimeout (HighlightSubElement sub duration) 100
                       (say [SubElementRequested sub] st1)
        | None => st1
        end in
      if centerOnItemExposed st2
      then Canvas.centerOnItem target zoom duration
                               (say [CallingCenterOnItem target zoom duration] st2)
      else say [CenterOnItemUnavailable] st2
  | None => say [ItemNotFound targetId] st0
  end.

(** What a timer's callback does when it fires at time [t]. *)
Definition runTask (t : Q) (task : TimerTask) (st : ClientState) : ClientState :=
  match task with
  | HighlightSubElement sub duration =>
      if existsb (String.eqb sub) (focusIds st) then
        mkClient (items st) (selectedItemId st) (viewport st) (container st)
                 (centerOnItemExposed st) t (timers st ++ [(t + duration, RemoveHighlight sub)])
                 (animations st) (focusIds st) (highlighted st ++ [sub])
                 (clientLog st ++ [Highlighting sub])
      else say [SubElementNotFound sub] st
  | RemoveHighlight sub =>
      mkClient (items st) (selectedItemId st) (viewport st) (container st)
               (centerOnItemExposed st) t (timers st) (animations st) (focusIds st)
               (List.filter (fun s => negb (String.eqb s sub)) (highlighted st))
               (clientLog st)
  end.

End App.

(** ** Sequences of creation requests *)

Inductive CreateRequest :=
| PostTodos (b : RedisServer.TodosBody)
| PostAgents (b : RedisServer.AgentsBody)
| PostLabResults (b : RedisServer.LabResultsBody).

Definition handleCreate (env : Env) (r : CreateRequest) (st : ServerState)
  : Response * ServerState :=
  match r with
  | PostTodos b => RedisServer.post_todos env b st
  | PostAgents b => RedisServer.post_agents env b st
  | PostLabResults b => RedisServer.post_lab_results env b st
  end.

(** The server handles the requests one after the other. *)
Fixpoint serve (reqs : list (Env * CreateRequest)) (st : ServerState)
  : list Response * ServerState :=
  match reqs with
  | [] => ([], st)
  | (env, r) :: rest =>
      let '(resp, st1) := handleCreate env r st in
      let '(resps, st2) := serve rest st1 in
      (resp :: resps, st2)
  end.

(** The items returned by the successful creations, in order. *)
Definition createdItems (resps : list Response) : list BoardItem :=
  omap (fun resp => match body resp with
                    | ItemBody item => if Nat.eqb (status resp) 201 then Some item else None
                    | _ => None
                    end) resps.

(** A request that leaves out both coordinates. *)
Definition noCoordinates (r : CreateRequest) : Prop :=
  match r with
  | PostTodos b => RedisServer.todos_x b = None /\ RedisServer.todos_y b = None
  | PostAgents b => RedisServer.agents_x b = None /\ RedisServer.agents_y b = None
  | PostLabResults b => RedisServer.lab_x b = None /\ RedisServer.lab_y b = None
  end.

(** ** Vocabulary for the allocator's properties *)

Module AllocSpec.
Import Alloc.

(** The cell an item marks in the grid, if it marks one. *)
Definition cellOf (item : BoardItem) : option (nat * nat) :=
  if inGrid (itemRow item) (itemCol item)
  then Some (Z.to_nat (itemRow item), Z.to_nat (itemCol item))
  else None.

Definition occupied (items : list BoardItem) (rc : nat * nat) : bool :=
  existsb (fun it => bool_decide (cellOf it = Some rc)) items.

Definition wfGrid (g : Grid) : Prop :=
  length g = Z.to_nat maxRows /\ Forall (fun r => length r = Z.to_nat maxCols) g.

(** Exactly the first [k] cells of the scan order are taken. *)
Definition filled (k : nat) (items : list BoardItem) : Prop :=
  forall rc, occupied items rc = true <-> rc ∈ take k scanOrder.

(** How many cells of the grid the store's filtered items mark. *)
Definition markedCells (existingItems : list BoardItem) : nat :=
  length (List.filter
            (fun rc => gridAt (markGrid (taskZoneItems existingItems)) rc.1 rc.2)
            scanOrder).

(** One automatic placement: allocate, then store the new item there. *)
Definition place (env : Env) (t : TempItem) (items : list BoardItem)
  : BoardItem * list BoardItem :=
  let p := findTaskZonePosition t items in
  let item := newGridItem env t (pos_x p) (pos_y p) in
  (item, items ++ [item]).

Fixpoint placeAll (reqs : list (Env * TempItem)) (items : list BoardItem)
  : list BoardItem * list BoardItem :=
  match reqs with
  | [] => ([], items)
  | (env, t) :: rest =>
      let '(item, items1) := place env t items in
      let '(created, items2) := placeAll rest items1 in
      (item :: created, items2)
  end.

Definition isApiType (ty : string) : bool :=
  String.eqb ty "agent" || String.eqb ty "todo" || String.eqb ty "lab-result".

End AllocSpec.

(** The footprint [{ type, width, height }] a creation request declares to
    the allocator; [None] when the request fails validation. *)
Definition declared (r : CreateRequest) : option TempItem :=
  match r with
  | PostTodos b =>
      match RedisServer.todo_items b with
      | Some items =>
          if truthy_str (RedisServer.title b)
          then Some (mkTemp "todo" 420
                       (RedisServer.calculateTodoHeight (length items)
                                                        (RedisServer.description b)))
          else None
      | None => None
      end
  | PostAgents b =>
      match truthy_val (RedisServer.agent_title b),
            truthy_val (RedisServer.agent_content b) with
      | Some _, Some content => Some (mkTemp "agent" 520 (RedisServer.calculateHeight content))
      | _, _ => None
      end
  | PostLabResults b =>
      match truthy_val (RedisServer.lab_parameter b), truthy_val (RedisServer.lab_unit b),
            truthy_val (RedisServer.lab_status b), RedisServer.lab_range b with
      | Some _, Some _, Some status, Some range =>
          if Qeq_bool (or_num (RedisServer.lab_value b) 0) 0
             || negb (existsb (String.eqb status) RedisServer.validStatuses)
             || RedisServer.invalidRange range
          then None
          else Some (mkTemp "lab-result" 400 280)
      | _, _, _, _ => None
      end
  end.

Definition declaredAll (reqs : list (Env * CreateRequest)) : list (Env * TempItem) :=
  omap (fun er => (fun t => (er.1, t)) <$> declared er.2) reqs.

(** ** Sample data *)

Definition sampleEnv (n : string) : Env :=
  {| newId := "item-" +:+ n; now := "2025-01-01T00:00:00.000Z";
     randomX := 0.5; randomY := 0.25 |}.

Definition ehrItem : BoardItem :=
  mkItem "ehr-item-1" "ehr" 3200 3200 550 450 "#e8f5e8" 0 "t0" "t0".

Definition sampleServer : ServerState :=
  {| store := [ehrItem]; sourceData := []; sseClients := [1%nat; 2%nat];
     sent := []; console := [] |}.

Definition todoRequest (t : string) : CreateRequest :=
  PostTodos (RedisServer.mkTodosBody (Some t) None (Some ["a"; "b"]) None None).

Definition agentRequest (t : string) : CreateRequest :=
  PostAgents (RedisServer.mkAgentsBody (Some t) (Some "short note") None None).

Definition labRequest (p : string) : CreateRequest :=
  PostLabResults
    (RedisServer.mkLabResultsBody (Some p) (Some 28) (Some "mg/L") (Some "warning")
       (Some (RedisServer.mkLabRange (Some 1) (Some 10))) None None).

Definition sampleRequests : list (Env * CreateRequest) :=
  [(sampleEnv "1", todoRequest "first");
   (sampleEnv "2", agentRequest "second");
   (sampleEnv "3", labRequest "CRP");
   (sampleEnv "4", todoRequest "fourth")].

Definition todoCard : BoardItem :=
  mkItem "todo-1" "todo" 4260 60 420 200 "#ffffff" 0 "t0" "t0".

Definition sampleClient : ClientState :=
  {| items := [ehrItem; todoCard];
     selectedItemId := None;
     viewport := mkViewport 0 0 1;
     container := Some (mkContainer 1200 800);
     centerOnItemExposed := true;
     clock := 1000;
     timers := [];
     animations := [];
     focusIds := ["task-1"];
     highlighted := [];
     clientLog := [] |}.

(** A focus request for a known item with a sub-element, as the server
    broadcasts it by default. *)
Definition subElementRequest : App.FocusRequest :=
  App.mkFocusRequest (Some "todo-1") None (Some "task-1")
    (Some (mkFocusPatch (Some 1.5) (Some true) (Some 2000) (Some true))).

Definition unknownRequest : App.FocusRequest :=
  App.mkFocusRequest (Some "no-such-item") None None None.

(** A store whose grid-managed items take every cell of the zone. *)
Definition fullStore : list BoardItem :=
  map (fun rc => mkItem "filler" "todo" (Alloc.cellX rc.2) (Alloc.cellY rc.1)
                        420 200 "#ffffff" 0 "t0" "t0")
      Alloc.scanOrder.

Definition focusBody : RedisServer.FocusBody :=
  RedisServer.mkFocusBody None (Some "todo-1") None None.

Definition heightPatch : ItemPatch :=
  mkPatch None None None None None (Some 480) None None None None.

(** ** Further server code *)

(** [{ ...item, x, y }]: the same item at another position. *)
Definition withPosition (item : BoardItem) (px py : Q) : BoardItem :=
  mkItem (id item) (type item) px py (width item) (height item)
         (color item) (rotation item) (createdAt item) (updatedAt item).

(** *** Legacy collision avoidance of the file server *)

Module FreeForm.

Definition padding : Q := 20.
Definition maxAttempts : nat := 50.

(** The inner [for] loop: does the candidate collide with some item? *)
Definition hasCollision (testItem : BoardItem) (existingItems : list BoardItem) : bool :=
  existsb (Alloc.checkCollision testItem) existingItems.

(** The second [for] loop: the lowest bottom edge, starting from 0. *)
Definition maxBottom (existingItems : list BoardItem) : Q :=
  fold_left (fun m e => if Qltb m (y e + height e) then y e + height e else m)
            existingItems 0.

(** The [while] loop with [fuel] attempts left; [draws] is the sequence of
    [Math.random()] results and [k] the number of draws used so far. *)
Fixpoint search (fuel : nat) (newItem : BoardItem) (existingItems : list BoardItem)
    (draws : nat -> Q) (k : nat) (testX testY : Q) : Position :=
  match fuel with
  | O => mkPos testX testY
  | S fuel' =>
      if hasCollision (withPosition newItem testX testY) existingItems then
        let testY' := maxBottom existingItems + padding in
        if Qltb 8000 testY'
        then search fuel' newItem existingItems draws (S (S k))
                    (draws k * 8000 + 100) (draws (S k) * 7000 + 100)
        else search fuel' newItem existingItems draws k testX testY'
      else mkPos testX testY
  end.

Definition findNonOverlappingPosition (newItem : BoardItem)
    (existingItems : list BoardItem) (draws : nat -> Q) : Position :=
  if Qeq_bool (x newItem) 0 || Qeq_bool (y newItem) 0
  then search maxAttempts newItem existingItems draws 2
              (draws 0%nat * 8000 + 100) (draws 1%nat * 7000 + 100)
  else search maxAttempts newItem existingItems draws 0 (x newItem) (y newItem).

Record ComponentsBody := mkComponentsBody {
  c_componentType : option string;
  c_x : option Q;
  c_y : option Q;
  c_width : option Q;
  c_height : option Q
}.

(** [POST /api/components] of the file server; [draws] feeds the collision
    search, the two draws of the item literal come from [env].  The lines
    written to the console are left out. *)
Definition post_components (env : Env) (draws : nat -> Q) (b : ComponentsBody)
    (st : ServerState) : Response * ServerState :=
  match truthy_val (c_componentType b) with
  | None => (mkResponse 400 (ErrorBody "componentType is required"), st)
  | Some componentType =>
      let '(defaultWidth, defaultHeight) :=
        FileServer.componentDefaults (Some componentType) in
      let newItem :=
        {| id := newId env;
           type := "component";
           x := or_num (c_x b) (randomX env * 8000 + 100);
           y := or_num (c_y b) (randomY env * 7000 + 100);
           width := or_num (c_width b) defaultWidth;
           height := or_num (c_height b) defaultHeight;
           color := "#ffffff";
           rotation := 0;
           createdAt := now env;
           updatedAt := now env |} in
      let existingItems := store st in
      let finalPosition := findNonOverlappingPosition newItem existingItems draws in
      let placed := withPosition newItem (pos_x finalPosition) (pos_y finalPosition) in
      let st1 := setStore (existingItems ++ [placed]) st in
      let st2 := broadcastSSE (NewItemEvent placed (now env)) st1 in
      (mkResponse 201 (ItemBody placed), st2)
  end.

End FreeForm.

(** *** Deleting and listing items *)

Record Reply := mkReply { reply_status : nat; reply_text : string }.

(** [DELETE /api/board-items/:id], the same in the Redis-backed and the
    file-backed server. *)
Definition delete_board_item (target : string) (st : ServerState)
  : Reply * ServerState :=
  let items := store st in
  let filteredItems := List.filter (fun item => negb (String.eqb (id item) target)) items in
  if Nat.eqb (length filteredItems) (length items)
  then (mkReply 404 "Board item not found", st)
  else (mkReply 200 "Board item deleted successfully", setStore filteredItems st).

(** The merge of [GET /api/board-items] in the file server: the source data
    first, then the stored items whose id the source data does not have. *)
Definition get_board_items (st : ServerState) : list BoardItem :=
  let backendItems := store st in
  let sourceItems := sourceData st in
  let sourceIds := map id sourceItems in
  let uniqueBackendItems :=
    List.filter (fun item => negb (existsb (String.eqb (id item)) sourceIds)) backendItems in
  sourceItems ++ uniqueBackendItems.

(** *** Persistence of the Redis-backed server *)

Module RedisStorage.

(** [redis]: [None] when no client is connected, otherwise the value under
    the key [board:items] ([None] when the key is not set).  [sourceFile]:
    the parsed [src/data/boardItems.json], [None] when it cannot be read. *)
Record Backend := mkBackend {
  redis : option (option (list BoardItem));
  sourceFile : option (list BoardItem)
}.

(** [loadBoardItems]: the cached collection when Redis has one, else the
    source file (cached to Redis when connected), else the empty list. *)
Definition loadBoardItems (be : Backend) : list BoardItem * Backend :=
  match redis be with
  | Some (Some cachedData) => (cachedData, be)
  | Some None =>
      match sourceFile be with
      | Some items => (items, mkBackend (Some (Some items)) (sourceFile be))
      | None => ([], be)
      end
  | None =>
      match sourceFile be with
      | Some items => (items, be)
      | None => ([], be)
      end
  end.

(** [saveBoardItems]: stores the collection and answers [true] when
    connected, answers [false] and stores nothing otherwise. *)
Definition saveBoardItems (items : list BoardItem) (be : Backend) : bool * Backend :=
  match redis be with
  | Some _ => (true, mkBackend (Some (Some items)) (sourceFile be))
  | None => (false, be)
  end.

(** [POST /api/todos] with its two loads and its save written out (the
    warning logged after a failed save is left out). *)
Definition post_todos (env : Env) (b : RedisServer.TodosBody)
    (be : Backend) (st : ServerState) : Response * Backend * ServerState :=
  match RedisServer.todo_items b with
  | Some entries =>
      if truthy_str (RedisServer.title b) then
        let dynamicHeight :=
          RedisServer.calculateTodoHeight (length entries) (RedisServer.description b) in
        let '(existingItems, be1) := loadBoardItems be in
        let tempItem := mkTemp "todo" 420 dynamicHeight in
        let '(p, lines) :=
          resolvePosition "TODO" (RedisServer.todos_x b) (RedisServer.todos_y b)
                          tempItem existingItems in
        let newItem := newGridItem env tempItem (pos_x p) (pos_y p) in
        let '(items, be2) := loadBoardItems be1 in
        let '(saved, be3) := saveBoardItems (items ++ [newItem]) be2 in
        let st1 := log (LogLoaded (length existingItems) :: lines) st in
        let st2 := broadcastSSE (NewItemEvent newItem (now env)) st1 in
        (mkResponse 201 (ItemBody newItem), be3, st2)
      else
        (mkResponse 400 (ErrorBody "title (string) and todo_items (array) are required"),
         be, st)
  | None =>
      (mkResponse 400 (ErrorBody "title (string) and todo_items (array) are required"),
       be, st)
  end.

End RedisStorage.

(** *** The in-memory server *)

Module MemoryServer.

Definition CACHE_DURATION : Q := 60000.

Record Memory := mkMemory {
  boardItemsCache : option (list BoardItem);
  lastLoadTime : option Q;
  sourceFile : option (list BoardItem)     (* [None]: the file cannot be read *)
}.

(** The reading of the source file in [loadBoardItems], with its [catch]. *)
Definition reload (clockNow : Q) (m : Memory) : list BoardItem * Memory :=
  match sourceFile m with
  | Some items => (items, mkMemory (Some items) (Some clockNow) (sourceFile m))
  | None =>
      match boardItemsCache m with
      | Some cache => (cache, m)
      | None => ([], mkMemory (Some []) (lastLoadTime m) (sourceFile m))
      end
  end.

(** [loadBoardItems] at [Date.now() = clockNow]: the cache while it is
    fresh ([boardItemsCache && lastLoadTime && now - lastLoadTime <
    CACHE_DURATION]), a reload otherwise. *)
Definition loadBoardItems (clockNow : Q) (m : Memory) : list BoardItem * Memory :=
  match boardItemsCache m, lastLoadTime m with
  | Some cache, Some t =>
      if negb (Qeq_bool t 0) && Qltb (clockNow - t) CACHE_DURATION
      then (cache, m)
      else reload clockNow m
  | _, _ => reload clockNow m
  end.

(** [GET /api/board-items]. *)
Definition get_board_items (clockNow : Q) (m : Memory) : list BoardItem * Memory :=
  loadBoardItems clockNow m.

(** [POST /api/todos]: always a random position; [x] and [y] of the body
    are not read.  [st] carries the event streams. *)
Definition post_todos (env : Env) (clockNow : Q) (b : RedisServer.TodosBody)
    (m : Memory) (st : ServerState) : Response * Memory * ServerState :=
  match RedisServer.todo_items b with
  | Some entries =>
      if truthy_str (RedisServer.title b) then
        let dynamicHeight :=
          RedisServer.calculateTodoHeight (length entries) (RedisServer.description b) in
        let newItem :=
          {| id := newId env; type := "todo";
             x := randomX env * 8000 + 100;
             y := randomY env * 7000 + 100;
             width := 420; height := dynamicHeight;
             color := "#ffffff"; rotation := 0;
             createdAt := now env; updatedAt := now env |} in
        let '(items, m1) := loadBoardItems clockNow m in
        let m2 := mkMemory (Some (items ++ [newItem])) (lastLoadTime m1) (sourceFile m1) in
        (mkResponse 201 (ItemBody newItem), m2,
         broadcastSSE (NewItemEvent newItem (now env)) st)
      else
        (mkResponse 400 (ErrorBody "title (string) and todo_items (array) are required"),
         m, st)
  | None =>
      (mkResponse 400 (ErrorBody "title (string) and todo_items (array) are required"),
       m, st)
  end.

End MemoryServer.

(** *** [POST /api/focus] of the file-backed server *)

Module FileFocus.

Definition defaultOptions (subElement : option string) : FocusOptions :=
  {| fo_zoom := if truthy_str subElement then 1.5 else 1.2;
     fo_highlight := truthy_str subElement;
     fo_duration := if truthy_str subElement then 800 else 600;
     fo_scrollIntoView := true |}.

Definition post_focus (env : Env) (b : RedisServer.FocusBody) (st : ServerState)
  : Response * ServerState :=
  match truthy_val (or_str (RedisServer.itemId b) (RedisServer.objectId b)) with
  | None => (mkResponse 400 (ErrorBody "objectId or itemId is required"), st)
  | Some targetId =>
      let options :=
        mergeFocusOptions (defaultOptions (RedisServer.subElement b))
                          (RedisServer.focusOptions b) in
      let st1 := log [LogFocusRequest targetId (RedisServer.orNull (RedisServer.subElement b))] st in
      let st2 :=
        broadcastSSE (FocusEvent targetId targetId
                        (RedisServer.orNull (RedisServer.subElement b)) options (now env))
                     st1 in
      (mkResponse 200 (FocusAck targetId (RedisServer.orNull (RedisServer.subElement b)) options),
       st2)
  end.

End FileFocus.

(** ** Further client code *)

Definition withItems (l : list BoardItem) (st : ClientState) : ClientState :=
  mkClient l (selectedItemId st) (viewport st) (container st)
           (centerOnItemExposed st) (clock st) (timers st) (animations st)
           (focusIds st) (highlighted st) (clientLog st).

Definition withSelected (sel : option string) (st : ClientState) : ClientState :=
  mkClient (items st) sel (viewport st) (container st)
           (centerOnItemExposed st) (clock st) (timers st) (animations st)
           (focusIds st) (highlighted st) (clientLog st).

(** [updateViewport(newViewport)]. *)
Definition updateViewport (v : Viewport) (st : ClientState) : ClientState :=
  mkClient (items st) (selectedItemId st) v (container st)
           (centerOnItemExposed st) (clock st) (timers st) (animations st)
           (focusIds st) (highlighted st) (clientLog st).

(** [Math.round]: to the nearest integer, halves upwards. *)
Definition Math_round (q : Q) : Z := Qfloor (q + (1 # 2)).

Module Board.

(** [{ ...item, ...updates }] as the client merges it. *)
Definition patchItem (item : BoardItem) (updates : ItemPatch) : BoardItem :=
  {| id := default (id item) (p_id updates);
     type := default (type item) (p_type updates);
     x := default (x item) (p_x updates);
     y := default (y item) (p_y updates);
     width := default (width item) (p_width updates);
     height := default (height item) (p_height updates);
     color := default (color item) (p_color updates);
     rotation := default (rotation item) (p_rotation updates);
     createdAt := default (createdAt item) (p_createdAt updates);
     updatedAt := default (updatedAt item) (p_updatedAt updates) |}.

(** A [PUT /api/board-items/:id] request sent with [fetch]. *)
Record PutRequest := mkPut { put_id : string; put_body : ItemPatch }.

Definition heightOnly (h : Q) : ItemPatch :=
  mkPatch None None None None None (Some h) None None None None.

Definition positionOnly (px py : Q) : ItemPatch :=
  mkPatch None None (Some px) (Some py) None None None None None None.

(** [updateItem(id, updates)]: patches every item with that id and, when
    the height is among the updates, sends it to the backend. *)
Definition updateItem (target : string) (updates : ItemPatch) (st : ClientState)
  : ClientState * list PutRequest :=
  (withItems (map (fun item => if String.eqb (id item) target
                               then patchItem item updates else item) (items st)) st,
   match p_height updates with
   | Some h => [mkPut target (heightOnly h)]
   | None => []
   end).

(** [deleteItem(id)]. *)
Definition deleteItem (target : string) (st : ClientState) : ClientState :=
  let st1 :=
    withItems (List.filter (fun item => negb (String.eqb (id item) target)) (items st)) st in
  match selectedItemId st with
  | Some sel => if String.eqb sel target then withSelected None st1 else st1
  | None => st1
  end.

(** The merge done on load and on reset: the static data, then the API
    items whose id the static data does not have; the static data alone
    when the API is not available ([apiItems = None]). *)
Definition mergeSources (boardItemsData : list BoardItem)
    (apiItems : option (list BoardItem)) : list BoardItem :=
  match apiItems with
  | Some apiItems =>
      let staticIds := map id boardItemsData in
      let uniqueApiItems :=
        List.filter (fun item => negb (existsb (String.eqb (id item)) staticIds)) apiItems in
      boardItemsData ++ uniqueApiItems
  | None => boardItemsData
  end.

(** [resetBoard]. *)
Definition resetBoard (boardItemsData : list BoardItem)
    (apiItems : option (list BoardItem)) (st : ClientState) : ClientState :=
  withSelected None (withItems (mergeSources boardItemsData apiItems) st).

(** The [new-item] listener: the event's item is appended unless an item
    with its id is already there. *)
Definition onNewItem (newItem : option BoardItem) (st : ClientState) : ClientState :=
  match newItem with
  | None => st
  | Some newItem =>
      if existsb (fun it => String.eqb (id it) (id newItem)) (items st)
      then st
      else withItems (items st ++ [newItem]) st
  end.

(** The [focus] listener: the event's data becomes a focus request. *)
Definition onFocusEvent (dataObjectId dataItemId subElement : option string)
    (focusOptions : option FocusOptionsPatch) (st : ClientState) : ClientState :=
  App.handleFocusRequest
    (App.mkFocusRequest (or_str dataObjectId dataItemId) None subElement focusOptions) st.

Definition asPatch (o : FocusOptions) : FocusOptionsPatch :=
  mkFocusPatch (Some (fo_zoom o)) (Some (fo_highlight o))
               (Some (fo_duration o)) (Some (fo_scrollIntoView o)).

(** What the client does with a message of the event stream. *)
Definition deliver (message : SseMessage) (st : ClientState) : ClientState :=
  match message with
  | NewItemEvent item _ => onNewItem (Some item) st
  | FocusEvent objectId itemId subElement focusOptions _ =>
      onFocusEvent (Some objectId) (Some itemId) subElement (Some (asPatch focusOptions)) st
  end.

End Board.

Module View.

(** [handleWheel]: zoom by a tenth around the cursor at [(mouseX, mouseY)]. *)
Definition handleWheel (mouseX mouseY deltaY : Q) (st : ClientState) : ClientState :=
  let v := viewport st in
  let step := 0.1 in
  let factor := if Qltb 0 deltaY then 1 - step else 1 + step in
  let newZoom := Math_max 0.1 (Math_min 3 (vp_zoom v * factor)) in
  let worldX := (mouseX - vp_x v) / vp_zoom v in
  let worldY := (mouseY - vp_y v) / vp_zoom v in
  let newX := mouseX - worldX * newZoom in
  let newY := mouseY - worldY * newZoom in
  updateViewport (mkViewport newX newY newZoom) st.

(** [getViewportCenterWorld]. *)
Definition getViewportCenterWorld (st : ClientState) : option (Q * Q * Q) :=
  match container st with
  | None => None
  | Some c =>
      let v := viewport st in
      Some ((clientWidth c / 2 - vp_x v) / vp_zoom v,
            (clientHeight c / 2 - vp_y v) / vp_zoom v,
            vp_zoom v)
  end.

(** [placeItemAtViewportCenter(itemId)]: moves the item so that its centre
    is at the middle of the screen, to whole pixels, and sends the new
    position to the backend. *)
Definition placeItemAtViewportCenter (itemId : string) (st : ClientState)
  : ClientState * list Board.PutRequest :=
  match container st, Canvas.findById itemId (items st) with
  | Some c, Some item =>
      let v := viewport st in
      let centerWorldX := (clientWidth c / 2 - vp_x v) / vp_zoom v in
      let centerWorldY := (clientHeight c / 2 - vp_y v) / vp_zoom v in
      let newX := inject_Z (Math_round (centerWorldX - or_num (Some (width item)) 0 / 2)) in
      let newY := inject_Z (Math_round (centerWorldY - or_num (Some (height item)) 0 / 2)) in
      let '(st1, sent1) := Board.updateItem itemId (Board.positionOnly newX newY) st in
      (st1, sent1 ++ [Board.mkPut itemId (Board.positionOnly newX newY)])
  | _, _ => (st, [])
  end.

End View.

(** ** More sample data *)

Definition longTodoRequest : CreateRequest :=
  PostTodos (RedisServer.mkTodosBody (Some "long list") None
               (Some (replicate 12 "entry")) None None).

Definition fullServer : ServerState :=
  {| store := fullStore; sourceData := []; sseClients := [1%nat];
     sent := []; console := [] |}.

Definition noDraws : nat -> Q := fun _ => 1 # 2.

Definition componentBody : FreeForm.ComponentsBody :=
  FreeForm.mkComponentsBody (Some "LabChart") (Some 3300) (Some 3300) None None.

Definition seededServer : ServerState :=
  {| store := [todoCard]; sourceData := [ehrItem; todoCard]; sseClients := [1%nat];
     sent := []; console := [] |}.

Definition movePatch : ItemPatch :=
  mkPatch None None (Some 100) (Some 100) None None None None None None.

Definition todoBody : RedisServer.TodosBody :=
  RedisServer.mkTodosBody (Some "first") None (Some ["a"; "b"]) None None.

(** Redis connected with the key not yet set, and no Redis at all. *)
Definition unprimedBackend : RedisStorage.Backend :=
  RedisStorage.mkBackend (Some None) (Some [ehrItem]).

Definition offlineBackend : RedisStorage.Backend :=
  RedisStorage.mkBackend None (Some [ehrItem]).

(** The in-memory server before its first request. *)
Definition coldMemory : MemoryServer.Memory :=
  MemoryServer.mkMemory None None (Some [ehrItem]).

(** The file server handling the requests a client action sent, in order. *)
Definition receive (env : Env) (requests : list Board.PutRequest) (sv : ServerState)
  : ServerState :=
  fold_left (fun s r => (FileServer.put_board_item env (Board.put_id r) (Board.put_body r) s).2)
            requests sv.

(** A focus request that asks for no highlight on a sub-element. *)
Definition quietFocusBody : RedisServer.FocusBody :=
  RedisServer.mkFocusBody None (Some "todo-1") (Some "task-1")
    (Some (mkFocusPatch (Some 2) (Some false) None None)).

Definition sampleAnimation : Animation :=
  mkAnimation (mkViewport 0 0 1) (mkContainer 1200 800) todoCard 2 3000 1000.

(** * Properties *)

(** ** Arithmetic helpers *)

Lemma Qleb_le a b : Qleb a b = true <-> a <= b.
Proof. apply Qle_bool_iff. Qed.

Lemma Qltb_lt a b : Qltb a b = true <-> a < b.
Proof.
  unfold Qltb. rewrite negb_true_iff. split.
  - intros H. apply Qnot_le_lt. intros Hle.
    apply Qle_bool_iff in Hle. congruence.
  - intros H. destruct (Qle_bool b a) eqn:E; [|reflexivity].
    apply Qle_bool_iff in E. exfalso. apply (Qlt_not_le _ _ H E).
Qed.

Lemma Qleb_false a b : Qleb a b = false <-> b < a.
Proof.
  rewrite <- Qltb_lt. unfold Qltb, Qleb. rewrite negb_true_iff. tauto.
Qed.

(** ** List helpers *)

Lemma filter_partition {A} (f : A -> bool) (l : list A) :
  l ≡ₚ List.filter f l ++ List.filter (fun a => negb (f a)) l.
Proof.
  induction l as [|a l IH]; [done|]. simpl. destruct (f a); simpl.
  - by constructor.
  - by rewrite <- Permutation_middle, <- IH.
Qed.

Lemma filter_sublist {A} (f : A -> bool) (l : list A) : List.filter f l `sublist_of` l.
Proof.
  induction l as [|a l IH]; [done|]. simpl. destruct (f a).
  - by apply sublist_skip.
  - by apply sublist_cons.
Qed.

Module AllocFacts.
Import Alloc AllocSpec.

Lemma maxCols_eq : maxCols = 3%Z.
Proof. reflexivity. Qed.

Lemma maxRows_eq : maxRows = 4%Z.
Proof. reflexivity. Qed.

Lemma wf_emptyGrid : wfGrid emptyGrid.
Proof.
  split.
  - unfold emptyGrid. by rewrite length_replicate.
  - unfold emptyGrid. apply Forall_replicate. by rewrite length_replicate.
Qed.

Lemma wf_markItem g item : wfGrid g -> wfGrid (markItem g item).
Proof.
  intros [Hl Hr]. unfold markItem. destruct (inGrid _ _); [|by split].
  split.
  - by rewrite length_alter.
  - apply Forall_alter; [done|]. intros r _ Hlen. by rewrite length_insert.
Qed.

Lemma gridAt_markItem g item r c :
  wfGrid g ->
  gridAt (markItem g item) r c = gridAt g r c || bool_decide (cellOf item = Some (r, c)).
Proof.
  intros [Hl Hr]. unfold markItem, cellOf.
  destruct (inGrid (itemRow item) (itemCol item)) eqn:Hin.
  - unfold inGrid in Hin. rewrite !andb_true_iff in Hin.
    destruct Hin as [[[H1 H2] H3] H4].
    apply Z.leb_le in H1, H3. apply Z.ltb_lt in H2, H4.
    set (ri := Z.to_nat (itemRow item)). set (ci := Z.to_nat (itemCol item)).
    assert (ri < length g)%nat as Hri by (rewrite Hl; unfold ri; lia).
    destruct (lookup_lt_is_Some_2 g ri Hri) as [row Hrow].
    assert (length row = Z.to_nat maxCols) as Hrowlen.
    { rewrite Forall_forall in Hr. apply Hr. eapply list_elem_of_lookup_2; eauto. }
    unfold gridAt. destruct (decide (r = ri)) as [->|Hne].
    + rewrite list_lookup_alter_eq, Hrow. simpl.
      destruct (decide (c = ci)) as [->|Hnc].
      * rewrite list_lookup_insert_eq by (rewrite Hrowlen; unfold ci; lia).
        simpl. rewrite bool_decide_eq_true_2 by done. by rewrite orb_true_r.
      * rewrite list_lookup_insert_ne by done.
        rewrite bool_decide_eq_false_2 by congruence. by rewrite orb_false_r.
    + rewrite list_lookup_alter_ne by done.
      rewrite bool_decide_eq_false_2 by congruence. by rewrite orb_false_r.
  - rewrite bool_decide_eq_false_2 by done. by rewrite orb_false_r.
Qed.

(** A cell is set in the marked grid exactly when some item maps to it. *)
Lemma gridAt_fold items : forall g r c,
  wfGrid g ->
  gridAt (fold_left markItem items g) r c
  = gridAt g r c || existsb (fun it => bool_decide (cellOf it = Some (r, c))) items.
Proof.
  induction items as [|it items IH]; intros g r c Hwf; simpl.
  - by rewrite orb_false_r.
  - rewrite IH by (by apply wf_markItem).
    rewrite gridAt_markItem by done. by rewrite orb_assoc.
Qed.

Lemma gridAt_emptyGrid r c : gridAt emptyGrid r c = false.
Proof.
  unfold gridAt, emptyGrid.
  destruct (replicate _ _ !! r) as [row|] eqn:E; [|done].
  apply lookup_replicate in E as [-> _].
  destruct (replicate _ _ !! c) as [b|] eqn:E2; [|done].
  by apply lookup_replicate in E2 as [-> _].
Qed.

Lemma gridAt_markGrid items r c :
  gridAt (markGrid items) r c = occupied items (r, c).
Proof.
  unfold markGrid. rewrite gridAt_fold by apply wf_emptyGrid.
  by rewrite gridAt_emptyGrid.
Qed.

Lemma firstFree_markGrid items :
  firstFree (markGrid items) = List.find (fun rc => negb (occupied items rc)) scanOrder.
Proof.
  unfold firstFree. induction scanOrder as [|[r c] l IH]; [done|].
  simpl. rewrite gridAt_markGrid, IH. done.
Qed.

Lemma occupied_app items1 items2 rc :
  occupied (items1 ++ items2) rc = occupied items1 rc || occupied items2 rc.
Proof. unfold occupied. apply existsb_app. Qed.


Lemma scanOrder_eq :
  scanOrder = [(0,0); (0,1); (0,2); (1,0); (1,1); (1,2);
               (2,0); (2,1); (2,2); (3,0); (3,1); (3,2)]%nat.
Proof. reflexivity. Qed.

Lemma elem_of_scanOrder r c :
  (r, c) ∈ scanOrder <-> (r < Z.to_nat maxRows)%nat /\ (c < Z.to_nat maxCols)%nat.
Proof.
  unfold scanOrder. rewrite list_elem_of_In, in_flat_map. split.
  - intros (r' & Hr & Hc). apply in_map_iff in Hc as (c' & Heq & Hc).
    inversion Heq; subst. apply in_seq in Hr, Hc. lia.
  - intros [Hr Hc]. exists r. split; [apply in_seq; lia|].
    apply in_map_iff. exists c. split; [done|apply in_seq; lia].
Qed.

Lemma NoDup_scanOrder : NoDup scanOrder.
Proof. rewrite scanOrder_eq. apply (bool_decide_unpack _). vm_compute. done. Qed.

Lemma length_scanOrder : length scanOrder = 12%nat.
Proof. reflexivity. Qed.

Lemma cellOf_in_scanOrder item rc : cellOf item = Some rc -> rc ∈ scanOrder.
Proof.
  unfold cellOf. destruct (inGrid _ _) eqn:Hin; [|done].
  intros [= <-]. apply elem_of_scanOrder.
  unfold inGrid in Hin. rewrite !andb_true_iff in Hin.
  destruct Hin as [[[H1 H2] H3] H4].
  apply Z.leb_le in H1, H3. apply Z.ltb_lt in H2, H4. lia.
Qed.

Lemma occupied_true items rc :
  occupied items rc = true <-> exists it, it ∈ items /\ cellOf it = Some rc.
Proof.
  unfold occupied. rewrite existsb_exists. split.
  - intros (it & Hin & Hc). exists it. split; [by apply list_elem_of_In|].
    by apply bool_decide_eq_true in Hc.
  - intros (it & Hin & Hc). exists it. split; [by apply list_elem_of_In|].
    by apply bool_decide_eq_true.
Qed.

(** [find] on a list whose first [k] elements fail the test. *)
Lemma find_first {A} (f : A -> bool) (l : list A) : forall k a,
  l !! k = Some a -> f a = true ->
  (forall b, b ∈ take k l -> f b = false) ->
  List.find f l = Some a.
Proof.
  induction l as [|h l IH]; intros k a Hk Hf Hpre; [done|].
  destruct k as [|k]; simpl in *.
  - inversion Hk; subst. by rewrite Hf.
  - rewrite (Hpre h) by (left). apply (IH k); [done..|].
    intros b Hb. apply Hpre. by right.
Qed.

Lemma find_all_false {A} (f : A -> bool) (l : list A) :
  (forall a, a ∈ l -> f a = false) -> List.find f l = None.
Proof.
  induction l as [|h l IH]; intros H; [done|]. simpl.
  rewrite (H h) by left. apply IH. intros a Ha. apply H. by right.
Qed.

(** When every cell is marked, the scan finds nothing. *)
Lemma firstFree_full items :
  (forall row col, (row < Z.to_nat maxRows)%nat -> (col < Z.to_nat maxCols)%nat ->
                   gridAt (markGrid items) row col = true) ->
  firstFree (markGrid items) = None.
Proof.
  intros Hfull. unfold firstFree. apply find_all_false.
  intros [r c] Hin. apply elem_of_scanOrder in Hin as [Hr Hc].
  simpl. by rewrite Hfull.
Qed.

Lemma omap_length_le {A B} (f : A -> option B) (l : list A) :
  (length (omap f l) <= length l)%nat.
Proof. induction l as [|a l IH]; csimpl; [lia|]. destruct (f a); csimpl; lia. Qed.

(** Each item marks at most one cell, so a full grid needs at least as many
    filtered items as there are cells. *)
Lemma full_grid_count items :
  (forall row col, (row < Z.to_nat maxRows)%nat -> (col < Z.to_nat maxCols)%nat ->
                   gridAt (markGrid items) row col = true) ->
  (12 <= length items)%nat.
Proof.
  intros Hfull.
  assert (scanOrder ⊆+ omap cellOf items) as Hsub.
  { apply NoDup_submseteq; [apply NoDup_scanOrder|].
    intros [r c] Hin. apply elem_of_scanOrder in Hin as [Hr Hc].
    specialize (Hfull r c Hr Hc). rewrite gridAt_markGrid in Hfull.
    apply occupied_true in Hfull as (it & Hit & Hcell).
    apply list_elem_of_omap. eauto. }
  apply submseteq_length in Hsub. rewrite length_scanOrder in Hsub.
  pose proof (omap_length_le cellOf items) as Hle.
  lia.
Qed.

(** C3: the allocator is a total function, and whenever every one of the
    [maxRows * maxCols] cells is marked by the filtered items it returns the
    vertical stack [x = zone.x + padding],
    [y = zone.y + padding + count * (rowHeight + padding)], a position at or
    below the bottom edge of the zone. *)
Theorem allocator_overflow_stack (newItem : TempItem) (existingItems : list BoardItem) :
  (forall row col, (row < Z.to_nat maxRows)%nat -> (col < Z.to_nat maxCols)%nat ->
     gridAt (markGrid (taskZoneItems existingItems)) row col = true) ->
  let p := findTaskZonePosition newItem existingItems in
  let count := inject_Z (Z.of_nat (length (taskZoneItems existingItems))) in
  pos_x p = zone_x TASK_ZONE + padding /\
  pos_y p = zone_y TASK_ZONE + padding + count * (rowHeight + padding) /\
  zone_y TASK_ZONE + zone_height TASK_ZONE <= pos_y p.
Proof.
  intros Hfull p count. subst p count. unfold findTaskZonePosition.
  rewrite (firstFree_full _ Hfull). simpl. repeat split.
  pose proof (full_grid_count _ Hfull) as Hcount.
  assert (inject_Z 12 <= inject_Z (Z.of_nat (length (taskZoneItems existingItems)))) as Hq.
  { rewrite <- Zle_Qle. lia. }
  unfold TASK_ZONE, rowHeight, padding; simpl.
  revert Hq. generalize (inject_Z (Z.of_nat (length (taskZoneItems existingItems)))).
  intros q Hq. change (inject_Z 12) with 12 in Hq. lra.
Qed.

Lemma taskZoneItems_app l1 l2 :
  taskZoneItems (l1 ++ l2) = taskZoneItems l1 ++ taskZoneItems l2.
Proof. unfold taskZoneItems. apply List.filter_app. Qed.

Lemma isApiItem_type item : isApiItem item = isApiType (type item).
Proof. reflexivity. Qed.

(** An item stored at the coordinates of a grid cell lies in the zone and
    marks that very cell. *)
Lemma placed_item_cell r c item :
  (r, c) ∈ scanOrder -> x item = cellX c -> y item = cellY r ->
  inTaskZone item = true /\ cellOf item = Some (r, c).
Proof.
  intros Hin Hx Hy. unfold inTaskZone, cellOf, itemRow, itemCol.
  rewrite Hx, Hy. rewrite scanOrder_eq in Hin.
  repeat (apply elem_of_cons in Hin as [Hin|Hin];
          [inversion Hin; subst; vm_compute; done|]).
  by apply elem_of_nil in Hin.
Qed.

Lemma lookup_scanOrder k rc :
  scanOrder !! k = Some rc ->
  rc = (k / Z.to_nat maxCols, k mod Z.to_nat maxCols)%nat /\ (k < 12)%nat.
Proof.
  rewrite scanOrder_eq. intros H.
  do 12 (destruct k as [|k]; [inversion H; subst; vm_compute; split; [done|lia]|]).
  done.
Qed.

Lemma scanOrder_lookup_lt k :
  (k < 12)%nat -> exists rc, scanOrder !! k = Some rc.
Proof.
  intros H. apply lookup_lt_is_Some_2. by rewrite length_scanOrder.
Qed.

Lemma firstFree_filled k items rc :
  filled k items -> scanOrder !! k = Some rc ->
  firstFree (markGrid items) = Some rc.
Proof.
  intros Hfill Hk. rewrite firstFree_markGrid.
  assert (rc ∉ take k scanOrder) as Hfresh.
  { intros Hin. apply list_elem_of_lookup in Hin as [j Hj].
    pose proof (lookup_lt_Some _ _ _ Hj) as Hlt. rewrite length_take in Hlt.
    rewrite lookup_take_lt in Hj by lia.
    pose proof (NoDup_lookup _ _ _ _ NoDup_scanOrder Hj Hk). lia. }
  apply (find_first _ _ k); [done| |].
  - destruct (occupied items rc) eqn:E; [|done].
    apply Hfill in E. done.
  - intros b Hb. apply Hfill in Hb. by rewrite Hb.
Qed.

Lemma filled_step k items item rc :
  filled k items -> scanOrder !! k = Some rc -> cellOf item = Some rc ->
  filled (S k) (items ++ [item]).
Proof.
  intros Hfill Hk Hcell rc'. rewrite occupied_app, orb_true_iff.
  rewrite (take_S_r _ _ _ Hk), elem_of_app, list_elem_of_singleton.
  rewrite (Hfill rc'). unfold occupied. simpl. rewrite orb_false_r.
  rewrite bool_decide_eq_true, Hcell. split; intros [H|H]; auto.
  - right. congruence.
  - right. congruence.
Qed.

Lemma filled_nil : filled 0 [].
Proof. intros rc. simpl. split; [done|]. intros H. by apply elem_of_nil in H. Qed.

(** One placement into a grid whose first [k] cells are taken goes to cell
    number [k] of the scan order. *)
Lemma place_next env t items k rc :
  filled k (taskZoneItems items) -> scanOrder !! k = Some rc ->
  isApiType (temp_type t) = true ->
  (place env t items).1 = newGridItem env t (cellX rc.2) (cellY rc.1) /\
  filled (S k) (taskZoneItems (place env t items).2).
Proof.
  intros Hfill Hk Hty. unfold place, findTaskZonePosition.
  rewrite (firstFree_filled _ _ _ Hfill Hk). destruct rc as [r c]. simpl.
  split; [done|].
  set (item := newGridItem env t (cellX c) (cellY r)).
  assert ((r, c) ∈ scanOrder) as Hin by (eapply list_elem_of_lookup_2; eauto).
  destruct (placed_item_cell r c item Hin eq_refl eq_refl) as [Hzone Hcell].
  rewrite taskZoneItems_app.
  assert (taskZoneItems [item] = [item]) as ->.
  { unfold taskZoneItems. simpl. rewrite Hzone, isApiItem_type. simpl. by rewrite Hty. }
  by eapply filled_step.
Qed.

Lemma placeAll_cons env t reqs items :
  placeAll ((env, t) :: reqs) items
  = ((place env t items).1 :: (placeAll reqs (place env t items).2).1,
     (placeAll reqs (place env t items).2).2).
Proof.
  cbn [placeAll]. destruct (place env t items) as [item items1]. cbn [fst snd].
  by destruct (placeAll reqs items1).
Qed.

Lemma place_store env t items :
  (place env t items).2 = items ++ [(place env t items).1].
Proof. reflexivity. Qed.

Lemma placeAll_store reqs : forall items,
  (placeAll reqs items).2 = items ++ (placeAll reqs items).1 /\
  length (placeAll reqs items).1 = length reqs.
Proof.
  induction reqs as [|[env t] reqs IH]; intros items.
  - simpl. by rewrite app_nil_r.
  - rewrite placeAll_cons. cbn [fst snd length].
    destruct (IH (place env t items).2) as [Hst Hlen].
    rewrite Hlen, Hst, place_store, <- app_assoc. done.
Qed.

(** A run of placements fills the cells [k], [k+1], ... in scan order, for
    as long as cells remain. *)
Lemma placeAll_fill reqs : forall items k,
  filled k (taskZoneItems items) ->
  Forall (fun et => isApiType (temp_type et.2) = true) reqs ->
  forall i item, (k + i < 12)%nat -> (placeAll reqs items).1 !! i = Some item ->
    exists env t rc, reqs !! i = Some (env, t) /\ scanOrder !! (k + i)%nat = Some rc /\
                     item = newGridItem env t (cellX rc.2) (cellY rc.1).
Proof.
  induction reqs as [|[env t] reqs IH]; intros items k Hfill Hty i item Hcap Hi.
  - done.
  - rewrite placeAll_cons in Hi. cbn [fst snd] in Hi.
    apply Forall_cons in Hty as [Hty Htys]. cbn [snd] in Hty.
    destruct (scanOrder_lookup_lt k) as [rc Hk]; [lia|].
    destruct (place_next env t items k rc Hfill Hk Hty) as [Hitem Hfill'].
    destruct i as [|i]; cbn in Hi.
    + inversion Hi; subst item. exists env, t, rc.
      rewrite Nat.add_0_r. done.
    + destruct (IH (place env t items).2 (S k) Hfill' Htys i item ltac:(lia) Hi)
        as (env' & t' & rc' & Hr & Hs & He).
      exists env', t', rc'. replace (k + S i)%nat with (S k + i)%nat by lia. done.
Qed.

Lemma markedCells_occupied items :
  markedCells items = length (List.filter (occupied (taskZoneItems items)) scanOrder).
Proof.
  unfold markedCells. f_equal. apply filter_ext. intros [r c]. apply gridAt_markGrid.
Qed.

Lemma filter_none {A} (f : A -> bool) (l : list A) :
  (forall a, a ∈ l -> f a = false) -> List.filter f l = [].
Proof.
  induction l as [|h l IH]; intros H; [done|]. simpl.
  rewrite (H h) by left. apply IH. intros a Ha. apply H. by right.
Qed.





End AllocFacts.

(** ** Creation handlers and the allocator *)

Module ServeFacts.
Import Alloc AllocSpec AllocFacts.

Lemma declared_api r t : declared r = Some t -> isApiType (temp_type t) = true.
Proof.
  destruct r as [b|b|b]; simpl.
  - destruct (RedisServer.todo_items b); [|done].
    destruct (truthy_str _); [|done]. by intros [= <-].
  - destruct (truthy_val (RedisServer.agent_title b)); [|done].
    destruct (truthy_val (RedisServer.agent_content b)); [|done]. by intros [= <-].
  - destruct (truthy_val (RedisServer.lab_parameter b)); [|done].
    destruct (truthy_val (RedisServer.lab_unit b)); [|done].
    destruct (truthy_val (RedisServer.lab_status b)); [|done].
    destruct (RedisServer.lab_range b); [|done].
    destruct (_ || _); [done|]. by intros [= <-].
Qed.

(** Without coordinates in the body, a valid request is one placement and
    an invalid one changes nothing. *)
Lemma handleCreate_auto env r st :
  noCoordinates r ->
  match declared r with
  | Some t =>
      (handleCreate env r st).1 = mkResponse 201 (ItemBody (place env t (store st)).1) /\
      store (handleCreate env r st).2 = (place env t (store st)).2
  | None =>
      createdItems [(handleCreate env r st).1] = [] /\ (handleCreate env r st).2 = st
  end.
Proof.
  destruct r as [b|b|b]; simpl; intros [Hx Hy].
  - unfold RedisServer.post_todos. destruct (RedisServer.todo_items b); [|done].
    destruct (truthy_str (RedisServer.title b)); [|done].
    rewrite Hx, Hy. simpl. done.
  - unfold RedisServer.post_agents.
    destruct (truthy_val (RedisServer.agent_title b)); [|done].
    destruct (truthy_val (RedisServer.agent_content b)); [|done].
    rewrite Hx, Hy. simpl. done.
  - unfold RedisServer.post_lab_results.
    destruct (truthy_val (RedisServer.lab_parameter b)); [|done].
    destruct (truthy_val (RedisServer.lab_unit b)); [|done].
    destruct (truthy_val (RedisServer.lab_status b)) as [status|]; [|done].
    destruct (RedisServer.lab_range b) as [range|]; [|done].
    destruct (Qeq_bool _ 0); [done|].
    destruct (negb _); [done|].
    destruct (RedisServer.invalidRange range); [done|].
    rewrite Hx, Hy. simpl. done.
Qed.

Lemma serve_cons env r reqs st :
  serve ((env, r) :: reqs) st
  = ((handleCreate env r st).1 :: (serve reqs (handleCreate env r st).2).1,
     (serve reqs (handleCreate env r st).2).2).
Proof.
  cbn [serve]. destruct (handleCreate env r st) as [resp st1]. cbn [fst snd].
  by destruct (serve reqs st1).
Qed.

Lemma serve_placeAll reqs : forall st,
  Forall (fun er => noCoordinates er.2) reqs ->
  createdItems (serve reqs st).1 = (placeAll (declaredAll reqs) (store st)).1 /\
  store (serve reqs st).2 = (placeAll (declaredAll reqs) (store st)).2.
Proof.
  induction reqs as [|[env r] reqs IH]; intros st Hno.
  - done.
  - apply Forall_cons in Hno as [Hno Hnos]. cbn [snd] in Hno.
    rewrite serve_cons. cbn [fst snd].
    pose proof (handleCreate_auto env r st Hno) as Hh.
    destruct (IH (handleCreate env r st).2 Hnos) as [IH1 IH2].
    unfold declaredAll. cbn [omap list_omap fst snd].
    fold (declaredAll reqs).
    destruct (declared r) as [t|] eqn:Hd; cbn [fmap option_fmap option_map].
    + destruct Hh as [Hresp Hstore]. rewrite placeAll_cons. cbn [fst snd].
      rewrite <- Hstore, <- IH1, <- IH2. split; [|done].
      unfold createdItems. cbn [omap list_omap]. rewrite Hresp. done.
    + destruct Hh as [Hresp Hst]. rewrite Hst in *. rewrite <- IH1, <- IH2.
      split; [|done].
      change ((handleCreate env r st).1 :: (serve reqs st).1)
        with ([(handleCreate env r st).1] ++ (serve reqs st).1).
      unfold createdItems in *. rewrite omap_app, Hresp. done.
Qed.

Lemma declaredAll_api reqs :
  Forall (fun et => isApiType (temp_type et.2) = true) (declaredAll reqs).
Proof.
  apply Forall_forall. intros [env t] Hin.
  apply list_elem_of_omap in Hin as ([env' r] & _ & Heq). simpl in Heq.
  destruct (declared r) eqn:Hd; [|done]. inversion Heq; subst.
  by eapply declared_api.
Qed.

(** The [k]-th item created in a zone that held no grid-managed item sits at
    cell number [k] of the scan order. *)
Lemma created_cell st0 reqs k item :
  taskZoneItems (store st0) = [] ->
  Forall (fun er => noCoordinates er.2) reqs ->
  (k < 12)%nat ->
  createdItems (serve reqs st0).1 !! k = Some item ->
  x item = cellX (k mod Z.to_nat maxCols) /\ y item = cellY (k / Z.to_nat maxCols).
Proof.
  intros Hempty Hno Hk Hitem.
  destruct (serve_placeAll reqs st0 Hno) as [Hc _]. rewrite Hc in Hitem.
  assert (filled 0 (taskZoneItems (store st0))) as Hfill
    by (rewrite Hempty; apply filled_nil).
  destruct (placeAll_fill _ _ 0%nat Hfill (declaredAll_api reqs) k item ltac:(lia) Hitem)
    as (env & t & rc & _ & Hrc & ->).
  apply lookup_scanOrder in Hrc as [-> _]. done.
Qed.


Lemma serve_length reqs : forall st, length (serve reqs st).1 = length reqs.
Proof.
  induction reqs as [|[env r] reqs IH]; intros st; [done|].
  rewrite serve_cons. cbn [fst length]. by rewrite IH.
Qed.

(** When as many items were created as there were responses, every
    response is a 201. *)
Lemma created_all_answered resps :
  length (createdItems resps) = length resps ->
  Forall (fun resp => status resp = 201%nat) resps.
Proof.
  induction resps as [|resp resps IH]; [constructor|].
  unfold createdItems. cbn [omap list_omap]. fold (createdItems resps).
  pose proof (omap_length_le
                (fun resp => match body resp with
                             | ItemBody item =>
                                 if Nat.eqb (status resp) 201 then Some item else None
                             | _ => None
                             end) resps) as Hle.
  fold (createdItems resps) in Hle.
  destruct (body resp) as [e|item|? ? ?|? ?]; cbn [length]; try lia.
  destruct (Nat.eqb_spec (status resp) 201) as [H201|]; cbn [length]; [|lia].
  intros Hlen. constructor; [done|]. apply IH. lia.
Qed.

(** Every request of a sequence of todo requests that carry a non-empty
    title and an array of entries passes validation. *)
Lemma declaredAll_todos reqs :
  Forall (fun er => exists b, er.2 = PostTodos b /\
                               truthy_str (RedisServer.title b) = true /\
                               is_Some (RedisServer.todo_items b)) reqs ->
  length (declaredAll reqs) = length reqs.
Proof.
  induction 1 as [|[env r] reqs (b & Hr & Ht & [entries He]) _ IH]; [done|].
  cbn [snd] in Hr. subst r. unfold declaredAll. cbn [omap list_omap fst snd declared].
  rewrite He, Ht. cbn [fmap option_fmap option_map length]. fold (declaredAll reqs).
  by rewrite IH.
Qed.

(** C2: starting from a zone that holds no grid-managed item, successive
    creations without coordinates fill the cells row by row, left to right:
    creation number [k] (while cells remain) is stored at
    [x = zone.x + col * colWidth + padding],
    [y = zone.y + row * rowHeight + padding] with [row = k / maxCols] and
    [col = k mod maxCols]; for the Task Management Zone the first three
    creations land at (4260,60), (4820,60), (5380,60) and the fourth at
    (4260,550).  The creations do happen: the server creates one item for
    every request that passes validation (for todo requests: a non-empty
    title and an array of entries), so creation number [k] exists, at that
    cell, as soon as more than [k] requests pass. *)
Theorem fill_order_row_major (st0 : ServerState) (reqs : list (Env * CreateRequest)) :
  taskZoneItems (store st0) = [] ->
  Forall (fun er => noCoordinates er.2) reqs ->
  (forall k item,
     (k < Z.to_nat maxRows * Z.to_nat maxCols)%nat ->
     createdItems (serve reqs st0).1 !! k = Some item ->
     x item = zone_x TASK_ZONE
              + inject_Z (Z.of_nat (k mod Z.to_nat maxCols)) * colWidth + padding /\
     y item = zone_y TASK_ZONE
              + inject_Z (Z.of_nat (k / Z.to_nat maxCols)) * rowHeight + padding) /\
  (forall item, createdItems (serve reqs st0).1 !! 0%nat = Some item ->
     x item = 4260 /\ y item = 60) /\
  (forall item, createdItems (serve reqs st0).1 !! 1%nat = Some item ->
     x item = 4820 /\ y item = 60) /\
  (forall item, createdItems (serve reqs st0).1 !! 2%nat = Some item ->
     x item = 5380 /\ y item = 60) /\
  (forall item, createdItems (serve reqs st0).1 !! 3%nat = Some item ->
     x item = 4260 /\ y item = 550) /\
  length (createdItems (serve reqs st0).1) = length (declaredAll reqs) /\
  length (store (serve reqs st0).2) = (length (store st0) + length (declaredAll reqs))%nat /\
  (Forall (fun er => exists b, er.2 = PostTodos b /\
                                truthy_str (RedisServer.title b) = true /\
                                is_Some (RedisServer.todo_items b)) reqs ->
   length (createdItems (serve reqs st0).1) = length reqs /\
   Forall (fun resp => status resp = 201%nat) (serve reqs st0).1) /\
  (forall k,
     (k < Z.to_nat maxRows * Z.to_nat maxCols)%nat ->
     (k < length (declaredAll reqs))%nat ->
     exists item,
       createdItems (serve reqs st0).1 !! k = Some item /\
       item ∈ store (serve reqs st0).2 /\
       x item = zone_x TASK_ZONE
                + inject_Z (Z.of_nat (k mod Z.to_nat maxCols)) * colWidth + padding /\
       y item = zone_y TASK_ZONE
                + inject_Z (Z.of_nat (k / Z.to_nat maxCols)) * rowHeight + padding).
Proof.
  intros Hempty Hno.
  assert (forall k item, (k < 12)%nat ->
            createdItems (serve reqs st0).1 !! k = Some item ->
            x item = cellX (k mod Z.to_nat maxCols) /\
            y item = cellY (k / Z.to_nat maxCols)) as Hcell.
  { intros k item Hk Hi. by eapply created_cell. }
  destruct (serve_placeAll reqs st0 Hno) as [Hcreated Hstore].
  destruct (placeAll_store (declaredAll reqs) (store st0)) as [Happ Hplaced].
  assert (length (createdItems (serve reqs st0).1) = length (declaredAll reqs)) as Hlen
    by (by rewrite Hcreated).
  split; [|split; [|split; [|split; [|split; [|split; [|split; [|split]]]]]]].
  - intros k item Hk Hi. change (Z.to_nat maxRows * Z.to_nat maxCols)%nat with 12%nat in Hk.
    exact (Hcell k item Hk Hi).
  - intros item Hi. by apply (Hcell 0%nat item ltac:(lia)).
  - intros item Hi. by apply (Hcell 1%nat item ltac:(lia)).
  - intros item Hi. by apply (Hcell 2%nat item ltac:(lia)).
  - intros item Hi. by apply (Hcell 3%nat item ltac:(lia)).
  - exact Hlen.
  - rewrite Hstore, Happ, length_app, Hplaced. done.
  - intros Htodos. pose proof (declaredAll_todos reqs Htodos) as Hall.
    split; [by rewrite Hlen|].
    apply created_all_answered. by rewrite Hlen, serve_length.
  - intros k Hk Hvalid. change (Z.to_nat maxRows * Z.to_nat maxCols)%nat with 12%nat in Hk.
    destruct (lookup_lt_is_Some_2 (createdItems (serve reqs st0).1) k) as [item Hi];
      [by rewrite Hlen|].
    exists item. split; [done|]. split; [|exact (Hcell k item Hk Hi)].
    rewrite Hstore, Happ. apply elem_of_app. right.
    rewrite <- Hcreated. by eapply list_elem_of_lookup_2.
Qed.

Lemma sampleServer_empty_zone : taskZoneItems (store sampleServer) = [].
Proof. reflexivity. Defined.

Lemma sampleRequests_noCoordinates :
  Forall (fun er => noCoordinates er.2) sampleRequests.
Proof. repeat constructor. Defined.

Lemma fill_order_row_major_witness :
  taskZoneItems (store sampleServer) = [] /\
  Forall (fun er => noCoordinates er.2) sampleRequests /\
  (forall item, createdItems (serve sampleRequests sampleServer).1 !! 3%nat = Some item ->
     x item = 4260 /\ y item = 550) /\
  length (createdItems (serve sampleRequests sampleServer).1) = 4%nat /\
  (exists item,
     createdItems (serve sampleRequests sampleServer).1 !! 0%nat = Some item /\
     x item = 4260 /\ y item = 60) /\
  (exists item,
     createdItems (serve sampleRequests sampleServer).1 !! 3%nat = Some item /\
     item ∈ store (serve sampleRequests sampleServer).2 /\
     x item = 4260 /\ y item = 550).
Proof.
  split; [exact sampleServer_empty_zone|].
  split; [exact sampleRequests_noCoordinates|].
  destruct (fill_order_row_major sampleServer sampleRequests
              sampleServer_empty_zone sampleRequests_noCoordinates)
    as (_ & Hfirst & _ & _ & Hfourth & Hlen & _ & _ & Hexists).
  split; [exact Hfourth|]. split; [exact Hlen|].
  assert (0 < Z.to_nat maxRows * Z.to_nat maxCols)%nat as Hc0 by (vm_compute; lia).
  assert (3 < Z.to_nat maxRows * Z.to_nat maxCols)%nat as Hc3 by (vm_compute; lia).
  assert (0 < length (declaredAll sampleRequests))%nat as Hv0 by (vm_compute; lia).
  assert (3 < length (declaredAll sampleRequests))%nat as Hv3 by (vm_compute; lia).
  split.
  - destruct (Hexists 0%nat Hc0 Hv0) as (item & Hi & _ & _).
    exists item. split; [exact Hi|exact (Hfirst item Hi)].
  - destruct (Hexists 3%nat Hc3 Hv3) as (item & Hi & Hin & _).
    exists item. split; [exact Hi|]. split; [exact Hin|exact (Hfourth item Hi)].
Defined.


Lemma empty_zone_unmarked items : taskZoneItems items = [] -> markedCells items = 0%nat.
Proof.
  intros Hempty. rewrite markedCells_occupied, Hempty.
  by rewrite (filter_none (occupied [])).
Qed.


End ServeFacts.

(** ** Server endpoints *)

Module ServerFacts.
Import Alloc.

Lemma truthy_val_Some s t : truthy_val s = Some t <-> s = Some t /\ truthy_str s = true.
Proof.
  destruct s as [s|]; simpl.
  - destruct (String.eqb s EmptyString) eqn:E; simpl.
    + split; [done|]. by intros [_ H].
    + split; [by intros [= ->]|]. by intros [[= ->] _].
  - split; [done|]. by intros [H _].
Qed.

Lemma truthy_val_None s : truthy_val s = None <-> truthy_str s = false.
Proof. destruct s as [s|]; simpl; [|done]. by destruct (String.eqb s EmptyString). Qed.

Lemma truthy_or_str a b : truthy_str (or_str a b) = truthy_str a || truthy_str b.
Proof. unfold or_str. by destruct (truthy_str a) eqn:E; rewrite ?E. Qed.

(** With both coordinates in the body, [POST /api/todos] stores the item at
    exactly those coordinates and the allocator does not run: the only lines
    logged are the load and the "using provided coordinates" line. *)
Lemma post_todos_explicit_coordinates env b st bx by_ items :
  RedisServer.todos_x b = Some bx -> RedisServer.todos_y b = Some by_ ->
  RedisServer.todo_items b = Some items -> truthy_str (RedisServer.title b) = true ->
  exists item,
    (RedisServer.post_todos env b st).1 = mkResponse 201 (ItemBody item) /\
    store (RedisServer.post_todos env b st).2 = store st ++ [item] /\
    x item = bx /\ y item = by_ /\
    console (RedisServer.post_todos env b st).2
    = console st ++ [LogLoaded (length (store st)); LogUsingProvided "TODO" bx by_].
Proof.
  intros Hx Hy Hitems Htitle. unfold RedisServer.post_todos.
  rewrite Hitems, Htitle, Hx, Hy. simpl. eexists. repeat split.
Qed.

(** With a coordinate left out, the same handler asks the allocator. *)
Lemma post_todos_omitted_coordinates env b st items :
  RedisServer.todos_x b = None \/ RedisServer.todos_y b = None ->
  RedisServer.todo_items b = Some items -> truthy_str (RedisServer.title b) = true ->
  exists item,
    (RedisServer.post_todos env b st).1 = mkResponse 201 (ItemBody item) /\
    mkPos (x item) (y item)
    = findTaskZonePosition
        (mkTemp "todo" 420
           (RedisServer.calculateTodoHeight (length items) (RedisServer.description b)))
        (store st) /\
    In (LogFindingPosition "todo") (console (RedisServer.post_todos env b st).2).
Proof.
  intros Hxy Hitems Htitle. unfold RedisServer.post_todos.
  rewrite Hitems, Htitle.
  set (t := mkTemp _ _ _).
  assert (resolvePosition "TODO" (RedisServer.todos_x b) (RedisServer.todos_y b) t (store st)
          = (findTaskZonePosition t (store st),
             [LogFindingPosition "todo";
              LogAutoPositioned "TODO" (pos_x (findTaskZonePosition t (store st)))
                                (pos_y (findTaskZonePosition t (store st)))])) as ->.
  { unfold resolvePosition.
    destruct Hxy as [-> | ->]; [done|]. by destruct (RedisServer.todos_x b). }
  cbn [fst snd]. eexists. split; [done|]. split.
  - cbn [x y newGridItem]. by destruct (findTaskZonePosition t (store st)).
  - cbn [console broadcastSSE setStore log]. apply in_or_app. right. right. by left.
Qed.

(** C5, at the failing input: [POST /api/board-items] with the explicit
    coordinates [x = 0], [y = 0] does not store the item at (0,0); the falsy
    zero falls through [x || ...] to the random default
    [Math.random() * 8000 + 100] (and likewise for [y]), which is at least
    100 for every draw in [0,1). *)
Theorem post_board_items_zero_coordinates (env : Env) (st : ServerState) :
  0 <= randomX env -> 0 <= randomY env ->
  let b := FileServer.mkBoardItemBody (Some "sticky") None (Some 0) (Some 0)
                                      None None None None in
  exists item,
    (FileServer.post_board_items env b st).1 = mkResponse 201 (ItemBody item) /\
    store (FileServer.post_board_items env b st).2 = store st ++ [item] /\
    x item = randomX env * 8000 + 100 /\
    y item = randomY env * 7000 + 100 /\
    ~ x item == 0 /\ ~ y item == 0.
Proof.
  intros Hx Hy b. eexists.
  split; [reflexivity|]. split; [reflexivity|].
  split; [reflexivity|]. split; [reflexivity|].
  split; intros H.
  - change (randomX env * 8000 + 100 == 0) in H. lra.
  - change (randomY env * 7000 + 100 == 0) in H. lra.
Qed.

Lemma post_board_items_zero_coordinates_witness :
  0 <= randomX (sampleEnv "1") /\ 0 <= randomY (sampleEnv "1") /\
  exists item,
    (FileServer.post_board_items (sampleEnv "1")
       (FileServer.mkBoardItemBody (Some "sticky") None (Some 0) (Some 0)
                                   None None None None) sampleServer).1
    = mkResponse 201 (ItemBody item) /\
    x item == 4100.
Proof.
  assert (0 <= randomX (sampleEnv "1")) as Hx by (vm_compute; discriminate).
  assert (0 <= randomY (sampleEnv "1")) as Hy by (vm_compute; discriminate).
  split; [exact Hx|]. split; [exact Hy|].
  destruct (post_board_items_zero_coordinates (sampleEnv "1") sampleServer Hx Hy)
    as (item & Hresp & _ & Hxi & _).
  exists item. split; [exact Hresp|]. rewrite Hxi. reflexivity.
Defined.

(** Nonzero coordinates do go through verbatim on this endpoint. *)
Lemma post_board_items_nonzero_coordinates env b st bx by_ :
  truthy_str (FileServer.b_type b) = true ->
  FileServer.b_x b = Some bx -> FileServer.b_y b = Some by_ ->
  ~ bx == 0 -> ~ by_ == 0 ->
  exists item,
    (FileServer.post_board_items env b st).1 = mkResponse 201 (ItemBody item) /\
    x item = bx /\ y item = by_.
Proof.
  intros Hty Hx Hy Hbx Hby. unfold FileServer.post_board_items.
  destruct (truthy_val (FileServer.b_type b)) as [ty|] eqn:Et;
    [|by apply truthy_val_None in Et; rewrite Et in Hty].
  rewrite Hx, Hy.
  destruct (if String.eqb _ _ then _ else _) as [w h]. eexists. split; [done|].
  cbn [x y or_num].
  destruct (Qeq_bool bx 0) eqn:E1; [by apply Qeq_bool_iff in E1|].
  destruct (Qeq_bool by_ 0) eqn:E2; [by apply Qeq_bool_iff in E2|]. done.
Qed.

(** C6: [POST /api/focus] answers 400 exactly when neither [itemId] nor
    [objectId] holds a non-empty identifier.  Otherwise it answers 200 with
    the normalized identifier ([itemId] when non-empty, else [objectId]),
    the sub-element and the merged options, and writes one focus event,
    carrying that identifier as both [objectId] and [itemId], to every
    connected client; the store is not touched. *)
Theorem post_focus_contract (env : Env) (b : RedisServer.FocusBody) (st : ServerState) :
  (status (RedisServer.post_focus env b st).1 = 400%nat <->
   truthy_str (RedisServer.itemId b) = false /\
   truthy_str (RedisServer.objectId b) = false) /\
  (truthy_str (RedisServer.itemId b) = true \/
   truthy_str (RedisServer.objectId b) = true ->
   exists targetId,
     Some targetId = (if truthy_str (RedisServer.itemId b)
                      then RedisServer.itemId b else RedisServer.objectId b) /\
     let sub := RedisServer.orNull (RedisServer.subElement b) in
     let options :=
       mergeFocusOptions (RedisServer.defaultOptions (RedisServer.subElement b))
                         (RedisServer.focusOptions b) in
     (RedisServer.post_focus env b st).1
     = mkResponse 200 (FocusAck targetId sub options) /\
     sent (RedisServer.post_focus env b st).2
     = sent st ++ map (fun client =>
                         (client, FocusEvent targetId targetId sub options (now env)))
                      (sseClients st) /\
     store (RedisServer.post_focus env b st).2 = store st /\
     sseClients (RedisServer.post_focus env b st).2 = sseClients st).
Proof.
  unfold RedisServer.post_focus.
  destruct (truthy_val (or_str (RedisServer.itemId b) (RedisServer.objectId b)))
    as [targetId|] eqn:Ht.
  - apply truthy_val_Some in Ht as [Hor Htr]. rewrite truthy_or_str in Htr.
    split.
    + cbn [fst status]. split; [done|]. intros [H1 H2]. by rewrite H1, H2 in Htr.
    + intros _. exists targetId. split; [by rewrite <- Hor|]. done.
  - apply truthy_val_None in Ht. rewrite truthy_or_str in Ht.
    apply orb_false_iff in Ht as [H1 H2]. split.
    + done.
    + rewrite H1, H2. by intros [?|?].
Qed.


(** The item [findItem] returns is the first one with that id. *)
Lemma findItem_Some target items i old :
  findItem target items = Some (i, old) <->
  items !! i = Some old /\ id old = target /\
  forall j other, items !! j = Some other -> (j < i)%nat -> id other <> target.
Proof. unfold findItem. apply (list_find_Some (fun item => id item = target)). Qed.

Lemma findItem_None target items :
  findItem target items = None <-> forall item, item ∈ items -> id item <> target.
Proof. unfold findItem. rewrite list_find_None, Forall_forall. done. Qed.

Lemma findItem_is_Some target items :
  (exists item, item ∈ items /\ id item = target) ->
  exists i old, findItem target items = Some (i, old).
Proof.
  intros (item & Hin & Hid).
  destruct (findItem target items) as [[i old]|] eqn:E; [eauto|].
  rewrite findItem_None in E. by destruct (E item Hin).
Qed.

Lemma file_put_store env target updates st :
  (FileServer.put_board_item env target updates st).1
  = (RedisServer.put_board_item env target updates st).1 /\
  store (FileServer.put_board_item env target updates st).2
  = store (RedisServer.put_board_item env target updates st).2.
Proof.
  unfold FileServer.put_board_item, RedisServer.put_board_item.
  destruct (findItem target (store st)) as [[i old]|]; [|done].
  cbn [fst snd]. split; [done|].
  destruct (p_height updates); [|done].
  unfold FileServer.updateSourceDataHeight. cbn [sourceData setStore].
  by destruct (findItem target (sourceData st)) as [[j ?]|].
Qed.

Lemma redis_put_missing env target updates st :
  (forall item, item ∈ store st -> id item <> target) ->
  RedisServer.put_board_item env target updates st
  = (mkResponse 404 (ErrorBody "Board item not found"), st).
Proof.
  intros Hmiss. unfold RedisServer.put_board_item.
  by rewrite (proj2 (findItem_None target (store st)) Hmiss).
Qed.

Lemma file_put_missing env target updates st :
  (forall item, item ∈ store st -> id item <> target) ->
  FileServer.put_board_item env target updates st
  = (mkResponse 404 (ErrorBody "Board item not found"), st).
Proof.
  intros Hmiss. unfold FileServer.put_board_item.
  by rewrite (proj2 (findItem_None target (store st)) Hmiss).
Qed.

Lemma redis_put_found env target updates st :
  (exists item, item ∈ store st /\ id item = target) ->
  exists i old,
    store st !! i = Some old /\ id old = target /\
    (forall j other, store st !! j = Some other -> (j < i)%nat -> id other <> target) /\
    (RedisServer.put_board_item env target updates st).1
    = mkResponse 200 (ItemBody (mergeItem old updates (now env))) /\
    store (RedisServer.put_board_item env target updates st).2
    = <[i := mergeItem old updates (now env)]> (store st).
Proof.
  intros Hex. destruct (findItem_is_Some _ _ Hex) as (i & old & Hfind).
  exists i, old. unfold RedisServer.put_board_item. rewrite Hfind.
  apply findItem_Some in Hfind as (Hi & Hid & Hfirst). done.
Qed.

(** C10: [PUT /api/board-items/:id], in both servers.  When no stored item
    has the id, the answer is 404 and the server state is unchanged.  When
    one does, the first such item is replaced by its shallow merge with the
    request body, stamped with a fresh [updatedAt]: every field that the
    body carries takes the body's value, every other field keeps the value
    the item had, and [updatedAt] is the server's timestamp whatever the
    body says.  That merged item is the answer (status 200), and every
    other position of the collection holds the item it held before. *)
Theorem put_board_item_frame (env : Env) (target : string) (updates : ItemPatch)
    (st : ServerState) :
  ((forall item, item ∈ store st -> id item <> target) ->
   RedisServer.put_board_item env target updates st
   = (mkResponse 404 (ErrorBody "Board item not found"), st) /\
   FileServer.put_board_item env target updates st
   = (mkResponse 404 (ErrorBody "Board item not found"), st)) /\
  ((exists item, item ∈ store st /\ id item = target) ->
   exists i old,
     store st !! i = Some old /\ id old = target /\
     (forall j other, store st !! j = Some other -> (j < i)%nat -> id other <> target) /\
     let merged := mergeItem old updates (now env) in
     updatedAt merged = now env /\
     (forall v, p_id updates = Some v -> id merged = v) /\
     (forall v, p_type updates = Some v -> type merged = v) /\
     (forall v, p_x updates = Some v -> x merged = v) /\
     (forall v, p_y updates = Some v -> y merged = v) /\
     (forall v, p_width updates = Some v -> width merged = v) /\
     (forall v, p_height updates = Some v -> height merged = v) /\
     (forall v, p_color updates = Some v -> color merged = v) /\
     (forall v, p_rotation updates = Some v -> rotation merged = v) /\
     (forall v, p_createdAt updates = Some v -> createdAt merged = v) /\
     (p_id updates = None -> id merged = id old) /\
     (p_type updates = None -> type merged = type old) /\
     (p_x updates = None -> x merged = x old) /\
     (p_y updates = None -> y merged = y old) /\
     (p_width updates = None -> width merged = width old) /\
     (p_height updates = None -> height merged = height old) /\
     (p_color updates = None -> color merged = color old) /\
     (p_rotation updates = None -> rotation merged = rotation old) /\
     (p_createdAt updates = None -> createdAt merged = createdAt old) /\
     Forall (fun put : Env -> string -> ItemPatch -> ServerState -> Response * ServerState =>
               (put env target updates st).1 = mkResponse 200 (ItemBody merged) /\
               store (put env target updates st).2 !! i = Some merged /\
               length (store (put env target updates st).2) = length (store st) /\
               forall j, j <> i ->
                 store (put env target updates st).2 !! j = store st !! j)
            [RedisServer.put_board_item; FileServer.put_board_item]).
Proof.
  split.
  - intros Hmiss. split; [by apply redis_put_missing|by apply file_put_missing].
  - intros Hex.
    destruct (redis_put_found env target updates st Hex)
      as (i & old & Hi & Hid & Hfirst & Hresp & Hstore).
    exists i, old. split; [done|]. split; [done|]. split; [done|].
    intros merged. split; [done|].
    do 9 (split; [by intros v Hv; subst merged; cbn [mergeItem id type x y width height
                    color rotation createdAt]; rewrite Hv|]).
    do 9 (split; [by intros Hv; subst merged; cbn [mergeItem id type x y width height
                    color rotation createdAt]; rewrite Hv|]).
    destruct (file_put_store env target updates st) as [Hf1 Hf2].
    assert ((i < length (store st))%nat) as Hlt by (by eapply lookup_lt_Some).
    repeat constructor.
    + done.
    + rewrite Hstore. by apply list_lookup_insert_eq.
    + rewrite Hstore. by rewrite length_insert.
    + intros j Hj. rewrite Hstore. by apply list_lookup_insert_ne.
    + by rewrite Hf1.
    + rewrite Hf2, Hstore. by apply list_lookup_insert_eq.
    + rewrite Hf2, Hstore. by rewrite length_insert.
    + intros j Hj. rewrite Hf2, Hstore. by apply list_lookup_insert_ne.
Qed.

End ServerFacts.

(** ** Camera animation *)

Module CanvasFacts.
Import Canvas.

Lemma easeInOut_end t : t == 1 -> easeInOut t == 1.
Proof.
  intros Ht. unfold easeInOut. destruct (Qltb t 0.5) eqn:E.
  - apply Qltb_lt in E. lra.
  - rewrite Ht. reflexivity.
Qed.

Lemma Math_max_spec a b : (a <= b /\ Math_max a b = b) \/ (b < a /\ Math_max a b = a).
Proof.
  unfold Math_max. destruct (Qleb a b) eqn:E.
  - left. by apply Qleb_le in E.
  - right. by apply Qleb_false in E.
Qed.

Lemma Math_min_spec a b : (a <= b /\ Math_min a b = a) \/ (b < a /\ Math_min a b = b).
Proof.
  unfold Math_min. destruct (Qleb a b) eqn:E.
  - left. by apply Qleb_le in E.
  - right. by apply Qleb_false in E.
Qed.

Lemma clampZoom_range z : 0.1 <= clampZoom z /\ clampZoom z <= 3.
Proof.
  unfold clampZoom.
  destruct (Math_min_spec 3 z) as [[H1 ->]|[H1 ->]];
    destruct (Math_max_spec 0.1 3) as [[H2 H2']|[H2 H2']];
    destruct (Math_max_spec 0.1 z) as [[H3 H3']|[H3 H3']];
    rewrite ?H2', ?H3'; lra.
Qed.

Lemma clampZoom_above z : 3 < z -> clampZoom z == 3.
Proof.
  intros Hz. unfold clampZoom.
  destruct (Math_min_spec 3 z) as [[H1 ->]|[H1 ->]]; [|lra].
  destruct (Math_max_spec 0.1 3) as [[H2 ->]|[H2 ->]]; lra.
Qed.

Lemma clampZoom_inside z : 0.1 <= z -> z <= 3 -> clampZoom z == z.
Proof.
  intros Hlo Hhi. unfold clampZoom.
  destruct (Math_min_spec 3 z) as [[H1 ->]|[H1 ->]].
  - destruct (Math_max_spec 0.1 3) as [[H2 ->]|[H2 ->]]; lra.
  - destruct (Math_max_spec 0.1 z) as [[H2 ->]|[H2 ->]]; lra.
Qed.

(** Linear interpolation at the end of a phase. *)
Lemma lerp_end s t : s + (t - s) * 1 == t.
Proof. ring. Qed.

Section Boundaries.
Variable a : Animation.
Hypothesis duration_pos : 0 < a_duration a.

Let D := a_duration a.
Let c := a_container a.
Let zoomOut := clampZoom (vp_zoom (a_start a) * 0.3).
Let targetX := x (a_item a) + width (a_item a) / 2.
Let targetY := y (a_item a) + height (a_item a) / 2.

Lemma zoomOut_nonzero : ~ zoomOut == 0.
Proof. pose proof (clampZoom_range (vp_zoom (a_start a) * 0.3)). unfold zoomOut. lra. Qed.

Let T := D / 3.

Lemma third_pos : 0 < T /\ D == 3 * T.
Proof.
  assert (D == 3 * T) as H by (unfold T; field).
  split; [|exact H]. unfold D in *. lra.
Qed.

(** End of phase 1: the zoom has reached the clamped zoom-out level and
    the world point at the middle of the screen has not moved. *)
Lemma phase1_end e :
  e == D / 3 -> ~ vp_zoom (a_start a) == 0 ->
  vp_zoom (animate a e) == zoomOut /\
  (centerWorld c (animate a e)).1 == (centerWorld c (a_start a)).1 /\
  (centerWorld c (animate a e)).2 == (centerWorld c (a_start a)).2.
Proof.
  intros He Hz0. pose proof zoomOut_nonzero as Hzo.
  destruct third_pos as [HT HD]. fold T in He.
  assert (easeInOut (e / T) == 1) as Hk.
  { apply easeInOut_end. rewrite He. field. lra. }
  unfold centerWorld, animate. fold D c zoomOut. fold T.
  assert (Qleb e T = true) as -> by (apply Qleb_le; lra).
  cbn [vp_x vp_y vp_zoom fst snd]. rewrite !Hk.
  rewrite !lerp_end. split; [reflexivity|]. split; field; auto.
Qed.

(** End of phase 2: same zoom, and the item's centre is at the middle of
    the screen. *)
Lemma phase2_end e :
  e == 2 * D / 3 ->
  vp_zoom (animate a e) == zoomOut /\
  (centerWorld c (animate a e)).1 == targetX /\
  (centerWorld c (animate a e)).2 == targetY.
Proof.
  intros He. pose proof zoomOut_nonzero as Hzo.
  destruct third_pos as [HT HD].
  assert (e == 2 * T) as He' by (rewrite He; unfold T; field).
  assert (easeInOut ((e - T) / (T * 2 - T)) == 1) as Hk.
  { apply easeInOut_end. rewrite He'. field. lra. }
  unfold centerWorld, animate. fold D c zoomOut targetX targetY. fold T.
  assert (Qleb e T = false) as -> by (apply Qleb_false; lra).
  assert (Qleb e (T * 2) = true) as -> by (apply Qleb_le; lra).
  cbn [vp_x vp_y vp_zoom fst snd]. rewrite !Hk, !lerp_end.
  split; [reflexivity|]. split; field; auto.
Qed.

(** End of phase 3: the zoom is [finalZoom] as passed in, and the item's
    centre is at the middle of the screen. *)
Lemma phase3_end e :
  e == D ->
  vp_zoom (animate a e) == a_finalZoom a /\
  (~ a_finalZoom a == 0 ->
   (centerWorld c (animate a e)).1 == targetX /\
   (centerWorld c (animate a e)).2 == targetY).
Proof.
  intros He. destruct third_pos as [HT HD].
  assert (easeInOut ((e - T * 2) / (D - T * 2)) == 1) as Hk.
  { apply easeInOut_end. rewrite He, HD. field. lra. }
  unfold centerWorld, animate. fold D c zoomOut targetX targetY. fold T.
  assert (Qleb e T = false) as -> by (apply Qleb_false; lra).
  assert (Qleb e (T * 2) = false) as -> by (apply Qleb_false; lra).
  cbn [vp_x vp_y vp_zoom fst snd]. rewrite !Hk, !lerp_end.
  split; [reflexivity|]. intros Hf. split; field; auto.
Qed.

End Boundaries.


(** The viewport one frame shows, [t - clock] milliseconds after a
    [centerOnItem] call made while no other animation was running. *)
Lemma frame_after_centerOnItem st itemId item c finalZoom D t :
  findById itemId (items st) = Some item -> container st = Some c ->
  animations st = [] ->
  viewport (frame t (centerOnItem itemId finalZoom D st))
  = animate (mkAnimation (viewport st) c item finalZoom D (clock st)) (t - clock st).
Proof.
  intros Hitem Hc Hnone. unfold centerOnItem. rewrite Hitem, Hc.
  unfold frame. cbn [animations viewport]. rewrite Hnone. reflexivity.
Qed.

(** The phase boundaries of a [centerOnItem] call as the code has them: the
    clamped zoom-out level and an unmoved screen centre at [D/3], the item
    centred at [2D/3], and at [D] the item centred at zoom [finalZoom]. *)
Lemma camera_phase_boundaries st itemId item c finalZoom D :
  findById itemId (items st) = Some item -> container st = Some c ->
  animations st = [] ->
  0 < D -> ~ vp_zoom (viewport st) == 0 -> ~ finalZoom == 0 ->
  let at_ := fun e => viewport (frame (clock st + e) (centerOnItem itemId finalZoom D st)) in
  let cx := x item + width item / 2 in
  let cy := y item + height item / 2 in
  (vp_zoom (at_ (D / 3)) == clampZoom (vp_zoom (viewport st) * 0.3) /\
   (centerWorld c (at_ (D / 3))).1 == (centerWorld c (viewport st)).1 /\
   (centerWorld c (at_ (D / 3))).2 == (centerWorld c (viewport st)).2) /\
  ((centerWorld c (at_ (2 * D / 3))).1 == cx /\
   (centerWorld c (at_ (2 * D / 3))).2 == cy) /\
  (vp_zoom (at_ D) == finalZoom /\
   (centerWorld c (at_ D)).1 == cx /\ (centerWorld c (at_ D)).2 == cy).
Proof.
  intros Hitem Hc Hnone HD Hz0 Hfz at_ cx cy. subst at_.
  cbn beta. rewrite !(frame_after_centerOnItem st itemId item c finalZoom D) by done.
  set (a := mkAnimation (viewport st) c item finalZoom D (clock st)).
  assert (0 < a_duration a) as Hpos by exact HD.
  split; [|split].
  - apply (phase1_end a Hpos); [|exact Hz0]. cbn [a_duration a]. ring.
  - destruct (phase2_end a Hpos (clock st + 2 * D / 3 - clock st)) as (_ & H1 & H2).
    { cbn [a_duration a]. ring. }
    split; [exact H1|exact H2].
  - destruct (phase3_end a Hpos (clock st + D - clock st)) as (H0 & H12).
    { cbn [a_duration a]. ring. }
    destruct (H12 Hfz) as [H1 H2]. split; [exact H0|]. split; [exact H1|exact H2].
Qed.

(** C1, at the failing input: a [centerOnItem] call on an existing item
    with a final zoom above 3 ends, at elapsed time [D], with the viewport
    zoom equal to that final zoom as passed in, not to its clamp into
    [0.1, 3.0] (which is 3). *)
Theorem centerOnItem_final_zoom_unclamped
    (st : ClientState) (itemId : string) (item : BoardItem) (c : Container)
    (finalZoom D : Q) :
  findById itemId (items st) = Some item -> container st = Some c ->
  animations st = [] ->
  0 < D -> 3 < finalZoom ->
  let st' := frame (clock st + D) (centerOnItem itemId finalZoom D st) in
  vp_zoom (viewport st') == finalZoom /\
  clampZoom finalZoom == 3 /\
  ~ vp_zoom (viewport st') == clampZoom finalZoom.
Proof.
  intros Hitem Hc Hnone HD Hz st'. subst st'.
  rewrite (frame_after_centerOnItem st itemId item c finalZoom D) by done.
  set (a := mkAnimation (viewport st) c item finalZoom D (clock st)).
  destruct (phase3_end a HD (clock st + D - clock st)) as [H0 _].
  { cbn [a_duration a]. ring. }
  cbn [a_finalZoom a] in H0.
  pose proof (clampZoom_above finalZoom Hz) as Hclamp.
  split; [exact H0|]. split; [exact Hclamp|]. rewrite H0, Hclamp. lra.
Qed.

Lemma centerOnItem_final_zoom_unclamped_witness :
  0 < 3000 /\ 3 < 5 /\
  vp_zoom (viewport (frame (clock sampleClient + 3000)
                           (centerOnItem "todo-1" 5 3000 sampleClient))) == 5 /\
  clampZoom 5 == 3.
Proof.
  assert (0 < 3000) as HD by reflexivity.
  assert (3 < 5) as Hz by reflexivity.
  split; [exact HD|]. split; [exact Hz|].
  destruct (centerOnItem_final_zoom_unclamped sampleClient "todo-1" todoCard
              (mkContainer 1200 800) 5 3000 eq_refl eq_refl eq_refl HD Hz)
    as (H0 & H1 & _).
  split; [exact H0|exact H1].
Defined.

End CanvasFacts.

(** ** Focus handling on the client *)

Module AppFacts.
Import Canvas App.

Lemma findById_None itemId l :
  (forall item, item ∈ l -> id item <> itemId) -> findById itemId l = None.
Proof.
  intros Hmiss. unfold findById.
  destruct (List.find _ l) as [item|] eqn:E; [|done].
  apply find_some in E as [Hin Heq]. apply String.eqb_eq in Heq.
  apply list_elem_of_In in Hin. by destruct (Hmiss item Hin).
Qed.

Lemma findTarget_None targetId l :
  (forall t item, targetId = Some t -> item ∈ l -> id item <> t) ->
  findTarget targetId l = None.
Proof.
  intros Hmiss. destruct targetId as [t|]; [|done]. simpl.
  rewrite findById_None; [done|]. intros item Hin. by apply (Hmiss t item).
Qed.

(** C7: when the target id is not the id of any current item,
    [centerOnItem] returns the state it was given, and [handleFocusRequest]
    only appends two log lines: the viewport, the pending animations and
    timers, the selection and the highlights are as before, so every later
    frame shows what it would have shown without the request.  Both are
    total functions; nothing is thrown. *)
Theorem focus_missing_item_noop
    (request : FocusRequest) (target : string) (finalZoom duration : Q)
    (st : ClientState) :
  ((forall item, item ∈ items st -> id item <> target) ->
   centerOnItem target finalZoom duration st = st) /\
  ((forall t item, or_str (objectId request) (itemId request) = Some t ->
                   item ∈ items st -> id item <> t) ->
   let st' := handleFocusRequest request st in
   viewport st' = viewport st /\
   animations st' = animations st /\
   timers st' = timers st /\
   selectedItemId st' = selectedItemId st /\
   highlighted st' = highlighted st /\
   items st' = items st /\
   clientLog st'
   = clientLog st ++ [FocusRequestReceived;
                      ItemNotFound (or_str (objectId request) (itemId request))] /\
   forall t, viewport (frame t st') = viewport (frame t st)).
Proof.
  split.
  - intros Hmiss. unfold centerOnItem. by rewrite findById_None.
  - intros Hmiss st'. subst st'. unfold handleFocusRequest.
    cbn [items say]. rewrite findTarget_None by done.
    cbn [say viewport animations timers selectedItemId highlighted items clientLog].
    rewrite <- app_assoc. done.
Qed.

Lemma focus_missing_item_noop_witness :
  (forall item, item ∈ items sampleClient -> id item <> "no-such-item") /\
  centerOnItem "no-such-item" 0.8 3000 sampleClient = sampleClient /\
  viewport (handleFocusRequest unknownRequest sampleClient) = viewport sampleClient.
Proof.
  assert (forall item, item ∈ items sampleClient -> id item <> "no-such-item") as Hmiss.
  { intros item Hin. cbn [items sampleClient] in Hin.
    apply elem_of_cons in Hin as [->|Hin]; [discriminate|].
    apply elem_of_cons in Hin as [->|Hin]; [discriminate|].
    by apply elem_of_nil in Hin. }
  split; [exact Hmiss|].
  destruct (focus_missing_item_noop unknownRequest "no-such-item" 0.8 3000 sampleClient)
    as [Hcenter Hfocus].
  split; [exact (Hcenter Hmiss)|].
  refine (proj1 (Hfocus _)).
  intros t item Ht. inversion Ht; subst. exact (Hmiss item).
Defined.

Lemma progress_below_one e D : 0 < D -> e < D -> Qltb (Math_min (e / D) 1) 1 = true.
Proof.
  intros HD He. apply Qltb_lt.
  assert (e / D < 1) as Hlt by (apply Qlt_shift_div_r; lra).
  destruct (CanvasFacts.Math_min_spec (e / D) 1) as [[_ ->]|[H _]]; lra.
Qed.

(** C8, at the failing input: for a focus request that names a sub-element
    of a known item, the highlight is scheduled 100 ms after the request,
    whatever the animation's duration; with a duration above 100 ms the
    camera loop started by the same request is still running when the
    highlight is due.  The highlight is then removed [duration] ms after it
    appeared, the animation's duration rather than a fixed display time. *)
Theorem highlight_scheduled_before_animation_ends
    (request : FocusRequest) (st : ClientState) (target sub : string)
    (item : BoardItem) (c : Container) :
  or_str (objectId request) (itemId request) = Some target ->
  findById target (items st) = Some item ->
  truthy_val (subElement request) = Some sub ->
  centerOnItemExposed st = true -> container st = Some c ->
  let options := default noOptions (focusOptions request) in
  let zoom := or_num (fp_zoom options) 0.8 in
  let duration := or_num (fp_duration options) 3000 in
  let st' := handleFocusRequest request st in
  let a := mkAnimation (viewport st) c item zoom duration (clock st) in
  timers st' = timers st ++ [(clock st + 100, HighlightSubElement sub duration)] /\
  animations st' = animations st ++ [a] /\
  (100 < duration -> continues a (clock st + 100 - a_startTime a) = true) /\
  (existsb (String.eqb sub) (focusIds st) = true ->
   let shown := runTask (clock st + 100) (HighlightSubElement sub duration) st' in
   highlighted shown = highlighted st ++ [sub] /\
   timers shown = timers st' ++ [(clock st + 100 + duration, RemoveHighlight sub)]).
Proof.
  intros Htarget Hitem Hsub Hexposed Hc options zoom duration st' a.
  assert (st' = centerOnItem target zoom duration
                  (say [CallingCenterOnItem target zoom duration]
                     (setTimeout (HighlightSubElement sub duration) 100
                        (say [SubElementRequested sub]
                           (focusOnItem target
                              (say [ItemFound (id item)]
                                 (say [FocusRequestReceived] st))))))) as Hst'.
  { subst st'. unfold handleFocusRequest. cbn [items say]. rewrite Htarget.
    cbn [findTarget]. rewrite Hitem. cbn [fmap option_fmap option_map]. rewrite Hsub.
    cbn [centerOnItemExposed setTimeout say focusOnItem]. rewrite Hexposed. done. }
  assert (timers st' = timers st ++ [(clock st + 100, HighlightSubElement sub duration)]
          /\ animations st' = animations st ++ [a]
          /\ highlighted st' = highlighted st /\ focusIds st' = focusIds st) as (Ht & Ha & Hh & Hf).
  { rewrite Hst'. unfold centerOnItem.
    cbn [items container say setTimeout focusOnItem]. rewrite Hitem, Hc. done. }
  split; [exact Ht|]. split; [exact Ha|]. split.
  - intros Hlong. unfold continues. cbn [a_duration a_startTime a].
    apply progress_below_one; lra.
  - intros Hdom shown. subst shown. unfold runTask. rewrite Hf, Hdom.
    cbn [highlighted timers]. by rewrite Hh.
Qed.

Lemma highlight_scheduled_before_animation_ends_witness :
  100 < 2000 /\
  timers (handleFocusRequest subElementRequest sampleClient)
  = [(clock sampleClient + 100, HighlightSubElement "task-1" 2000)] /\
  continues (mkAnimation (viewport sampleClient) (mkContainer 1200 800) todoCard
                         1.5 2000 (clock sampleClient))
            (clock sampleClient + 100 - clock sampleClient) = true.
Proof.
  assert (100 < 2000) as Hlong by reflexivity.
  destruct (highlight_scheduled_before_animation_ends subElementRequest sampleClient
              "todo-1" "task-1" todoCard (mkContainer 1200 800)
              eq_refl eq_refl eq_refl eq_refl eq_refl) as (Ht & _ & Hrun & _).
  split; [exact Hlong|]. split; [exact Ht|exact (Hrun Hlong)].
Defined.

End AppFacts.

(** ** Worked examples *)

Module Examples.
Import Alloc AllocSpec.

Example first_allocation :
  findTaskZonePosition (mkTemp "todo" 420 200) [ehrItem] = mkPos 4260 60.
Proof. reflexivity. Qed.

Example fourth_allocation :
  findTaskZonePosition (mkTemp "todo" 420 200)
    [mkItem "a" "todo" 4260 60 420 200 "#ffffff" 0 "t" "t";
     mkItem "b" "agent" 4820 60 520 180 "#ffffff" 0 "t" "t";
     mkItem "c" "lab-result" 5380 60 400 280 "#ffffff" 0 "t" "t"]
  = mkPos 4260 550.
Proof. reflexivity. Qed.

Example overflow_allocation :
  findTaskZonePosition (mkTemp "todo" 420 200) fullStore = mkPos 4260 6660.
Proof. reflexivity. Qed.

Lemma fullStore_full row col :
  (row < Z.to_nat maxRows)%nat -> (col < Z.to_nat maxCols)%nat ->
  gridAt (markGrid (taskZoneItems fullStore)) row col = true.
Proof.
  intros Hr Hc.
  change (Z.to_nat maxRows) with 4%nat in Hr. change (Z.to_nat maxCols) with 3%nat in Hc.
  do 4 (destruct row as [|row]; [do 3 (destruct col as [|col]; [reflexivity|]); lia|]).
  lia.
Defined.

Lemma allocator_overflow_stack_witness :
  (forall row col, (row < Z.to_nat maxRows)%nat -> (col < Z.to_nat maxCols)%nat ->
     gridAt (markGrid (taskZoneItems fullStore)) row col = true) /\
  pos_x (findTaskZonePosition (mkTemp "agent" 520 180) fullStore) = 4260 /\
  pos_y (findTaskZonePosition (mkTemp "agent" 520 180) fullStore) = 6660.
Proof.
  split; [exact fullStore_full|].
  destruct (AllocFacts.allocator_overflow_stack (mkTemp "agent" 520 180) fullStore
              fullStore_full) as (Hx & Hy & _).
  split; [exact Hx|exact Hy].
Defined.




Lemma post_focus_contract_witness :
  (truthy_str (RedisServer.itemId focusBody) = true \/
   truthy_str (RedisServer.objectId focusBody) = true) /\
  status (RedisServer.post_focus (sampleEnv "1") focusBody sampleServer).1 = 200%nat /\
  length (sent (RedisServer.post_focus (sampleEnv "1") focusBody sampleServer).2) = 2%nat.
Proof.
  assert (truthy_str (RedisServer.itemId focusBody) = true \/
          truthy_str (RedisServer.objectId focusBody) = true) as Hid
    by (left; reflexivity).
  split; [exact Hid|].
  destruct (proj2 (ServerFacts.post_focus_contract (sampleEnv "1") focusBody sampleServer)
              Hid) as (targetId & _ & Hresp & Hsent & _).
  split.
  - rewrite Hresp. reflexivity.
  - rewrite Hsent. reflexivity.
Defined.

Lemma put_board_item_frame_witness :
  (exists item, item ∈ store sampleServer /\ id item = "ehr-item-1") /\
  (forall item, item ∈ store sampleServer -> id item <> "missing") /\
  status (RedisServer.put_board_item (sampleEnv "1") "missing" heightPatch sampleServer).1
  = 404%nat /\
  (exists i old,
    store sampleServer !! i = Some old /\
    store (FileServer.put_board_item (sampleEnv "1") "ehr-item-1" heightPatch
                                     sampleServer).2 !! i
    = Some (mergeItem old heightPatch (now (sampleEnv "1")))) /\
  (exists merged,
    store (FileServer.put_board_item (sampleEnv "1") "ehr-item-1" heightPatch
                                     sampleServer).2 !! 0%nat = Some merged /\
    (RedisServer.put_board_item (sampleEnv "1") "ehr-item-1" heightPatch sampleServer).1
    = mkResponse 200 (ItemBody merged) /\
    height merged = 480 /\ x merged = 3200 /\ y merged = 3200 /\ width merged = 550 /\
    id merged = "ehr-item-1" /\ updatedAt merged = now (sampleEnv "1")).
Proof.
  assert (exists item, item ∈ store sampleServer /\ id item = "ehr-item-1") as Hex.
  { exists ehrItem. split; [left|reflexivity]. }
  assert (forall item, item ∈ store sampleServer -> id item <> "missing") as Hmiss.
  { intros item Hin. cbn [store sampleServer] in Hin.
    apply elem_of_cons in Hin as [->|Hin]; [discriminate|].
    by apply elem_of_nil in Hin. }
  split; [exact Hex|]. split; [exact Hmiss|]. split; [|split].
  - destruct (proj1 (ServerFacts.put_board_item_frame (sampleEnv "1") "missing"
                       heightPatch sampleServer) Hmiss) as [Hr _].
    rewrite Hr. reflexivity.
  - destruct (proj2 (ServerFacts.put_board_item_frame (sampleEnv "1") "ehr-item-1"
                       heightPatch sampleServer) Hex)
      as (i & old & Hi & _ & _ & _ & _ & _ & _ & _ & _ & _ & _ & _ & _
          & _ & _ & _ & _ & _ & _ & _ & _ & _ & Hputs).
    exists i, old. split; [exact Hi|].
    apply Forall_cons in Hputs as [_ Hfile].
    apply Forall_cons in Hfile as [(_ & Hlook & _) _]. exact Hlook.
  - destruct (proj2 (ServerFacts.put_board_item_frame (sampleEnv "1") "ehr-item-1"
                       heightPatch sampleServer) Hex)
      as (i & old & Hi & _ & _ & Hstamp & _ & _ & _ & _ & _ & Hheight & _ & _ & _
          & Hid & _ & Hx & Hy & Hwidth & _ & _ & _ & _ & Hputs).
    assert (i = 0%nat /\ old = ehrItem) as [-> ->].
    { destruct i as [|i]; [|discriminate Hi]. split; [reflexivity|].
      cbn [store sampleServer lookup list_lookup] in Hi. congruence. }
    exists (mergeItem ehrItem heightPatch (now (sampleEnv "1"))).
    apply Forall_cons in Hputs as [(Hresp & _) Hfile].
    apply Forall_cons in Hfile as [(_ & Hlook & _) _].
    split; [exact Hlook|]. split; [exact Hresp|].
    split; [exact (Hheight 480 eq_refl)|].
    split; [exact (Hx eq_refl)|]. split; [exact (Hy eq_refl)|].
    split; [exact (Hwidth eq_refl)|]. split; [exact (Hid eq_refl)|exact Hstamp].
Defined.

End Examples.

(** ** More on the zone allocator *)

Module AllocMore.
Import Alloc AllocSpec AllocFacts.

Lemma taskZoneItems_Permutation l l' :
  l ≡ₚ l' -> taskZoneItems l ≡ₚ taskZoneItems l'.
Proof.
  intros H. unfold taskZoneItems.
  induction H as [|a l l' H IH|a b l|l1 l2 l3 H1 IH1 H2 IH2]; simpl.
  - done.
  - destruct (inTaskZone a && isApiItem a); [by constructor|done].
  - destruct (inTaskZone a && isApiItem a), (inTaskZone b && isApiItem b);
      try done. by constructor.
  - by etrans.
Qed.

Lemma occupied_Permutation l l' rc : l ≡ₚ l' -> occupied l rc = occupied l' rc.
Proof.
  intros H. apply eq_true_iff_eq. rewrite !occupied_true.
  split; intros (it & Hin & Hc); exists it; (split; [|done]).
  - by rewrite <- H.
  - by rewrite H.
Qed.

(** X1: The answer does not depend on the order in which the store lists its
    items. *)
Theorem allocator_order_independent (t : TempItem) (l l' : list BoardItem) :
  l ≡ₚ l' -> findTaskZonePosition t l = findTaskZonePosition t l'.
Proof.
  intros H. pose proof (taskZoneItems_Permutation l l' H) as Hz.
  unfold findTaskZonePosition. rewrite !firstFree_markGrid.
  assert (List.find (fun rc => negb (occupied (taskZoneItems l) rc)) scanOrder
          = List.find (fun rc => negb (occupied (taskZoneItems l') rc)) scanOrder) as ->.
  { induction scanOrder as [|rc s IH]; [done|]. simpl.
    by rewrite (occupied_Permutation _ _ rc Hz), IH. }
  by rewrite (Permutation_length Hz).
Qed.

Lemma allocator_order_independent_witness :
  [ehrItem; todoCard] ≡ₚ [todoCard; ehrItem] /\
  findTaskZonePosition (mkTemp "agent" 520 180) [ehrItem; todoCard]
  = findTaskZonePosition (mkTemp "agent" 520 180) [todoCard; ehrItem].
Proof.
  assert ([ehrItem; todoCard] ≡ₚ [todoCard; ehrItem]) as H by apply perm_swap.
  split; [exact H|].
  exact (allocator_order_independent (mkTemp "agent" 520 180) _ _ H).
Defined.

(** X2: Items of other types, and items whose corner lies outside the zone,
    play no part: adding or removing one anywhere in the store leaves the
    answer as it was. *)
Theorem allocator_ignores_unmanaged (t : TempItem) (l1 l2 : list BoardItem)
    (item : BoardItem) :
  isApiItem item = false \/ inTaskZone item = false ->
  findTaskZonePosition t (l1 ++ item :: l2) = findTaskZonePosition t (l1 ++ l2).
Proof.
  intros H. unfold findTaskZonePosition.
  assert (taskZoneItems (l1 ++ item :: l2) = taskZoneItems (l1 ++ l2)) as ->; [|done].
  rewrite !taskZoneItems_app. f_equal. unfold taskZoneItems. simpl.
  destruct H as [H|H]; rewrite H; [by rewrite andb_false_r|done].
Qed.

Lemma allocator_ignores_unmanaged_witness :
  (isApiItem ehrItem = false \/ inTaskZone ehrItem = false) /\
  findTaskZonePosition (mkTemp "todo" 420 200) ([todoCard] ++ ehrItem :: [])
  = findTaskZonePosition (mkTemp "todo" 420 200) ([todoCard] ++ []).
Proof.
  assert (isApiItem ehrItem = false \/ inTaskZone ehrItem = false) as H
    by (left; reflexivity).
  split; [exact H|].
  exact (allocator_ignores_unmanaged (mkTemp "todo" 420 200) [todoCard] [] ehrItem H).
Defined.

Lemma find_split {A} (f : A -> bool) (l : list A) a :
  List.find f l = Some a ->
  exists l1 l2, l = l1 ++ a :: l2 /\ f a = true /\ forall b, b ∈ l1 -> f b = false.
Proof.
  induction l as [|h l IH]; [done|]. simpl. destruct (f h) eqn:E.
  - intros [= ->]. exists [], l. split; [done|]. split; [done|].
    intros b Hb. by apply elem_of_nil in Hb.
  - intros Hf. destruct (IH Hf) as (l1 & l2 & -> & Ha & Hpre).
    exists (h :: l1), l2. split; [done|]. split; [done|].
    intros b Hb. apply elem_of_cons in Hb as [->|Hb]; [done|by apply Hpre].
Qed.

(** X3: While the grid has an unmarked cell, the position returned is that of
    the first unmarked cell in scan order; it lies inside the zone, and the
    grid arithmetic maps it back to the very cell it was chosen for. *)
Theorem allocator_returns_first_free_cell (t : TempItem) (existingItems : list BoardItem) :
  (markedCells existingItems < Z.to_nat maxRows * Z.to_nat maxCols)%nat ->
  let p := findTaskZonePosition t existingItems in
  let grid := markGrid (taskZoneItems existingItems) in
  exists row col before after,
    scanOrder = before ++ (row, col) :: after /\
    (forall rc, rc ∈ before -> gridAt grid rc.1 rc.2 = true) /\
    gridAt grid row col = false /\
    p = mkPos (cellX col) (cellY row) /\
    zone_x TASK_ZONE <= pos_x p /\ pos_x p < zone_x TASK_ZONE + zone_width TASK_ZONE /\
    zone_y TASK_ZONE <= pos_y p /\ pos_y p < zone_y TASK_ZONE + zone_height TASK_ZONE /\
    Math_floor ((pos_x p - zone_x TASK_ZONE) / colWidth) = Z.of_nat col /\
    Math_floor ((pos_y p - zone_y TASK_ZONE - 60) / rowHeight) = Z.of_nat row.
Proof.
  intros Hfree p grid. subst p grid.
  change (Z.to_nat maxRows * Z.to_nat maxCols)%nat with 12%nat in Hfree.
  unfold findTaskZonePosition.
  destruct (firstFree (markGrid (taskZoneItems existingItems))) as [[row col]|] eqn:E.
  - unfold firstFree in E. destruct (find_split _ _ _ E) as (before & after & Hs & Hf & Hpre).
    exists row, col, before, after. cbn [fst snd] in Hf. apply negb_true_iff in Hf.
    split; [done|]. split.
    { intros rc Hrc. specialize (Hpre rc Hrc). by apply negb_false_iff in Hpre. }
    split; [done|]. split; [done|].
    assert ((row, col) ∈ scanOrder) as Hin.
    { rewrite Hs. apply elem_of_app. right. by left. }
    set (item := withPosition ehrItem (cellX col) (cellY row)).
    destruct (placed_item_cell row col item Hin eq_refl eq_refl) as [Hzone Hcell].
    unfold inTaskZone in Hzone. cbn [x y item withPosition] in Hzone.
    rewrite !andb_true_iff in Hzone. destruct Hzone as [[[H1 H2] H3] H4].
    apply Qleb_le in H1, H3. apply Qltb_lt in H2, H4.
    cbn [pos_x pos_y]. do 4 (split; [done|]).
    unfold cellOf, itemRow, itemCol in Hcell. cbn [x y item withPosition] in Hcell.
    destruct (inGrid _ _) eqn:Hg; [|done].
    unfold inGrid in Hg. rewrite !andb_true_iff in Hg.
    destruct Hg as [[[G1 G2] G3] G4]. apply Z.leb_le in G1, G3.
    cbn [fst snd pos_x pos_y].
    remember (Math_floor ((cellY row - zone_y TASK_ZONE - 60) / rowHeight)) as zr.
    remember (Math_floor ((cellX col - zone_x TASK_ZONE) / colWidth)) as zc.
    assert (Z.to_nat zr = row /\ Z.to_nat zc = col) as [Hr Hc] by (split; congruence).
    split; lia.
  - exfalso.
    pose proof (firstFree_markGrid (taskZoneItems existingItems)) as Hff.
    rewrite E in Hff. symmetry in Hff.
    rewrite markedCells_occupied in Hfree.
    pose proof (find_none _ _ Hff) as Hall.
    pose proof (filter_partition (occupied (taskZoneItems existingItems)) scanOrder) as Hperm.
    apply Permutation_length in Hperm. rewrite length_app, length_scanOrder in Hperm.
    rewrite (filter_none (fun rc => negb (occupied (taskZoneItems existingItems) rc)))
      in Hperm.
    + change (length (@nil (nat * nat))) with 0%nat in Hperm. lia.
    + intros rc' Hrc. apply Hall. by apply list_elem_of_In.
Qed.

Lemma allocator_returns_first_free_cell_witness :
  (markedCells [ehrItem; todoCard] < Z.to_nat maxRows * Z.to_nat maxCols)%nat /\
  zone_x TASK_ZONE <= pos_x (findTaskZonePosition (mkTemp "todo" 420 200) [ehrItem; todoCard]).
Proof.
  assert (markedCells [ehrItem; todoCard] < Z.to_nat maxRows * Z.to_nat maxCols)%nat as H
    by (vm_compute; lia).
  split; [exact H|].
  destruct (allocator_returns_first_free_cell (mkTemp "todo" 420 200) [ehrItem; todoCard] H)
    as (row & col & before & after & _ & _ & _ & _ & Hx & _).
  exact Hx.
Defined.

End AllocMore.

(** ** Heights, neighbours and overflow *)

Module GridMore.
Import Alloc AllocSpec AllocFacts ServeFacts.

Lemma nat_Q_le (n m : nat) : (n <= m)%nat -> inject_Z (Z.of_nat n) <= inject_Z (Z.of_nat m).
Proof. intros H. rewrite <- Zle_Qle. lia. Qed.

Lemma Math_max_ge_l a b : a <= Math_max a b.
Proof. destruct (CanvasFacts.Math_max_spec a b) as [[H ->]|[H ->]]; lra. Qed.

Lemma Math_max_ge_r a b : b <= Math_max a b.
Proof. destruct (CanvasFacts.Math_max_spec a b) as [[H ->]|[H ->]]; lra. Qed.

Lemma Math_max_lub a b c : a <= c -> b <= c -> Math_max a b <= c.
Proof. intros. by destruct (CanvasFacts.Math_max_spec a b) as [[H' ->]|[H' ->]]. Qed.

Lemma Math_min_le_l a b : Math_min a b <= a.
Proof. destruct (CanvasFacts.Math_min_spec a b) as [[H ->]|[H ->]]; lra. Qed.

Lemma Math_min_le_r a b : Math_min a b <= b.
Proof. destruct (CanvasFacts.Math_min_spec a b) as [[H ->]|[H ->]]; lra. Qed.

Lemma Math_min_glb a b c : c <= a -> c <= b -> c <= Math_min a b.
Proof. intros. by destruct (CanvasFacts.Math_min_spec a b) as [[H' ->]|[H' ->]]. Qed.

Lemma todo_height_min n d : 200 <= RedisServer.calculateTodoHeight n d.
Proof.
  unfold RedisServer.calculateTodoHeight. apply Math_min_glb; [|lra].
  apply Math_max_ge_r.
Qed.

(** X4: [calculateTodoHeight]: between 200 and 600, never smaller for a longer
    list, and above the row height of the grid from twelve entries on. *)
Theorem todo_height_range (n m : nat) (d : option string) :
  200 <= RedisServer.calculateTodoHeight n d /\
  RedisServer.calculateTodoHeight n d <= 600 /\
  ((n <= m)%nat ->
   RedisServer.calculateTodoHeight n d <= RedisServer.calculateTodoHeight m d) /\
  ((12 <= n)%nat -> rowHeight < RedisServer.calculateTodoHeight n d).
Proof.
  unfold RedisServer.calculateTodoHeight, rowHeight.
  set (extra := if truthy_str d then 20 else 0).
  assert (0 <= extra /\ extra <= 20) as Hextra
    by (unfold extra; destruct (truthy_str d); split; lra).
  split; [|split; [|split]].
  - apply Math_min_glb; [apply Math_max_ge_r|lra].
  - apply Math_min_le_r.
  - intros Hnm. pose proof (nat_Q_le n m Hnm) as Hq.
    revert Hq. generalize (inject_Z (Z.of_nat n)), (inject_Z (Z.of_nat m)). intros qn qm Hq.
    apply Math_min_glb; [|apply Math_min_le_r].
    eapply Qle_trans; [apply Math_min_le_l|].
    apply Math_max_lub; [|apply Math_max_ge_r].
    eapply Qle_trans; [|apply Math_max_ge_l]. lra.
  - intros H12. pose proof (nat_Q_le 12 n H12) as Hq.
    change (inject_Z (Z.of_nat 12)) with 12 in Hq.
    revert Hq. generalize (inject_Z (Z.of_nat n)). intros qn Hq.
    pose proof (Math_max_ge_l (80 + qn * 35 + extra + 20) 200) as Hmax.
    destruct (CanvasFacts.Math_min_spec (Math_max (80 + qn * 35 + extra + 20) 200) 600)
      as [[C1 ->]|[C1 ->]]; lra.
Qed.

Lemma todo_height_range_witness :
  (3 <= 5)%nat /\ (12 <= 12)%nat /\
  RedisServer.calculateTodoHeight 3 None <= RedisServer.calculateTodoHeight 5 None /\
  rowHeight < RedisServer.calculateTodoHeight 12 None.
Proof.
  assert (3 <= 5)%nat as H1 by lia. assert (12 <= 12)%nat as H2 by lia.
  split; [exact H1|]. split; [exact H2|].
  destruct (todo_height_range 3 5 None) as (_ & _ & Hmono & _).
  destruct (todo_height_range 12 12 None) as (_ & _ & _ & Htall).
  split; [exact (Hmono H1)|exact (Htall H2)].
Defined.

Lemma S_Q (n : nat) : inject_Z (Z.of_nat (S n)) == inject_Z (Z.of_nat n) + 1.
Proof.
  change 1 with (inject_Z 1). rewrite <- inject_Z_plus.
  replace (Z.of_nat (S n)) with (Z.of_nat n + 1)%Z by lia. reflexivity.
Qed.

Lemma vertical_neighbours a b r c :
  x a = cellX c -> y a = cellY r -> x b = cellX c -> y b = cellY (S r) ->
  0 < width a -> 0 < width b -> 0 < height b ->
  (checkCollision a b = true <-> rowHeight < height a).
Proof.
  intros Hxa Hya Hxb Hyb Hwa Hwb Hhb.
  unfold checkCollision. rewrite Hxa, Hya, Hxb, Hyb, negb_true_iff.
  unfold cellX, cellY, rowHeight, colWidth, padding; cbn [zone_x zone_y TASK_ZONE].
  pose proof (S_Q r) as Hr. revert Hr.
  generalize (inject_Z (Z.of_nat (S r))), (inject_Z (Z.of_nat r)), (inject_Z (Z.of_nat c)).
  intros q1 q0 qc Hr. split.
  - intros Hno. rewrite !orb_false_iff in Hno. destruct Hno as [[[_ _] H3] _].
    apply Qleb_false in H3. lra.
  - intros Htall. rewrite !orb_false_iff. repeat split; apply Qleb_false; lra.
Qed.

Lemma horizontal_neighbours a b r c :
  x a = cellX c -> y a = cellY r -> x b = cellX (S c) -> y b = cellY r ->
  0 < height a -> 0 < width b -> 0 < height b ->
  (checkCollision a b = true <-> colWidth < width a).
Proof.
  intros Hxa Hya Hxb Hyb Hha Hwb Hhb.
  unfold checkCollision. rewrite Hxa, Hya, Hxb, Hyb, negb_true_iff.
  unfold cellX, cellY, rowHeight, colWidth, padding; cbn [zone_x zone_y TASK_ZONE].
  pose proof (S_Q c) as Hc. revert Hc.
  generalize (inject_Z (Z.of_nat (S c))), (inject_Z (Z.of_nat c)), (inject_Z (Z.of_nat r)).
  intros q1 q0 qr Hc. split.
  - intros Hno. rewrite !orb_false_iff in Hno. destruct Hno as [[[H1 _] _] _].
    apply Qleb_false in H1. lra.
  - intros Hwide. rewrite !orb_false_iff. repeat split; apply Qleb_false; lra.
Qed.

(** X5: Two items in neighbouring cells collide exactly when the upper one is
    taller than a row (for vertical neighbours) or the left one is wider
    than a column (for horizontal neighbours). *)
Theorem grid_neighbours_collide (a b : BoardItem) (r c : nat) :
  x a = cellX c -> y a = cellY r ->
  0 < width a -> 0 < height a -> 0 < width b -> 0 < height b ->
  (x b = cellX c -> y b = cellY (S r) ->
   (checkCollision a b = true <-> rowHeight < height a)) /\
  (x b = cellX (S c) -> y b = cellY r ->
   (checkCollision a b = true <-> colWidth < width a)).
Proof.
  intros Hxa Hya Hwa Hha Hwb Hhb. split; intros Hxb Hyb.
  - by apply (vertical_neighbours a b r c).
  - by apply (horizontal_neighbours a b r c).
Qed.

Lemma grid_neighbours_collide_witness :
  0 < 420 /\ 0 < 520 /\
  (checkCollision (mkItem "a" "todo" (cellX 0) (cellY 0) 420 520 "#ffffff" 0 "t" "t")
                  (mkItem "b" "todo" (cellX 0) (cellY 1) 420 200 "#ffffff" 0 "t" "t") = true
   <-> rowHeight < 520).
Proof.
  assert (0 < 420) as H1 by reflexivity. assert (0 < 520) as H2 by reflexivity.
  assert (0 < 200) as H3 by reflexivity.
  split; [exact H1|]. split; [exact H2|].
  exact (proj1 (grid_neighbours_collide
                  (mkItem "a" "todo" (cellX 0) (cellY 0) 420 520 "#ffffff" 0 "t" "t")
                  (mkItem "b" "todo" (cellX 0) (cellY 1) 420 200 "#ffffff" 0 "t" "t")
                  0 0 eq_refl eq_refl H1 H2 H1 H3) eq_refl eq_refl).
Defined.


Lemma agent_height_min content : 180 <= RedisServer.calculateHeight content.
Proof.
  unfold RedisServer.calculateHeight. apply Math_min_glb; [|lra].
  match goal with |- _ <= 80 + Math_max ?u 100 => pose proof (Math_max_ge_r u 100) end.
  lra.
Qed.

Lemma declared_positive r t :
  declared r = Some t -> 0 < temp_width t /\ 0 < temp_height t.
Proof.
  destruct r as [b|b|b]; simpl.
  - destruct (RedisServer.todo_items b) as [entries|]; [|done].
    destruct (truthy_str _); [|done]. intros [= <-]. cbn [temp_width temp_height].
    pose proof (todo_height_min (length entries) (RedisServer.description b)) as H.
    split; lra.
  - destruct (truthy_val (RedisServer.agent_title b)); [|done].
    destruct (truthy_val (RedisServer.agent_content b)) as [content|]; [|done].
    intros [= <-]. cbn [temp_width temp_height].
    pose proof (agent_height_min content). split; lra.
  - destruct (truthy_val (RedisServer.lab_parameter b)); [|done].
    destruct (truthy_val (RedisServer.lab_unit b)); [|done].
    destruct (truthy_val (RedisServer.lab_status b)); [|done].
    destruct (RedisServer.lab_range b); [|done].
    destruct (_ || _); [done|]. intros [= <-]. cbn. split; reflexivity.
Qed.

Lemma placeAll_footprints reqs : forall items item,
  item ∈ (placeAll reqs items).1 ->
  exists env t, (env, t) ∈ reqs /\ width item = temp_width t /\ height item = temp_height t.
Proof.
  induction reqs as [|[env t] reqs IH]; intros items item Hin.
  - by apply elem_of_nil in Hin.
  - rewrite placeAll_cons in Hin. cbn [fst] in Hin.
    apply elem_of_cons in Hin as [->|Hin].
    + exists env, t. split; [left|done].
    + destruct (IH _ _ Hin) as (env' & t' & Hin' & Hw & Hh).
      exists env', t'. split; [by right|done].
Qed.

(** Every item the creation handlers store has a positive width and height. *)
Lemma created_positive st reqs item :
  Forall (fun er => noCoordinates er.2) reqs ->
  item ∈ createdItems (serve reqs st).1 -> 0 < width item /\ 0 < height item.
Proof.
  intros Hno Hin. destruct (serve_placeAll reqs st Hno) as [Hc _]. rewrite Hc in Hin.
  destruct (placeAll_footprints _ _ _ Hin) as (env & t & Ht & -> & ->).
  apply list_elem_of_omap in Ht as ([env' r] & _ & Heq). cbn [fst snd] in Heq.
  destruct (declared r) as [t'|] eqn:Hd; [|done]. injection Heq as -> ->.
  by eapply declared_positive.
Qed.

(** X6: Fitting the grid does not protect against tall items: in a zone that
    held no grid-managed item, the first item created, when taller than a
    row, collides with the fourth, which is placed in the cell below it. *)
Theorem tall_first_item_collides (st0 : ServerState) (reqs : list (Env * CreateRequest))
    (a b : BoardItem) :
  taskZoneItems (store st0) = [] ->
  Forall (fun er => noCoordinates er.2) reqs ->
  createdItems (serve reqs st0).1 !! 0%nat = Some a ->
  createdItems (serve reqs st0).1 !! 3%nat = Some b ->
  rowHeight < height a ->
  checkCollision a b = true.
Proof.
  intros Hempty Hno Ha Hb Htall.
  destruct (created_cell st0 reqs 0 a Hempty Hno ltac:(lia) Ha) as [Hxa Hya].
  destruct (created_cell st0 reqs 3 b Hempty Hno ltac:(lia) Hb) as [Hxb Hyb].
  destruct (created_positive st0 reqs a Hno (list_elem_of_lookup_2 _ _ _ Ha)) as [Hwa Hha].
  destruct (created_positive st0 reqs b Hno (list_elem_of_lookup_2 _ _ _ Hb)) as [Hwb Hhb].
  by apply (vertical_neighbours a b 0 0).
Qed.

Lemma tall_first_item_collides_witness :
  exists a b,
    createdItems (serve ((sampleEnv "0", longTodoRequest) :: sampleRequests)
                        sampleServer).1 !! 0%nat = Some a /\
    createdItems (serve ((sampleEnv "0", longTodoRequest) :: sampleRequests)
                        sampleServer).1 !! 3%nat = Some b /\
    rowHeight < height a /\
    checkCollision a b = true.
Proof.
  eexists; eexists.
  assert (Forall (fun er => noCoordinates er.2)
                 ((sampleEnv "0", longTodoRequest) :: sampleRequests)) as Hno
    by (repeat constructor).
  split; [reflexivity|]. split; [reflexivity|].
  assert (rowHeight < 520) as Htall by reflexivity.
  split; [exact Htall|].
  exact (tall_first_item_collides sampleServer
           ((sampleEnv "0", longTodoRequest) :: sampleRequests) _ _
           sampleServer_empty_zone Hno eq_refl eq_refl Htall).
Defined.

Lemma full_grid_stack t l :
  (forall row col, (row < Z.to_nat maxRows)%nat -> (col < Z.to_nat maxCols)%nat ->
     gridAt (markGrid (taskZoneItems l)) row col = true) ->
  findTaskZonePosition t l = stackPosition (length (taskZoneItems l)) /\
  zone_y TASK_ZONE + zone_height TASK_ZONE
  <= pos_y (stackPosition (length (taskZoneItems l))).
Proof.
  intros Hfull. split.
  - unfold findTaskZonePosition. by rewrite (firstFree_full _ Hfull).
  - pose proof (full_grid_count _ Hfull) as Hcount.
    pose proof (nat_Q_le 12 _ Hcount) as Hq. change (inject_Z (Z.of_nat 12)) with 12 in Hq.
    unfold stackPosition, TASK_ZONE, rowHeight, padding. cbn [pos_y zone_y zone_height].
    revert Hq. generalize (inject_Z (Z.of_nat (length (taskZoneItems l)))). intros q Hq.
    lra.
Qed.

(** X7: Once every cell is marked, the item stacked below the zone is stored
    outside the zone rectangle, so the next creation does not count it:
    two creations in a row get the same position and collide. *)
Theorem overflow_creations_coincide (st : ServerState) (env1 env2 : Env)
    (r1 r2 : CreateRequest) (a b : BoardItem) :
  (forall row col, (row < Z.to_nat maxRows)%nat -> (col < Z.to_nat maxCols)%nat ->
     gridAt (markGrid (taskZoneItems (store st))) row col = true) ->
  noCoordinates r1 -> noCoordinates r2 ->
  createdItems (serve [(env1, r1); (env2, r2)] st).1 = [a; b] ->
  inTaskZone a = false /\ x b = x a /\ y b = y a /\ checkCollision a b = true.
Proof.
  intros Hfull Hn1 Hn2 Hcreated.
  assert (Forall (fun er => noCoordinates er.2) [(env1, r1); (env2, r2)]) as Hno
    by (repeat constructor; done).
  assert (a ∈ createdItems (serve [(env1, r1); (env2, r2)] st).1) as Hina
    by (rewrite Hcreated; left).
  assert (b ∈ createdItems (serve [(env1, r1); (env2, r2)] st).1) as Hinb
    by (rewrite Hcreated; right; left).
  destruct (created_positive _ _ _ Hno Hina) as [Hwa Hha].
  destruct (created_positive _ _ _ Hno Hinb) as [Hwb Hhb].
  destruct (serve_placeAll _ st Hno) as [Hc _]. rewrite Hc in Hcreated.
  unfold declaredAll in Hcreated. cbn [omap list_omap fst snd] in Hcreated.
  destruct (declared r1) as [t1|] eqn:Hd1; destruct (declared r2) as [t2|] eqn:Hd2;
    cbn [fmap option_fmap option_map] in Hcreated;
    rewrite ?placeAll_cons in Hcreated; cbn [fst snd placeAll] in Hcreated;
    try discriminate.
  assert ((place env1 t1 (store st)).1 = a /\
          (place env2 t2 (place env1 t1 (store st)).2).1 = b) as [Ha Hb]
    by (split; congruence).
  clear Hcreated.
  destruct (full_grid_stack t1 (store st) Hfull) as [Hp1 Hbelow].
  assert (x a = pos_x (findTaskZonePosition t1 (store st)) /\
          y a = pos_y (findTaskZonePosition t1 (store st))) as [Hxa Hya]
    by (by rewrite <- Ha).
  assert (inTaskZone a = false) as Hout.
  { unfold inTaskZone. rewrite Hya, Hp1.
    apply andb_false_iff. right. apply negb_false_iff. apply Qleb_le. exact Hbelow. }
  assert (taskZoneItems (place env1 t1 (store st)).2 = taskZoneItems (store st)) as Hsame.
  { rewrite place_store, taskZoneItems_app, Ha. unfold taskZoneItems at 2. simpl.
    rewrite Hout. simpl. by rewrite app_nil_r. }
  assert (x b = x a /\ y b = y a) as [Hx Hy].
  { rewrite Hxa, Hya, <- Hb. unfold place at 1 3.
    cbn [fst x y newGridItem]. unfold findTaskZonePosition. rewrite Hsame. done. }
  split; [done|]. split; [done|]. split; [done|].
  unfold checkCollision. rewrite Hx, Hy, negb_true_iff, !orb_false_iff.
  repeat split; apply Qleb_false; lra.
Qed.

Lemma overflow_creations_coincide_witness :
  exists a b,
    createdItems (serve [(sampleEnv "1", todoRequest "one"); (sampleEnv "2", todoRequest "two")]
                        fullServer).1 = [a; b] /\
    x b = x a /\ y b = y a /\ checkCollision a b = true.
Proof.
  eexists; eexists.
  assert (createdItems (serve [(sampleEnv "1", todoRequest "one");
                               (sampleEnv "2", todoRequest "two")] fullServer).1
          = [_; _]) as Hc by reflexivity.
  split; [exact Hc|].
  exact (proj2 (overflow_creations_coincide fullServer (sampleEnv "1") (sampleEnv "2")
                  (todoRequest "one") (todoRequest "two") _ _
                  Examples.fullStore_full (conj eq_refl eq_refl) (conj eq_refl eq_refl) Hc)).
Defined.

End GridMore.

(** ** Collision avoidance, deletion and listing *)

Module FreeFormFacts.
Import Alloc FreeForm.

Lemma fold_bottom_ge existing : forall m,
  m <= fold_left (fun m e => if Qltb m (y e + height e) then y e + height e else m)
                 existing m /\
  forall e, e ∈ existing ->
    y e + height e
    <= fold_left (fun m e => if Qltb m (y e + height e) then y e + height e else m)
                 existing m.
Proof.
  induction existing as [|h l IH]; intros m; simpl.
  - split; [lra|]. intros e He. by apply elem_of_nil in He.
  - destruct (Qltb m (y h + height h)) eqn:E.
    + apply Qltb_lt in E. destruct (IH (y h + height h)) as [H1 H2]. split; [lra|].
      intros e He. apply elem_of_cons in He as [->|He]; [done|by apply H2].
    + assert (y h + height h <= m) as Hle.
      { unfold Qltb in E. apply negb_false_iff in E. by apply Qle_bool_iff in E. }
      destruct (IH m) as [H1 H2]. split; [done|].
      intros e He. apply elem_of_cons in He as [->|He]; [lra|by apply H2].
Qed.

Lemma maxBottom_ge existing e : e ∈ existing -> y e + height e <= maxBottom existing.
Proof. intros He. by apply (fold_bottom_ge existing 0). Qed.

(** A candidate placed [padding] below the lowest bottom edge collides
    with nothing. *)
Lemma below_all_free newItem existing testX :
  hasCollision (withPosition newItem testX (maxBottom existing + padding)) existing = false.
Proof.
  unfold hasCollision. apply not_true_is_false. intros H.
  apply existsb_exists in H as (e & He & Hc). apply list_elem_of_In in He.
  pose proof (maxBottom_ge existing e He) as Hb.
  unfold checkCollision in Hc. apply negb_true_iff in Hc.
  rewrite !orb_false_iff in Hc. destruct Hc as [_ H4]. apply Qleb_false in H4.
  cbn [y withPosition] in H4. unfold padding in H4. lra.
Qed.

Lemma search_not_crowded fuel newItem existing draws k tx ty :
  maxBottom existing + padding <= 8000 ->
  let p := search (S (S fuel)) newItem existing draws k tx ty in
  hasCollision (withPosition newItem (pos_x p) (pos_y p)) existing = false /\
  (hasCollision (withPosition newItem tx ty) existing = false -> p = mkPos tx ty) /\
  (hasCollision (withPosition newItem tx ty) existing = true ->
   p = mkPos tx (maxBottom existing + padding)).
Proof.
  intros Hroom p. subst p. cbn [search].
  assert (Qltb 8000 (maxBottom existing + padding) = false) as ->.
  { unfold Qltb. apply negb_false_iff. by apply Qle_bool_iff. }
  destruct (hasCollision (withPosition newItem tx ty) existing) eqn:E.
  - rewrite below_all_free. cbn [pos_x pos_y]. rewrite below_all_free. done.
  - cbn [pos_x pos_y]. rewrite E. done.
Qed.

Lemma request_nonzero newItem existingItems draws :
  ~ x newItem == 0 -> ~ y newItem == 0 ->
  findNonOverlappingPosition newItem existingItems draws
  = search maxAttempts newItem existingItems draws 0 (x newItem) (y newItem).
Proof.
  intros Hx Hy. unfold findNonOverlappingPosition.
  destruct (Qeq_bool (x newItem) 0) eqn:Ex; [by apply Qeq_bool_iff in Ex|].
  destruct (Qeq_bool (y newItem) 0) eqn:Ey; [by apply Qeq_bool_iff in Ey|].
  reflexivity.
Qed.

Lemma free_everywhere item existingItems e :
  hasCollision item existingItems = false -> e ∈ existingItems ->
  checkCollision item e = false.
Proof.
  intros Hfree He. destruct (checkCollision item e) eqn:Ec; [|done].
  assert (hasCollision item existingItems = true) as Hex; [|congruence].
  apply existsb_exists. exists e. split; [by apply list_elem_of_In|done].
Qed.

(** X8: [findNonOverlappingPosition], while the lowest bottom edge leaves room
    ([maxBottom + 20 <= 8000]): the position returned collides with no
    existing item; it is the requested position when that one is free, and
    otherwise the requested [x] with [y] 20 below the lowest bottom edge. *)
Theorem findNonOverlappingPosition_not_crowded
    (newItem : BoardItem) (existingItems : list BoardItem) (draws : nat -> Q) :
  ~ x newItem == 0 -> ~ y newItem == 0 ->
  maxBottom existingItems + padding <= 8000 ->
  let p := findNonOverlappingPosition newItem existingItems draws in
  (forall e, e ∈ existingItems ->
     checkCollision (withPosition newItem (pos_x p) (pos_y p)) e = false) /\
  (hasCollision newItem existingItems = false -> p = mkPos (x newItem) (y newItem)) /\
  (hasCollision newItem existingItems = true ->
   p = mkPos (x newItem) (maxBottom existingItems + padding)).
Proof.
  intros Hx Hy Hroom p. subst p.
  rewrite (request_nonzero newItem existingItems draws Hx Hy).
  change maxAttempts with (S (S 48)).
  destruct (search_not_crowded 48 newItem existingItems draws 0 (x newItem) (y newItem) Hroom)
    as (Hfree & Hkeep & Hmove).
  assert (withPosition newItem (x newItem) (y newItem) = newItem) as Hsame
    by (by destruct newItem).
  rewrite Hsame in Hkeep, Hmove.
  split; [|split; [exact Hkeep|exact Hmove]].
  intros e He. by apply (free_everywhere _ existingItems).
Qed.

Lemma findNonOverlappingPosition_not_crowded_witness :
  ~ x (withPosition todoCard 3300 3300) == 0 /\
  maxBottom [ehrItem] + padding <= 8000 /\
  findNonOverlappingPosition (withPosition todoCard 3300 3300) [ehrItem] noDraws
  = mkPos 3300 (maxBottom [ehrItem] + padding).
Proof.
  assert (~ x (withPosition todoCard 3300 3300) == 0) as Hx by (vm_compute; discriminate).
  assert (~ y (withPosition todoCard 3300 3300) == 0) as Hy by (vm_compute; discriminate).
  assert (maxBottom [ehrItem] + padding <= 8000) as Hroom by (vm_compute; discriminate).
  split; [exact Hx|]. split; [exact Hroom|].
  exact (proj2 (proj2 (findNonOverlappingPosition_not_crowded
                         (withPosition todoCard 3300 3300) [ehrItem] noDraws Hx Hy Hroom))
               eq_refl).
Defined.

(** X9: [POST /api/components] on a board whose lowest bottom edge leaves room:
    the component is created (201), stored after the existing items and
    announced to every connected client, it keeps the requested (or drawn)
    [x], and it collides with no item stored before. *)
Theorem post_components_avoids_stored_items
    (env : Env) (draws : nat -> Q) (b : ComponentsBody) (st : ServerState)
    (componentType : string) :
  truthy_val (c_componentType b) = Some componentType ->
  0 <= randomX env -> 0 <= randomY env ->
  maxBottom (store st) + padding <= 8000 ->
  exists placed,
    post_components env draws b st
    = (mkResponse 201 (ItemBody placed),
       broadcastSSE (NewItemEvent placed (now env)) (setStore (store st ++ [placed]) st)) /\
    x placed = or_num (c_x b) (randomX env * 8000 + 100) /\
    (forall e, e ∈ store st -> checkCollision placed e = false).
Proof.
  intros Hty Hrx Hry Hroom. unfold post_components. rewrite Hty.
  destruct (FileServer.componentDefaults (Some componentType)) as [dw dh].
  set (newItem := mkItem _ _ _ _ _ _ _ _ _ _).
  assert (forall o d, 0 <= d -> ~ or_num o (d + 100) == 0) as Hnz.
  { intros o d Hd. unfold or_num. destruct o as [q|]; [|lra].
    destruct (Qeq_bool q 0) eqn:E; [lra|]. by apply Qeq_bool_neq in E. }
  assert (~ x newItem == 0) as Hx.
  { cbn [x newItem]. apply Hnz. nra. }
  assert (~ y newItem == 0) as Hy.
  { cbn [y newItem]. apply Hnz. nra. }
  cbv zeta. fold newItem.
  rewrite (request_nonzero newItem (store st) draws Hx Hy).
  change maxAttempts with (S (S 48)).
  destruct (search_not_crowded 48 newItem (store st) draws 0 (x newItem) (y newItem) Hroom)
    as (Hfree & Hkeep & Hmove).
  eexists. split; [reflexivity|]. split.
  - cbn [x withPosition].
    destruct (hasCollision (withPosition newItem (x newItem) (y newItem)) (store st)) eqn:E.
    + rewrite (Hmove eq_refl). reflexivity.
    + rewrite (Hkeep eq_refl). reflexivity.
  - intros e He. by apply (free_everywhere _ (store st)).
Qed.

Lemma post_components_avoids_stored_items_witness :
  exists placed,
    (post_components (sampleEnv "9") noDraws componentBody sampleServer).1
    = mkResponse 201 (ItemBody placed) /\
    x placed = 3300 /\
    (forall e, e ∈ store sampleServer -> checkCollision placed e = false).
Proof.
  assert (truthy_val (c_componentType componentBody) = Some "LabChart") as Hty
    by reflexivity.
  assert (0 <= randomX (sampleEnv "9")) as Hrx by (vm_compute; discriminate).
  assert (0 <= randomY (sampleEnv "9")) as Hry by (vm_compute; discriminate).
  assert (maxBottom (store sampleServer) + padding <= 8000) as Hroom
    by (vm_compute; discriminate).
  destruct (post_components_avoids_stored_items (sampleEnv "9") noDraws componentBody
              sampleServer "LabChart" Hty Hrx Hry Hroom) as (placed & Heq & Hx & Hfree).
  exists placed. split; [by rewrite Heq|]. split; [exact Hx|exact Hfree].
Defined.

End FreeFormFacts.

Module StoreFacts.

Lemma filter_length_eq {A} (f : A -> bool) (l : list A) :
  length (List.filter f l) = length l <-> forall a, a ∈ l -> f a = true.
Proof.
  induction l as [|h t IH]; simpl.
  - split; [|done]. intros _ a Ha. by apply elem_of_nil in Ha.
  - pose proof (sublist_length _ _ (filter_sublist f t)) as Hle.
    destruct (f h) eqn:E; simpl.
    + split.
      * intros Hlen a Ha. apply elem_of_cons in Ha as [->|Ha]; [done|].
        apply IH; [lia|done].
      * intros Hall. f_equal. apply IH. intros a Ha. apply Hall. by right.
    + split; [lia|].
      intros Hall. specialize (Hall h ltac:(left)). congruence.
Qed.

Lemma filter_all {A} (f : A -> bool) (l : list A) :
  (forall a, a ∈ l -> f a = true) -> List.filter f l = l.
Proof.
  induction l as [|h t IH]; simpl; [done|]. intros Hall.
  rewrite (Hall h ltac:(left)). f_equal. apply IH. intros a Ha. apply Hall. by right.
Qed.

Lemma elem_of_filter_bool {A} (f : A -> bool) (l : list A) a :
  a ∈ List.filter f l <-> a ∈ l /\ f a = true.
Proof. rewrite !list_elem_of_In. apply filter_In. Qed.

Lemma other_id (item : BoardItem) target :
  negb (String.eqb (id item) target) = true <-> id item <> target.
Proof.
  rewrite negb_true_iff. split.
  - intros H Heq. rewrite Heq, String.eqb_refl in H. discriminate.
  - intros H. by apply String.eqb_neq.
Qed.

(** X10: [DELETE /api/board-items/:id]: when no stored item has the id the
    answer is 404 and nothing changes; otherwise the answer is 200 and the
    store keeps, in order, exactly the items with another id (every item
    with the id goes, not only the first), everything else unchanged. *)
Theorem delete_board_item_contract (target : string) (st : ServerState) :
  (target ∉ map id (store st) ->
   delete_board_item target st = (mkReply 404 "Board item not found", st)) /\
  (target ∈ map id (store st) ->
   exists st',
     delete_board_item target st = (mkReply 200 "Board item deleted successfully", st') /\
     (forall item, item ∈ store st' <-> item ∈ store st /\ id item <> target) /\
     store st' `sublist_of` store st /\
     (length (store st') < length (store st))%nat /\
     sourceData st' = sourceData st /\ sent st' = sent st /\
     sseClients st' = sseClients st).
Proof.
  unfold delete_board_item. split.
  - intros Hno.
    assert (length (List.filter (fun item => negb (String.eqb (id item) target)) (store st))
            = length (store st)) as Hlen.
    { apply filter_length_eq. intros a Ha. apply other_id. intros Heq. apply Hno.
      rewrite <- Heq. apply list_elem_of_fmap. by exists a. }
    rewrite Hlen, Nat.eqb_refl. done.
  - intros Hin.
    pose proof (sublist_length _ _
      (filter_sublist (fun item => negb (String.eqb (id item) target)) (store st))) as Hle.
    destruct (Nat.eqb_spec
      (length (List.filter (fun item => negb (String.eqb (id item) target)) (store st)))
      (length (store st))) as [Hlen|Hlen].
    + exfalso. apply list_elem_of_fmap in Hin as (a & -> & Ha).
      pose proof (proj1 (filter_length_eq _ _) Hlen a Ha) as Hk.
      by apply other_id in Hk.
    + eexists. split; [reflexivity|]. cbn [store setStore sourceData sent sseClients].
      split; [|split; [apply filter_sublist|split; [lia|done]]].
      intros item. rewrite elem_of_filter_bool, other_id. done.
Qed.

Lemma delete_board_item_contract_witness :
  exists st',
    delete_board_item "ehr-item-1" sampleServer
    = (mkReply 200 "Board item deleted successfully", st') /\
    (length (store st') < length (store sampleServer))%nat.
Proof.
  assert ("ehr-item-1" ∈ map id (store sampleServer)) as Hin
    by (apply list_elem_of_In; vm_compute; tauto).
  destruct (proj2 (delete_board_item_contract "ehr-item-1" sampleServer) Hin)
    as (st' & Heq & _ & _ & Hlt & _).
  exists st'. split; [exact Heq|exact Hlt].
Defined.

Lemma filter_app_bool {A} (f : A -> bool) (l1 l2 : list A) :
  List.filter f (l1 ++ l2) = List.filter f l1 ++ List.filter f l2.
Proof. induction l1 as [|h t IH]; simpl; [done|]. destruct (f h); simpl; by rewrite IH. Qed.

(** X11: Creating an item with [POST /api/board-items] and deleting it again by
    the id of the response: the deletion succeeds, and the store is the old
    one without the older items that had the same id; with a fresh id the
    server is back in the state before the creation. *)
Theorem post_then_delete (env : Env) (b : FileServer.BoardItemBody) (st : ServerState)
    (created : BoardItem) (st1 : ServerState) :
  FileServer.post_board_items env b st = (mkResponse 201 (ItemBody created), st1) ->
  exists st2,
    delete_board_item (id created) st1
    = (mkReply 200 "Board item deleted successfully", st2) /\
    store st2
    = List.filter (fun item => negb (String.eqb (id item) (id created))) (store st) /\
    (id created ∉ map id (store st) -> st2 = st).
Proof.
  unfold FileServer.post_board_items.
  destruct (truthy_val (FileServer.b_type b)) as [ty|]; [|discriminate].
  destruct (if String.eqb ty "component" then _ else _) as [dw dh].
  intros Heq. injection Heq as Hitem Hst. subst st1.
  assert (id created = newId env) as Hid by (by rewrite <- Hitem).
  set (keep := fun item : BoardItem => negb (String.eqb (id item) (id created))).
  assert (List.filter keep (store st ++ [created]) = List.filter keep (store st)) as Hf.
  { rewrite filter_app_bool. cbn [List.filter]. unfold keep at 2.
    rewrite String.eqb_refl. cbn [negb]. by rewrite app_nil_r. }
  unfold delete_board_item. cbn [store setStore]. fold keep.
  rewrite Hitem, Hf.
  pose proof (sublist_length _ _ (filter_sublist keep (store st))) as Hle.
  destruct (Nat.eqb_spec (length (List.filter keep (store st)))
                         (length (store st ++ [created]))) as [Hlen|Hlen].
  { rewrite length_app in Hlen. cbn [length] in Hlen. lia. }
  eexists. split; [reflexivity|]. cbn [store setStore]. split; [done|].
  intros Hfresh. rewrite filter_all.
  - by destruct st.
  - intros a Ha. apply other_id. intros Ha'. apply Hfresh. rewrite <- Ha'.
    apply list_elem_of_fmap. by exists a.
Qed.

Lemma post_then_delete_witness :
  exists created st1,
    FileServer.post_board_items (sampleEnv "9")
      (FileServer.mkBoardItemBody (Some "sticky") None None None None None None None)
      sampleServer
    = (mkResponse 201 (ItemBody created), st1) /\
    (delete_board_item (id created) st1).2 = sampleServer.
Proof.
  eexists. eexists. split; [reflexivity|].
  match goal with |- (delete_board_item (id ?c) ?s1).2 = _ =>
    destruct (post_then_delete (sampleEnv "9")
                (FileServer.mkBoardItemBody (Some "sticky") None None None None None None None)
                sampleServer c s1 eq_refl) as (st2 & Heq & _ & Hback)
  end.
  rewrite Heq. apply Hback.
  intros Hin. apply list_elem_of_In in Hin. vm_compute in Hin.
  destruct Hin as [Hin|[]]. discriminate.
Defined.

Lemma filter_insert_hidden {A} (f : A -> bool) (l : list A) : forall i a b,
  l !! i = Some a -> f a = false -> f b = false ->
  List.filter f (<[i := b]> l) = List.filter f l.
Proof.
  induction l as [|h t IH]; intros i a b Hi Ha Hb; [done|].
  destruct i as [|i]; simpl in Hi |- *.
  - injection Hi as ->. by rewrite Ha, Hb.
  - by rewrite (IH i a b Hi Ha Hb).
Qed.

Lemma hidden_id (ids : list string) (item : BoardItem) :
  id item ∈ ids -> negb (existsb (String.eqb (id item)) ids) = false.
Proof.
  intros Hin. apply negb_false_iff, existsb_exists. exists (id item).
  split; [by apply list_elem_of_In|apply String.eqb_refl].
Qed.

Lemma shown_id (ids : list string) (item : BoardItem) :
  negb (existsb (String.eqb (id item)) ids) = true <-> id item ∉ ids.
Proof.
  split.
  - intros H Hin. by rewrite (hidden_id ids item Hin) in H.
  - intros H. apply negb_true_iff, not_true_is_false. intros Hex.
    apply existsb_exists in Hex as (s & Hs & Heq). apply String.eqb_eq in Heq.
    subst s. by apply list_elem_of_In in Hs.
Qed.

Lemma map_id_alter (f : BoardItem -> BoardItem) (l : list BoardItem) i :
  (forall item, id (f item) = id item) -> map id (alter f i l) = map id l.
Proof.
  intros Hf. revert i. induction l as [|h t IH]; intros [|i]; cbn; try done.
  - by rewrite Hf.
  - by rewrite IH.
Qed.

(** X12: [GET /api/board-items] of the file server: the source data comes first
    and unchanged, a stored item is listed exactly when the source data has
    no item with its id, and the listing has no id twice when neither the
    source data nor the store has. *)
Theorem get_board_items_merge (st : ServerState) :
  take (length (sourceData st)) (get_board_items st) = sourceData st /\
  (forall item, item ∈ get_board_items st <->
     item ∈ sourceData st \/ (item ∈ store st /\ id item ∉ map id (sourceData st))) /\
  (NoDup (map id (sourceData st)) -> NoDup (map id (store st)) ->
   NoDup (map id (get_board_items st))).
Proof.
  unfold get_board_items. split; [by rewrite take_app_length|]. split.
  - intros item. rewrite elem_of_app, elem_of_filter_bool, shown_id. done.
  - intros Hs Hb. rewrite map_app. apply NoDup_app. split; [done|]. split.
    + intros s Hin1 Hin2. apply list_elem_of_fmap in Hin2 as (item & -> & Hitem).
      apply elem_of_filter_bool in Hitem as [_ Hshown]. by apply shown_id in Hshown.
    + apply (sublist_NoDup _ _ Hb). apply (fmap_sublist id). apply filter_sublist.
Qed.

Lemma get_board_items_merge_witness :
  NoDup (map id (get_board_items seededServer)).
Proof.
  apply (proj2 (proj2 (get_board_items_merge seededServer))).
  - apply (bool_decide_unpack _). by vm_compute.
  - apply (bool_decide_unpack _). by vm_compute.
Defined.

(** X13: A [PUT /api/board-items/:id] on an id that the source data also has
    (and that does not change the id) never shows in the listing of
    [GET /api/board-items], except for the height, which is written to the
    source data: the listing after the update is that of the old store with
    at most the source item's height updated. *)
Theorem put_hidden_behind_source_data
    (env : Env) (target : string) (updates : ItemPatch) (st : ServerState) :
  target ∈ map id (sourceData st) ->
  target ∈ map id (store st) ->
  p_id updates = None ->
  get_board_items (FileServer.put_board_item env target updates st).2
  = get_board_items
      (match p_height updates with
       | Some h => FileServer.updateSourceDataHeight target h st
       | None => st
       end).
Proof.
  intros Hsrc Hstore Hid. unfold FileServer.put_board_item.
  destruct (findItem target (store st)) as [[i old]|] eqn:Hfind.
  2:{ exfalso. unfold findItem in Hfind. apply list_find_None in Hfind.
      apply list_elem_of_fmap in Hstore as (a & -> & Ha).
      rewrite Forall_forall in Hfind. by apply (Hfind a Ha). }
  unfold findItem in Hfind.
  apply (list_find_Some (fun item => id item = target)) in Hfind as (Hi & Hold & _).
  cbn [snd].
  set (merged := mergeItem old updates (now env)).
  assert (id merged = target) as Hm by (cbn [id merged mergeItem]; by rewrite Hid).
  assert (forall src,
    map id src = map id (sourceData st) ->
    List.filter (fun item => negb (existsb (String.eqb (id item)) (map id src)))
                (<[i := merged]> (store st))
    = List.filter (fun item => negb (existsb (String.eqb (id item)) (map id src)))
                  (store st)) as Hfilter.
  { intros src Hsame. apply (filter_insert_hidden _ _ i old merged Hi).
    - apply hidden_id. by rewrite Hsame, Hold.
    - apply hidden_id. by rewrite Hsame, Hm. }
  destruct (p_height updates) as [h|].
  - unfold FileServer.updateSourceDataHeight. cbn [sourceData setStore].
    destruct (findItem target (sourceData st)) as [[k srcItem]|].
    + unfold get_board_items. cbn [store sourceData setSourceData setStore].
      f_equal. apply Hfilter. by apply map_id_alter.
    + unfold get_board_items. cbn [store sourceData setStore]. f_equal. by apply Hfilter.
  - unfold get_board_items. cbn [store sourceData setStore]. f_equal. by apply Hfilter.
Qed.

Lemma put_hidden_behind_source_data_witness :
  get_board_items (FileServer.put_board_item (sampleEnv "9") "todo-1" movePatch seededServer).2
  = get_board_items seededServer.
Proof.
  apply (put_hidden_behind_source_data (sampleEnv "9") "todo-1" movePatch seededServer).
  - apply list_elem_of_In. vm_compute. tauto.
  - apply list_elem_of_In. vm_compute. tauto.
  - reflexivity.
Defined.

End StoreFacts.

(** ** Persistence: Redis and the in-memory cache *)

Module StorageFacts.
Import RedisStorage.

Lemma load_connected be :
  redis be <> None ->
  exists be1, loadBoardItems be = ((loadBoardItems be).1, be1) /\
    redis be1 <> None /\ RedisStorage.sourceFile be1 = RedisStorage.sourceFile be /\
    loadBoardItems be1 = ((loadBoardItems be).1, be1).
Proof.
  intros Hc. destruct be as [[[l|]|] [f|]]; try done; cbn; eexists; eauto.
Qed.

(** X14: With Redis connected, [POST /api/todos] with its loads and its save
    written out answers exactly as the handler over a plain store holding
    what [loadBoardItems] returns, writes the same messages and log lines,
    and leaves under the Redis key the store that this handler leaves. *)
Theorem connected_backend_is_store
    (env : Env) (b : RedisServer.TodosBody) (be : Backend) (st : ServerState) :
  redis be <> None ->
  exists be' st',
    post_todos env b be st
    = ((RedisServer.post_todos env b (setStore (loadBoardItems be).1 st)).1, be', st') /\
    sent st' = sent (RedisServer.post_todos env b (setStore (loadBoardItems be).1 st)).2 /\
    console st' = console (RedisServer.post_todos env b (setStore (loadBoardItems be).1 st)).2 /\
    (status (RedisServer.post_todos env b (setStore (loadBoardItems be).1 st)).1 = 201%nat ->
     redis be'
     = Some (Some (store (RedisServer.post_todos env b (setStore (loadBoardItems be).1 st)).2))).
Proof.
  intros Hc. destruct (load_connected be Hc) as (be1 & Hl1 & Hc1 & Hf1 & Hl2).
  unfold post_todos, RedisServer.post_todos.
  destruct (RedisServer.todo_items b) as [entries|].
  2:{ eexists _, _. cbn. split; [reflexivity|]. repeat split; intros; discriminate. }
  destruct (truthy_str (RedisServer.title b)).
  2:{ eexists _, _. cbn. split; [reflexivity|]. repeat split; intros; discriminate. }
  rewrite Hl1. cbn [store setStore].
  destruct (resolvePosition _ _ _ _ _) as [p lines].
  rewrite Hl2. unfold saveBoardItems.
  destruct (redis be1) as [r|] eqn:Hr; [|done].
  eexists _, _. cbn. split; [reflexivity|]. repeat split.
Qed.

Lemma connected_backend_is_store_witness :
  exists be' st',
    post_todos (sampleEnv "1") todoBody unprimedBackend sampleServer
    = ((RedisServer.post_todos (sampleEnv "1") todoBody sampleServer).1, be', st') /\
    length <$> (default None (redis be')) = Some 2%nat.
Proof.
  assert (redis unprimedBackend <> None) as Hc by discriminate.
  destruct (connected_backend_is_store (sampleEnv "1") todoBody unprimedBackend sampleServer Hc)
    as (be' & st' & Heq & _ & _ & Hkey).
  exists be', st'. split; [exact Heq|].
  rewrite (Hkey eq_refl). reflexivity.
Defined.

(** X15: Without a Redis connection nothing is stored: two successive
    [POST /api/todos] without coordinates that pass validation are both
    answered 201, leave the backend as it was, and put their items at the
    same position, where the two collide. *)
Theorem disconnected_todos_share_position
    (env1 env2 : Env) (b1 b2 : RedisServer.TodosBody) (be : Backend) (st : ServerState) :
  redis be = None ->
  RedisServer.todos_x b1 = None -> RedisServer.todos_x b2 = None ->
  status (post_todos env1 b1 be st).1.1 = 201%nat ->
  status (post_todos env2 b2 (post_todos env1 b1 be st).1.2 (post_todos env1 b1 be st).2).1.1
  = 201%nat ->
  (post_todos env2 b2 (post_todos env1 b1 be st).1.2 (post_todos env1 b1 be st).2).1.2 = be /\
  exists item1 item2,
    body (post_todos env1 b1 be st).1.1 = ItemBody item1 /\
    body (post_todos env2 b2 (post_todos env1 b1 be st).1.2
                     (post_todos env1 b1 be st).2).1.1 = ItemBody item2 /\
    x item1 = x item2 /\ y item1 = y item2 /\
    Alloc.checkCollision item1 item2 = true.
Proof.
  intros Hr Hx1 Hx2.
  assert (loadBoardItems be = ((loadBoardItems be).1, be)) as Hl.
  { unfold loadBoardItems. rewrite Hr. by destruct (RedisStorage.sourceFile be). }
  assert (forall env b s,
    RedisServer.todos_x b = None ->
    status (post_todos env b be s).1.1 = 201%nat ->
    exists n,
      post_todos env b be s
      = (mkResponse 201
           (ItemBody
              (newGridItem env
                 (mkTemp "todo" 420 (RedisServer.calculateTodoHeight n (RedisServer.description b)))
                 (pos_x (Alloc.findTaskZonePosition
                           (mkTemp "todo" 420
                              (RedisServer.calculateTodoHeight n (RedisServer.description b)))
                           (loadBoardItems be).1))
                 (pos_y (Alloc.findTaskZonePosition
                           (mkTemp "todo" 420
                              (RedisServer.calculateTodoHeight n (RedisServer.description b)))
                           (loadBoardItems be).1)))),
         be, (post_todos env b be s).2)) as Hstep.
  { intros env b s Hx. unfold post_todos.
    destruct (RedisServer.todo_items b) as [entries|]; [|discriminate].
    destruct (truthy_str (RedisServer.title b)); [|discriminate].
    rewrite Hl. unfold resolvePosition. rewrite Hx. rewrite Hl.
    unfold saveBoardItems. rewrite Hr. intros _. by exists (length entries). }
  intros H1. destruct (Hstep env1 b1 st Hx1 H1) as (n1 & E1).
  rewrite E1. cbn [fst snd]. intros H2.
  destruct (Hstep env2 b2 (post_todos env1 b1 be st).2 Hx2 H2) as (n2 & E2).
  rewrite E2. cbn [fst snd body]. split; [done|].
  eexists _, _. split; [reflexivity|]. split; [reflexivity|].
  cbn [x y newGridItem]. split; [done|]. split; [done|].
  pose proof (GridMore.todo_height_min n1 (RedisServer.description b1)) as Hlo1.
  pose proof (GridMore.todo_height_min n2 (RedisServer.description b2)) as Hlo2.
  unfold Alloc.checkCollision, Alloc.findTaskZonePosition.
  cbn [x y width height newGridItem temp_width temp_height].
  generalize (match Alloc.firstFree (Alloc.markGrid (Alloc.taskZoneItems (loadBoardItems be).1)) with
              | Some (row, col) => mkPos (Alloc.cellX col) (Alloc.cellY row)
              | None => Alloc.stackPosition (length (Alloc.taskZoneItems (loadBoardItems be).1))
              end) as p.
  intros p. apply negb_true_iff. rewrite !orb_false_iff.
  repeat split; apply Qleb_false; lra.
Qed.

Lemma disconnected_todos_share_position_witness :
  (post_todos (sampleEnv "2") todoBody
     (post_todos (sampleEnv "1") todoBody offlineBackend sampleServer).1.2
     (post_todos (sampleEnv "1") todoBody offlineBackend sampleServer).2).1.2
  = offlineBackend.
Proof.
  apply (disconnected_todos_share_position (sampleEnv "1") (sampleEnv "2") todoBody todoBody
           offlineBackend sampleServer); reflexivity.
Defined.

End StorageFacts.

Module MemoryFacts.
Import MemoryServer.

(** X16: The in-memory server keeps a created todo only as long as its cache is
    fresh.  After a [POST /api/todos] answered 201 at time [t0] (source file
    readable as [src]) the cache ends with the created item and carries a
    load time [T <= t0]; a [GET /api/board-items] at [t1] lists the cache,
    created item included, while [t1 - T < 60000], and lists the source file
    alone from then on. *)
Theorem memory_todo_lifetime
    (env : Env) (t0 : Q) (b : RedisServer.TodosBody) (m : Memory) (st : ServerState)
    (src : list BoardItem) :
  MemoryServer.sourceFile m = Some src ->
  0 < t0 ->
  (forall t, lastLoadTime m = Some t -> t <= t0) ->
  status (post_todos env t0 b m st).1.1 = 201%nat ->
  exists created listing T,
    body (post_todos env t0 b m st).1.1 = ItemBody created /\
    boardItemsCache (post_todos env t0 b m st).1.2 = Some (listing ++ [created]) /\
    lastLoadTime (post_todos env t0 b m st).1.2 = Some T /\ T <= t0 /\
    forall t1,
      (t1 - T < CACHE_DURATION ->
       (get_board_items t1 (post_todos env t0 b m st).1.2).1 = listing ++ [created]) /\
      (CACHE_DURATION <= t1 - T ->
       (get_board_items t1 (post_todos env t0 b m st).1.2).1 = src).
Proof.
  intros Hsrc Ht0 Hpast. unfold post_todos.
  destruct (RedisServer.todo_items b) as [entries|]; [|discriminate].
  destruct (truthy_str (RedisServer.title b)); [|discriminate].
  intros _.
  set (created := mkItem _ _ _ _ _ _ _ _ _ _).
  assert (exists listing T,
    loadBoardItems t0 m
    = (listing, mkMemory (Some listing) (Some T) (Some src)) /\ ~ T == 0 /\ T <= t0)
    as (listing & T & Hload & HT & HTle).
  { unfold loadBoardItems, reload. rewrite Hsrc.
    destruct m as [[cache|] [t|] f]; cbn in Hsrc, Hpast |- *; subst f.
    - destruct (Qeq_bool t 0) eqn:Et; cbn [negb andb].
      + exists src, t0. split; [done|]. split; lra.
      + destruct (Qltb (t0 - t) CACHE_DURATION).
        * exists cache, t. split; [done|]. split; [by apply Qeq_bool_neq|by apply Hpast].
        * exists src, t0. split; [done|]. split; lra.
    - exists src, t0. split; [done|]. split; lra.
    - exists src, t0. split; [done|]. split; lra.
    - exists src, t0. split; [done|]. split; lra. }
  rewrite Hload. cbn [fst snd body boardItemsCache lastLoadTime MemoryServer.sourceFile].
  exists created, listing, T. split; [done|]. split; [done|]. split; [done|].
  split; [done|].
  intros t1. unfold get_board_items, loadBoardItems, reload.
  cbn [boardItemsCache lastLoadTime MemoryServer.sourceFile].
  assert (Qeq_bool T 0 = false) as ->.
  { destruct (Qeq_bool T 0) eqn:E; [|done]. by apply Qeq_bool_iff in E. }
  cbn [negb andb]. split.
  - intros Hfresh. apply Qltb_lt in Hfresh. by rewrite Hfresh.
  - intros Hstale.
    assert (Qltb (t1 - T) CACHE_DURATION = false) as ->; [|done].
    unfold Qltb. apply negb_false_iff. by apply Qle_bool_iff.
Qed.

Lemma memory_todo_lifetime_witness :
  exists created listing T,
    body (post_todos (sampleEnv "1") 1000 todoBody coldMemory sampleServer).1.1
    = ItemBody created /\
    lastLoadTime (post_todos (sampleEnv "1") 1000 todoBody coldMemory sampleServer).1.2
    = Some T /\
    (get_board_items (T + 1000)
       (post_todos (sampleEnv "1") 1000 todoBody coldMemory sampleServer).1.2).1
    = listing ++ [created] /\
    (get_board_items (T + 60000)
       (post_todos (sampleEnv "1") 1000 todoBody coldMemory sampleServer).1.2).1
    = [ehrItem].
Proof.
  assert (MemoryServer.sourceFile coldMemory = Some [ehrItem]) as Hsrc by reflexivity.
  assert (0 < 1000) as Ht0 by reflexivity.
  assert (forall t, lastLoadTime coldMemory = Some t -> t <= 1000) as Hpast
    by (intros t Ht; discriminate Ht).
  destruct (memory_todo_lifetime (sampleEnv "1") 1000 todoBody coldMemory sampleServer
              [ehrItem] Hsrc Ht0 Hpast eq_refl)
    as (created & listing & T & Hbody & _ & HT & _ & Hlife).
  exists created, listing, T. split; [exact Hbody|]. split; [exact HT|]. split.
  - apply (proj1 (Hlife (T + 1000))). unfold CACHE_DURATION. lra.
  - apply (proj2 (Hlife (T + 60000))). unfold CACHE_DURATION. lra.
Defined.

End MemoryFacts.

(** ** The board client: loading, live events, placing and zooming *)

Module BoardFacts.
Import Board.

(** X17: Loading (or resetting) the board against the file server: the client
    keeps its own static copy of every source item and takes from the
    listing exactly the stored items that the server itself listed after
    the source data.  A change the server made to a source item (its
    synced height) therefore never reaches the board. *)
Theorem client_load_keeps_static_copy
    (static : list BoardItem) (sv : ServerState) (cl : ClientState) :
  map id static = map id (sourceData sv) ->
  mergeSources static (Some (get_board_items sv))
  = static ++ drop (length (sourceData sv)) (get_board_items sv) /\
  items (resetBoard static (Some (get_board_items sv)) cl)
  = static ++ drop (length (sourceData sv)) (get_board_items sv) /\
  selectedItemId (resetBoard static (Some (get_board_items sv)) cl) = None.
Proof.
  intros Hids. unfold resetBoard. cbn [items selectedItemId withSelected withItems].
  enough (mergeSources static (Some (get_board_items sv))
          = static ++ drop (length (sourceData sv)) (get_board_items sv)) as He
    by (rewrite He; done).
  unfold mergeSources, get_board_items.
  rewrite drop_app_length, StoreFacts.filter_app_bool, Hids. f_equal.
  rewrite AllocFacts.filter_none.
  - apply StoreFacts.filter_all. intros a Ha.
    by apply StoreFacts.elem_of_filter_bool in Ha as [_ Ha].
  - intros a Ha. apply StoreFacts.hidden_id. apply list_elem_of_fmap. by exists a.
Qed.

Lemma client_load_keeps_static_copy_witness :
  mergeSources [ehrItem; todoCard]
    (Some (get_board_items
             (FileServer.put_board_item (sampleEnv "9") "todo-1" (heightOnly 333)
                                        seededServer).2))
  = [ehrItem; todoCard].
Proof.
  apply (client_load_keeps_static_copy [ehrItem; todoCard]
           (FileServer.put_board_item (sampleEnv "9") "todo-1" (heightOnly 333)
                                      seededServer).2 sampleClient).
  reflexivity.
Defined.

Lemma known_id (item : BoardItem) (l : list BoardItem) :
  existsb (fun it => String.eqb (id it) (id item)) l = true <-> id item ∈ map id l.
Proof.
  rewrite existsb_exists. split.
  - intros (it & Hin & Heq). apply String.eqb_eq in Heq. rewrite <- Heq.
    apply list_elem_of_fmap. exists it. split; [done|by apply list_elem_of_In].
  - intros Hin. apply list_elem_of_fmap in Hin as (it & Heq & Hin).
    exists it. split; [by apply list_elem_of_In|]. rewrite Heq. apply String.eqb_refl.
Qed.

(** X18: The [new-item] listener: afterwards the board has an item with the
    event's id, the items it had are kept in place, ids stay unique, and
    receiving the same event again changes nothing. *)
Theorem new_item_event_idempotent (item : BoardItem) (st : ClientState) :
  id item ∈ map id (items (onNewItem (Some item) st)) /\
  items st `prefix_of` items (onNewItem (Some item) st) /\
  onNewItem (Some item) (onNewItem (Some item) st) = onNewItem (Some item) st /\
  (NoDup (map id (items st)) -> NoDup (map id (items (onNewItem (Some item) st)))).
Proof.
  unfold onNewItem.
  destruct (existsb (fun it => String.eqb (id it) (id item)) (items st)) eqn:E.
  - rewrite E. apply known_id in E. repeat split; done.
  - assert (id item ∉ map id (items st)) as Hfresh.
    { intros Hin. apply known_id in Hin. congruence. }
    cbn [items withItems].
    assert (existsb (fun it => String.eqb (id it) (id item)) (items st ++ [item]) = true)
      as ->.
    { apply known_id. rewrite map_app. apply elem_of_app. right. cbn. left. }
    split; [|split; [by apply prefix_app_r|split; [done|]]].
    + rewrite map_app. apply elem_of_app. right. cbn. left.
    + intros Hnd. rewrite map_app. apply NoDup_app. split; [done|]. split.
      * intros s Hs Hin. cbn in Hin. apply list_elem_of_singleton in Hin. by subst s.
      * cbn. apply NoDup_singleton.
Qed.

Lemma new_item_event_idempotent_witness :
  NoDup (map id (items (onNewItem (Some todoCard) sampleClient))).
Proof.
  apply (new_item_event_idempotent todoCard sampleClient).
  apply (bool_decide_unpack _). by vm_compute.
Defined.

(** X19: From the request to the board: a [POST /api/todos] answered 201 stores
    the created item last, writes one [new-item] message for it to every
    connected client, and a client that receives the message shows the item
    last at the position the server chose, unless it already has an item
    with that id, in which case its board stays as it is. *)
Theorem creation_reaches_clients (env : Env) (b : RedisServer.TodosBody) (sv : ServerState) :
  status (RedisServer.post_todos env b sv).1 = 201%nat ->
  exists item message,
    body (RedisServer.post_todos env b sv).1 = ItemBody item /\
    store (RedisServer.post_todos env b sv).2 = store sv ++ [item] /\
    sent (RedisServer.post_todos env b sv).2
    = sent sv ++ map (fun client => (client, message)) (sseClients sv) /\
    forall cl,
      (id item ∉ map id (items cl) -> items (deliver message cl) = items cl ++ [item]) /\
      (id item ∈ map id (items cl) -> deliver message cl = cl) /\
      viewport (deliver message cl) = viewport cl.
Proof.
  unfold RedisServer.post_todos.
  destruct (RedisServer.todo_items b) as [entries|]; [|discriminate].
  destruct (truthy_str (RedisServer.title b)); [|discriminate].
  destruct (resolvePosition _ _ _ _ _) as [p lines]. intros _.
  eexists _, _. cbn [fst snd body store sent log setStore broadcastSSE sseClients].
  split; [reflexivity|]. split; [reflexivity|]. split; [reflexivity|].
  intros cl. unfold deliver, onNewItem.
  match goal with |- context [existsb ?f (items cl)] =>
    destruct (existsb f (items cl)) eqn:E end.
  - apply known_id in E. split; [done|]. split; done.
  - assert (forall it : BoardItem, id it ∈ map id (items cl) ->
              existsb (fun i => String.eqb (id i) (id it)) (items cl) = true) as Hk
      by (intros it; apply known_id).
    split; [done|]. split; [|done]. intros Hin. apply Hk in Hin. congruence.
Qed.

Lemma creation_reaches_clients_witness :
  exists item message,
    body (RedisServer.post_todos (sampleEnv "1") todoBody sampleServer).1 = ItemBody item /\
    sent (RedisServer.post_todos (sampleEnv "1") todoBody sampleServer).2
    = [(1%nat, message); (2%nat, message)] /\
    items (deliver message sampleClient) = [ehrItem; todoCard; item].
Proof.
  destruct (creation_reaches_clients (sampleEnv "1") todoBody sampleServer eq_refl)
    as (item & message & Hbody & _ & Hsent & Hcl).
  exists item, message. split; [exact Hbody|]. split; [exact Hsent|].
  apply (proj1 (Hcl sampleClient)).
  vm_compute in Hbody. injection Hbody as <-.
  intros Hin. apply list_elem_of_In in Hin. vm_compute in Hin.
  destruct Hin as [Hin|[Hin|[]]]; discriminate.
Defined.

(** X20: [deleteItem]: afterwards no item has the id, the others are kept in
    order, and the selection is dropped exactly when it was on that id.
    Deleting an item that a [new-item] event has just added (an id the board
    did not have, not the selected one) gives the board back as it was. *)
Theorem new_item_then_delete (item : BoardItem) (target : string) (st : ClientState) :
  (target ∉ map id (items (deleteItem target st))) /\
  (items (deleteItem target st) `sublist_of` items st) /\
  (selectedItemId st = Some target -> selectedItemId (deleteItem target st) = None) /\
  (selectedItemId st <> Some target ->
   selectedItemId (deleteItem target st) = selectedItemId st) /\
  (id item ∉ map id (items st) -> selectedItemId st <> Some (id item) ->
   deleteItem (id item) (onNewItem (Some item) st) = st).
Proof.
  assert (forall sel,
    selectedItemId st = sel ->
    items (deleteItem target st)
    = List.filter (fun it => negb (String.eqb (id it) target)) (items st) /\
    selectedItemId (deleteItem target st)
    = match sel with
      | Some s => if String.eqb s target then None else Some s
      | None => None
      end) as Hshape.
  { intros sel Hsel. unfold deleteItem. rewrite Hsel.
    destruct sel as [s|]; [destruct (String.eqb s target)|]; by rewrite <- ?Hsel. }
  destruct (Hshape _ eq_refl) as [Hitems Hsel].
  split; [|split; [|split; [|split]]].
  - rewrite Hitems. intros Hin. apply list_elem_of_fmap in Hin as (it & Heq & Hin).
    apply StoreFacts.elem_of_filter_bool in Hin as [_ Hin].
    apply StoreFacts.other_id in Hin. by rewrite Heq in Hin.
  - rewrite Hitems. apply filter_sublist.
  - intros Hs. rewrite Hsel, Hs, String.eqb_refl. done.
  - intros Hs. rewrite Hsel. destruct (selectedItemId st) as [s|]; [|done].
    destruct (String.eqb_spec s target) as [->|Hne]; [by destruct Hs|done].
  - intros Hfresh Hs. unfold onNewItem.
    assert (existsb (fun it => String.eqb (id it) (id item)) (items st) = false) as ->.
    { apply not_true_is_false. intros Hk. by apply known_id in Hk. }
    unfold deleteItem. cbn [items selectedItemId withItems withSelected].
    rewrite StoreFacts.filter_app_bool. cbn [List.filter].
    rewrite String.eqb_refl. cbn [negb]. rewrite app_nil_r.
    rewrite StoreFacts.filter_all.
    2:{ intros a Ha. apply StoreFacts.other_id. intros Heq. apply Hfresh. rewrite <- Heq.
        apply list_elem_of_fmap. by exists a. }
    destruct st as [its sel vp ct ex ck tm an fi hl lg]. cbn in Hs |- *.
    destruct sel as [s|]; [|done].
    destruct (String.eqb_spec s (id item)) as [->|Hne]; [by destruct Hs|done].
Qed.

Lemma new_item_then_delete_witness :
  deleteItem (id (withPosition todoCard 0 0))
             (onNewItem (Some (withPosition todoCard 0 0))
                        (withItems [ehrItem] sampleClient))
  = withItems [ehrItem] sampleClient.
Proof.
  apply (new_item_then_delete (withPosition todoCard 0 0) "todo-1"
           (withItems [ehrItem] sampleClient)).
  - intros Hin. apply list_elem_of_In in Hin. vm_compute in Hin.
    destruct Hin as [Hin|[]]. discriminate.
  - discriminate.
Defined.

End BoardFacts.

Module ViewFacts.
Import Board View.

Lemma Math_round_near q :
  q - (1 # 2) < inject_Z (Math_round q) /\ inject_Z (Math_round q) <= q + (1 # 2).
Proof.
  unfold Math_round.
  pose proof (Qfloor_le (q + (1 # 2))) as Hle.
  pose proof (Qlt_floor (q + (1 # 2))) as Hlt.
  rewrite inject_Z_plus in Hlt. change (inject_Z 1) with 1 in Hlt. split; lra.
Qed.

Lemma or_zero q : or_num (Some q) 0 == q.
Proof. unfold or_num. destruct (Qeq_bool q 0) eqn:E; [|reflexivity]. apply Qeq_bool_iff in E. lra. Qed.

Lemma findById_Some itemId l item :
  Canvas.findById itemId l = Some item -> item ∈ l /\ id item = itemId.
Proof.
  unfold Canvas.findById. intros H. apply find_some in H as [Hin Heq].
  split; [by apply list_elem_of_In|by apply String.eqb_eq].
Qed.

(** X21: [placeItemAtViewportCenter] on a mounted canvas showing the item: the
    item (every item with the id) moves to whole-pixel coordinates that put
    the first such item's centre within half a pixel of the world point at
    the middle of the screen, the other items and the viewport stay, and
    one PUT carrying exactly the new position is sent. *)
Theorem place_at_viewport_center
    (itemId : string) (st : ClientState) (c : Container) (item : BoardItem) :
  container st = Some c ->
  Canvas.findById itemId (items st) = Some item ->
  ~ vp_zoom (viewport st) == 0 ->
  exists (nx ny : Z) (cx cy : Q),
    getViewportCenterWorld st = Some (cx, cy, vp_zoom (viewport st)) /\
    (placeItemAtViewportCenter itemId st).2
    = [mkPut itemId (positionOnly (inject_Z nx) (inject_Z ny))] /\
    - (1 # 2) < inject_Z nx + width item / 2 - cx <= 1 # 2 /\
    - (1 # 2) < inject_Z ny + height item / 2 - cy <= 1 # 2 /\
    viewport (placeItemAtViewportCenter itemId st).1 = viewport st /\
    Forall2 (fun old new =>
               if String.eqb (id old) itemId
               then new = withPosition old (inject_Z nx) (inject_Z ny)
               else new = old)
            (items st) (items (placeItemAtViewportCenter itemId st).1).
Proof.
  intros Hc Hitem _. unfold placeItemAtViewportCenter, getViewportCenterWorld.
  rewrite Hc, Hitem. unfold updateItem. cbn [fst snd p_height positionOnly app].
  set (cx := (clientWidth c / 2 - vp_x (viewport st)) / vp_zoom (viewport st)).
  set (cy := (clientHeight c / 2 - vp_y (viewport st)) / vp_zoom (viewport st)).
  exists (Math_round (cx - or_num (Some (width item)) 0 / 2)),
         (Math_round (cy - or_num (Some (height item)) 0 / 2)), cx, cy.
  split; [done|]. split; [done|].
  pose proof (Math_round_near (cx - or_num (Some (width item)) 0 / 2)) as Hx.
  pose proof (Math_round_near (cy - or_num (Some (height item)) 0 / 2)) as Hy.
  pose proof (or_zero (width item)) as Hw. pose proof (or_zero (height item)) as Hh.
  split; [|split; [|split; [done|]]].
  - generalize dependent (or_num (Some (width item)) 0). intros w Hx Hw.
    generalize dependent (inject_Z (Math_round (cx - w / 2))). intros n Hx.
    assert (w / 2 == width item / 2) as Hhalf by (by rewrite Hw).
    generalize dependent (w / 2). generalize (width item / 2). intros. lra.
  - generalize dependent (or_num (Some (height item)) 0). intros h Hy Hh.
    generalize dependent (inject_Z (Math_round (cy - h / 2))). intros n Hy.
    assert (h / 2 == height item / 2) as Hhalf by (by rewrite Hh).
    generalize dependent (h / 2). generalize (height item / 2). intros. lra.
  - cbn [items withItems]. apply Forall2_fmap_r, Forall_Forall2_diag, Forall_forall.
    intros old _. unfold compose. cbn beta.
    destruct (String.eqb (id old) itemId); [|done].
    by destruct old.
Qed.

Lemma place_at_viewport_center_witness :
  exists nx ny : Z,
    (placeItemAtViewportCenter "todo-1" sampleClient).2
    = [mkPut "todo-1" (positionOnly (inject_Z nx) (inject_Z ny))] /\
    - (1 # 2) < inject_Z nx + width todoCard / 2 - 600 <= 1 # 2.
Proof.
  assert (container sampleClient = Some (mkContainer 1200 800)) as Hc by reflexivity.
  assert (Canvas.findById "todo-1" (items sampleClient) = Some todoCard) as Hitem
    by reflexivity.
  assert (~ vp_zoom (viewport sampleClient) == 0) as Hz by (vm_compute; discriminate).
  destruct (place_at_viewport_center "todo-1" sampleClient (mkContainer 1200 800) todoCard
              Hc Hitem Hz) as (nx & ny & cx & cy & Hcentre & Hput & Hx & _).
  exists nx, ny. split; [exact Hput|].
  assert (cx == 600) as Hcx.
  { unfold getViewportCenterWorld in Hcentre. rewrite Hc in Hcentre.
    assert (cx = (clientWidth (mkContainer 1200 800) / 2 - vp_x (viewport sampleClient))
                 / vp_zoom (viewport sampleClient)) as -> by congruence.
    vm_compute. reflexivity. }
  rewrite <- Hcx. exact Hx.
Defined.

(** X22: [handleWheel] at a nonzero zoom: the new zoom is one tenth up or down,
    kept within [0.1, 3]; the world point under the cursor is the same
    before and after; and the items are not touched. *)
Theorem wheel_zooms_around_cursor (mouseX mouseY deltaY : Q) (st : ClientState) :
  ~ vp_zoom (viewport st) == 0 ->
  let v := viewport st in
  let v' := viewport (handleWheel mouseX mouseY deltaY st) in
  vp_zoom v' == Canvas.clampZoom (vp_zoom v * (if Qltb 0 deltaY then 0.9 else 1.1)) /\
  0.1 <= vp_zoom v' <= 3 /\
  (mouseX - vp_x v') / vp_zoom v' == (mouseX - vp_x v) / vp_zoom v /\
  (mouseY - vp_y v') / vp_zoom v' == (mouseY - vp_y v) / vp_zoom v /\
  items (handleWheel mouseX mouseY deltaY st) = items st.
Proof.
  intros Hz v v'. subst v v'. unfold handleWheel.
  cbn [viewport updateViewport vp_x vp_y vp_zoom items].
  set (factor := if Qltb 0 deltaY then 1 - 0.1 else 1 + 0.1).
  assert (factor == (if Qltb 0 deltaY then 0.9 else 1.1)) as Hf
    by (unfold factor; destruct (Qltb 0 deltaY); reflexivity).
  fold (Canvas.clampZoom (vp_zoom (viewport st) * factor)).
  pose proof (CanvasFacts.clampZoom_range (vp_zoom (viewport st) * factor)) as [Hlo Hhi].
  assert (Canvas.clampZoom (vp_zoom (viewport st) * factor)
          == Canvas.clampZoom (vp_zoom (viewport st) * (if Qltb 0 deltaY then 0.9 else 1.1)))
    as Hclamp.
  { unfold Canvas.clampZoom, Math_max, Math_min, Qleb.
    assert (vp_zoom (viewport st) * factor
            == vp_zoom (viewport st) * (if Qltb 0 deltaY then 0.9 else 1.1)) as Hm
      by (by rewrite Hf).
    rewrite <- Hm. reflexivity. }
  split; [exact Hclamp|]. split; [split; [exact Hlo|exact Hhi]|].
  split; [|split; [|done]]; field; split; try done; lra.
Qed.

Lemma wheel_zooms_around_cursor_witness :
  vp_zoom (viewport (handleWheel 300 200 (-1) sampleClient)) == 1.1.
Proof.
  assert (~ vp_zoom (viewport sampleClient) == 0) as Hz by (vm_compute; discriminate).
  destruct (wheel_zooms_around_cursor 300 200 (-1) sampleClient Hz) as (Hzoom & _).
  rewrite Hzoom. vm_compute. reflexivity.
Defined.

End ViewFacts.

Module SyncFacts.
Import Board.

(** X23: What [updateItem] tells the server: nothing unless the update carries a
    height, and then the height alone.  Whatever else the update changes on
    the board (position, size, colour), every stored item keeps its id,
    type, position, width and colour, and a stored height changes only on
    an item with the updated id, to the update's height. *)
Theorem only_height_is_synced
    (env : Env) (target : string) (updates : ItemPatch) (cl : ClientState)
    (sv : ServerState) :
  ((updateItem target updates cl).2 = [] <-> p_height updates = None) /\
  Forall2 (fun old new =>
             id new = id old /\ type new = type old /\ x new = x old /\ y new = y old /\
             width new = width old /\ color new = color old /\
             (height new = height old \/
              (id old = target /\ p_height updates = Some (height new))))
          (store sv) (store (receive env (updateItem target updates cl).2 sv)).
Proof.
  unfold updateItem. cbn [snd].
  assert (Forall2 (fun old new =>
             id new = id old /\ type new = type old /\ x new = x old /\ y new = y old /\
             width new = width old /\ color new = color old /\
             (height new = height old \/
              (id old = target /\ p_height updates = Some (height new))))
            (store sv) (store sv)) as Hrefl.
  { apply Forall_Forall2_diag, Forall_forall. intros item _. repeat split; by left. }
  destruct (p_height updates) as [h|] eqn:Hh.
  - split; [split; discriminate|].
    cbn [receive fold_left put_id put_body].
    rewrite (proj2 (ServerFacts.file_put_store env target (heightOnly h) sv)).
    unfold RedisServer.put_board_item.
    destruct (findItem target (store sv)) as [[i old]|] eqn:Hfind; [|exact Hrefl].
    apply ServerFacts.findItem_Some in Hfind as (Hi & Hid & _).
    cbn [snd store setStore].
    rewrite <- (list_insert_id (store sv) i old Hi) at 1.
    apply Forall2_insert; [exact Hrefl|].
    cbn [mergeItem heightOnly id type x y width height color p_id p_type p_x p_y p_width
         p_height p_color default from_option].
    repeat split. right. by split.
  - split; [done|]. exact Hrefl.
Qed.

Lemma only_height_is_synced_witness :
  (updateItem "todo-1" movePatch sampleClient).2 = [] /\
  store (receive (sampleEnv "9") (updateItem "todo-1" movePatch sampleClient).2 seededServer)
  = store seededServer.
Proof.
  split.
  - apply (proj1 (only_height_is_synced (sampleEnv "9") "todo-1" movePatch sampleClient
                    seededServer)). reflexivity.
  - reflexivity.
Defined.

(** X24: From [POST /api/focus] to the camera.  A request that names a target
    reaches every connected client as one message; a client that shows the
    target (canvas mounted) selects it and starts one camera animation from
    its current viewport, with the server-merged zoom and duration (the
    client's own defaults apply only where these are 0); its items and
    viewport are untouched at that moment.  The highlight timer is set
    whenever a sub-element is named, whatever the [highlight] option says. *)
Theorem focus_request_reaches_camera
    (env : Env) (b : RedisServer.FocusBody) (sv : ServerState) (cl : ClientState)
    (target : string) (item : BoardItem) (c : Container) :
  truthy_val (or_str (RedisServer.itemId b) (RedisServer.objectId b)) = Some target ->
  Canvas.findById target (items cl) = Some item ->
  container cl = Some c ->
  centerOnItemExposed cl = true ->
  let options :=
    mergeFocusOptions (RedisServer.defaultOptions (RedisServer.subElement b))
                      (RedisServer.focusOptions b) in
  let zoom := or_num (Some (fo_zoom options)) 0.8 in
  let duration := or_num (Some (fo_duration options)) 3000 in
  exists message,
    sent (RedisServer.post_focus env b sv).2
    = sent sv ++ map (fun client => (client, message)) (sseClients sv) /\
    selectedItemId (deliver message cl) = Some target /\
    animations (deliver message cl)
    = animations cl ++ [mkAnimation (viewport cl) c item zoom duration (clock cl)] /\
    timers (deliver message cl)
    = timers cl ++
      match truthy_val (RedisServer.subElement b) with
      | Some sub => [(clock cl + 100, HighlightSubElement sub duration)]
      | None => []
      end /\
    items (deliver message cl) = items cl /\
    viewport (deliver message cl) = viewport cl.
Proof.
  intros Htarget Hitem Hc Hexposed options zoom duration.
  unfold RedisServer.post_focus. rewrite Htarget.
  eexists. cbn [snd sent broadcastSSE log sseClients]. split; [reflexivity|].
  unfold deliver, onFocusEvent, App.handleFocusRequest.
  cbn [App.objectId App.itemId App.subElement App.focusOptions].
  assert (truthy_str (Some target) = true) as Htruthy.
  { apply ServerFacts.truthy_val_Some in Htarget as [Heq Htr]. by rewrite Heq in Htr. }
  assert (or_str (or_str (Some target) (Some target)) None = Some target) as ->.
  { unfold or_str. by rewrite !Htruthy. }
  unfold App.findTarget. cbn [items App.say]. rewrite Hitem. cbn [fmap option_fmap option_map].
  cbn [default asPatch fp_zoom fp_duration].
  assert (truthy_val (RedisServer.orNull (RedisServer.subElement b))
          = truthy_val (RedisServer.subElement b)) as ->.
  { unfold RedisServer.orNull.
    destruct (truthy_str (RedisServer.subElement b)) eqn:E; [done|].
    symmetry. by apply ServerFacts.truthy_val_None. }
  fold options. fold zoom. fold duration.
  destruct (truthy_val (RedisServer.subElement b)) as [sub|];
    cbn [centerOnItemExposed App.focusOnItem App.say App.setTimeout];
    rewrite Hexposed; unfold Canvas.centerOnItem;
    cbn [items container App.say App.focusOnItem App.setTimeout];
    rewrite Hitem, Hc;
    cbn [selectedItemId animations timers items viewport clock
         App.say App.focusOnItem App.setTimeout];
    rewrite ?app_nil_r; done.
Qed.

Lemma focus_request_reaches_camera_witness :
  exists message,
    sent (RedisServer.post_focus (sampleEnv "9") quietFocusBody sampleServer).2
    = [(1%nat, message); (2%nat, message)] /\
    animations (deliver message sampleClient)
    = [mkAnimation (mkViewport 0 0 1) (mkContainer 1200 800) todoCard 2 2000 1000] /\
    timers (deliver message sampleClient) = [(1000 + 100, HighlightSubElement "task-1" 2000)].
Proof.
  destruct (focus_request_reaches_camera (sampleEnv "9") quietFocusBody sampleServer
              sampleClient "todo-1" todoCard (mkContainer 1200 800)
              eq_refl eq_refl eq_refl eq_refl)
    as (message & Hsent & _ & Hanim & Htimers & _).
  exists message. split; [exact Hsent|]. split; [exact Hanim|exact Htimers].
Defined.

End SyncFacts.

Module FocusFacts.

(** X25: The two servers' [POST /api/focus] accept and reject the same requests
    and name the same target; they differ only in the defaults they fill
    in.  With zoom and duration both given in the request they answer and
    broadcast the same; with no options the file-backed server asks for a
    shorter animation (600 or 800 ms against 2000 ms) and, without a
    sub-element, a closer zoom (1.2 against 0.8). *)
Theorem focus_servers_differ_in_defaults
    (env : Env) (b : RedisServer.FocusBody) (st : ServerState) :
  status (FileFocus.post_focus env b st).1 = status (RedisServer.post_focus env b st).1 /\
  (forall p z d,
     RedisServer.focusOptions b = Some p -> fp_zoom p = Some z -> fp_duration p = Some d ->
     FileFocus.post_focus env b st = RedisServer.post_focus env b st) /\
  (RedisServer.focusOptions b = None ->
   forall target sub o1 o2,
     (FileFocus.post_focus env b st).1 = mkResponse 200 (FocusAck target sub o1) ->
     (RedisServer.post_focus env b st).1 = mkResponse 200 (FocusAck target sub o2) ->
     fo_duration o1 < fo_duration o2 /\ fo_zoom o2 <= fo_zoom o1 /\
     fo_highlight o1 = fo_highlight o2).
Proof.
  unfold FileFocus.post_focus, RedisServer.post_focus.
  destruct (truthy_val (or_str (RedisServer.itemId b) (RedisServer.objectId b)))
    as [targetId|].
  - split; [done|]. split.
    + intros p z d Hp Hz Hd. rewrite Hp. unfold mergeFocusOptions.
      rewrite Hz, Hd. cbn [default]. reflexivity.
    + intros Hnone target sub o1 o2. rewrite Hnone. cbn [fst mergeFocusOptions].
      intros [= _ _ <-] [= _ _ <-].
      unfold FileFocus.defaultOptions, RedisServer.defaultOptions.
      cbn [fo_duration fo_zoom fo_highlight].
      destruct (truthy_str (RedisServer.subElement b)); repeat split; lra.
  - split; [done|]. split; [done|]. intros _ ? ? ? ? [=].
Qed.

Lemma focus_servers_differ_in_defaults_witness :
  FileFocus.post_focus (sampleEnv "9") quietFocusBody sampleServer
  <> RedisServer.post_focus (sampleEnv "9") quietFocusBody sampleServer /\
  status (FileFocus.post_focus (sampleEnv "9") quietFocusBody sampleServer).1 = 200%nat.
Proof.
  split.
  - intros Heq. apply (f_equal fst) in Heq. vm_compute in Heq. discriminate Heq.
  - rewrite (proj1 (focus_servers_differ_in_defaults (sampleEnv "9") quietFocusBody
                      sampleServer)). reflexivity.
Defined.

End FocusFacts.

(** ** The camera animation between its phase boundaries *)

Module CameraFacts.
Import Canvas.

Lemma easeInOut_low t : t < 0.5 -> easeInOut t = 2 * t * t.
Proof. intros Ht. unfold easeInOut. by rewrite (proj2 (Qltb_lt t 0.5) Ht). Qed.

Lemma easeInOut_high t : 0.5 <= t -> easeInOut t = -1 + (4 - 2 * t) * t.
Proof.
  intros Ht. unfold easeInOut. destruct (Qltb t 0.5) eqn:E; [|done].
  apply Qltb_lt in E. lra.
Qed.

Lemma easeInOut_range t : 0 <= t -> t <= 1 -> 0 <= easeInOut t /\ easeInOut t <= 1.
Proof.
  intros H0 H1. destruct (Qlt_le_dec t 0.5) as [Hl|Hh].
  - rewrite (easeInOut_low t Hl). split; nra.
  - rewrite (easeInOut_high t Hh). split; nra.
Qed.

Lemma easeInOut_mono s t : 0 <= s -> s <= t -> t <= 1 -> easeInOut s <= easeInOut t.
Proof.
  intros H0 Hst H1.
  destruct (Qlt_le_dec s 0.5) as [Hs|Hs]; destruct (Qlt_le_dec t 0.5) as [Ht|Ht].
  - rewrite (easeInOut_low s Hs), (easeInOut_low t Ht). nra.
  - rewrite (easeInOut_low s Hs), (easeInOut_high t Ht). nra.
  - lra.
  - rewrite (easeInOut_high s Hs), (easeInOut_high t Ht). nra.
Qed.

(** X26: The easing function on the unit interval: it starts at 0, passes 1/2
    at 1/2, ends at 1, never decreases, stays within [0, 1], and is
    symmetric about the midpoint. *)
Theorem easeInOut_unit_interval (s t : Q) :
  0 <= s -> s <= t -> t <= 1 ->
  easeInOut 0 == 0 /\ easeInOut (1 # 2) == 1 # 2 /\ easeInOut 1 == 1 /\
  0 <= easeInOut s /\ easeInOut s <= easeInOut t /\ easeInOut t <= 1 /\
  easeInOut (1 - t) == 1 - easeInOut t.
Proof.
  intros H0 Hst H1.
  split; [reflexivity|]. split; [reflexivity|]. split; [reflexivity|].
  split; [apply easeInOut_range; lra|]. split; [by apply easeInOut_mono|].
  split; [apply easeInOut_range; lra|].
  destruct (Qlt_le_dec t 0.5) as [Ht|Ht].
  - rewrite (easeInOut_low t Ht), (easeInOut_high (1 - t)) by lra. ring.
  - rewrite (easeInOut_high t Ht).
    destruct (Qlt_le_dec (1 - t) 0.5) as [Hl|Hl].
    + rewrite (easeInOut_low (1 - t) Hl). ring.
    + assert (t == 1 # 2) as Heq by lra.
      rewrite (easeInOut_high (1 - t) Hl). rewrite Heq. reflexivity.
Qed.

Lemma easeInOut_unit_interval_witness :
  easeInOut (1 # 4) <= easeInOut (3 # 4) /\
  easeInOut (1 - (3 # 4)) == 1 - easeInOut (3 # 4).
Proof.
  assert (0 <= 1 # 4) as H0 by (vm_compute; discriminate).
  assert ((1 # 4) <= 3 # 4) as H1 by (vm_compute; discriminate).
  assert ((3 # 4) <= 1) as H2 by (vm_compute; discriminate).
  destruct (easeInOut_unit_interval (1 # 4) (3 # 4) H0 H1 H2)
    as (_ & _ & _ & _ & Hmono & _ & Hsym).
  split; [exact Hmono|exact Hsym].
Defined.

Lemma unit_fraction e T : 0 < T -> 0 <= e -> e <= T -> 0 <= e / T /\ e / T <= 1.
Proof.
  intros HT H0 H1. split.
  - apply Qle_shift_div_l; [done|]. lra.
  - apply Qle_shift_div_r; [done|]. lra.
Qed.

Lemma between_ends s t k :
  0 <= k -> k <= 1 ->
  Math_min s t <= s + (t - s) * k /\ s + (t - s) * k <= Math_max s t.
Proof.
  intros H0 H1.
  destruct (CanvasFacts.Math_min_spec s t) as [[Hm ->]|[Hm ->]];
    destruct (CanvasFacts.Math_max_spec s t) as [[Hx ->]|[Hx ->]]; split; nra.
Qed.

Section Phases.
Variable a : Animation.
Hypothesis duration_pos : 0 < a_duration a.

Let D := a_duration a.
Let c := a_container a.
Let zoomOut := clampZoom (vp_zoom (a_start a) * 0.3).
Let targetX := x (a_item a) + width (a_item a) / 2.
Let targetY := y (a_item a) + height (a_item a) / 2.
Let T := D / 3.

(** X27: Phase 1, from the call to a third of the duration: the world point at
    the middle of the screen never moves, and the zoom stays between the
    start zoom and the clamped zoom-out level. *)
Theorem zoom_out_keeps_screen_centre (e : Q) :
  0 < vp_zoom (a_start a) -> 0 <= e -> e <= D / 3 ->
  (centerWorld c (animate a e)).1 == (centerWorld c (a_start a)).1 /\
  (centerWorld c (animate a e)).2 == (centerWorld c (a_start a)).2 /\
  Math_min (vp_zoom (a_start a)) zoomOut <= vp_zoom (animate a e) /\
  vp_zoom (animate a e) <= Math_max (vp_zoom (a_start a)) zoomOut.
Proof.
  intros Hz0 He0 He1. fold T in He1.
  destruct (CanvasFacts.third_pos a duration_pos) as [HT HD]. fold D T in HT, HD.
  destruct (unit_fraction e T HT He0 He1) as [Hf0 Hf1].
  destruct (easeInOut_range (e / T) Hf0 Hf1) as [Hk0 Hk1].
  pose proof (CanvasFacts.clampZoom_range (vp_zoom (a_start a) * 0.3)) as [Hzo _].
  fold zoomOut in Hzo.
  destruct (between_ends (vp_zoom (a_start a)) zoomOut (easeInOut (e / T)) Hk0 Hk1)
    as [Hlo Hhi].
  unfold centerWorld, animate. fold D c zoomOut. fold T.
  assert (Qleb e T = true) as -> by (by apply Qleb_le).
  cbn [vp_x vp_y vp_zoom fst snd].
  set (Z := vp_zoom (a_start a) + (zoomOut - vp_zoom (a_start a)) * easeInOut (e / T)) in *.
  assert (0 < Z) as HZ.
  { destruct (CanvasFacts.Math_min_spec (vp_zoom (a_start a)) zoomOut) as [[? Hm]|[? Hm]];
      rewrite Hm in Hlo; lra. }
  split; [field; split; lra|]. split; [field; split; lra|]. split; [exact Hlo|exact Hhi].
Qed.

(** X28: Phase 3, after two thirds of the duration: the item's centre is at the
    middle of the screen in every frame, late ones included, and up to the
    end of the duration the zoom stays between the zoom-out level and the
    final zoom. *)
Theorem zoom_in_keeps_target_centred (e : Q) :
  2 * D / 3 < e ->
  (~ vp_zoom (animate a e) == 0 ->
   (centerWorld c (animate a e)).1 == targetX /\
   (centerWorld c (animate a e)).2 == targetY) /\
  (e <= D ->
   Math_min zoomOut (a_finalZoom a) <= vp_zoom (animate a e) /\
   vp_zoom (animate a e) <= Math_max zoomOut (a_finalZoom a)).
Proof.
  intros He.
  destruct (CanvasFacts.third_pos a duration_pos) as [HT HD]. fold D T in HT, HD.
  assert (2 * T < e) as He'.
  { assert (2 * D / 3 == 2 * T) as <- by (unfold T; field). exact He. }
  unfold centerWorld, animate. fold D c zoomOut targetX targetY. fold T.
  assert (Qleb e T = false) as -> by (apply Qleb_false; lra).
  assert (Qleb e (T * 2) = false) as -> by (apply Qleb_false; lra).
  cbn [vp_x vp_y vp_zoom fst snd].
  set (k := easeInOut ((e - T * 2) / (D - T * 2))).
  split.
  - intros Hz. split; field; exact Hz.
  - intros Hend.
    assert (0 <= (e - T * 2) / (D - T * 2) /\ (e - T * 2) / (D - T * 2) <= 1) as [Hf0 Hf1].
    { apply unit_fraction; lra. }
    destruct (easeInOut_range _ Hf0 Hf1) as [Hk0 Hk1]. fold k in Hk0, Hk1.
    apply between_ends; done.
Qed.

(** X29: A last frame that comes after the duration has passed (frames are not
    aligned with it) is still drawn from the raw elapsed time: the zoom it
    leaves is short of the final zoom by twice the zoom difference times the
    squared overrun, measured in phase lengths, and no further frame is
    requested. *)
Theorem late_frame_misses_final_zoom (e : Q) :
  D < e -> ~ a_finalZoom a == zoomOut ->
  vp_zoom (animate a e)
  == a_finalZoom a - 2 * (a_finalZoom a - zoomOut) * ((e - D) / T) * ((e - D) / T) /\
  ~ vp_zoom (animate a e) == a_finalZoom a /\
  continues a e = false.
Proof.
  intros He Hne.
  destruct (CanvasFacts.third_pos a duration_pos) as [HT HD]. fold D T in HT, HD.
  assert (vp_zoom (animate a e)
          == a_finalZoom a - 2 * (a_finalZoom a - zoomOut) * ((e - D) / T) * ((e - D) / T))
    as Hzoom.
  { unfold animate. fold D zoomOut. fold T.
    assert (Qleb e T = false) as -> by (apply Qleb_false; lra).
    assert (Qleb e (T * 2) = false) as -> by (apply Qleb_false; lra).
    cbn [vp_zoom].
    assert ((e - T * 2) / (D - T * 2) == 1 + (e - D) / T) as Hs.
    { rewrite HD. field. lra. }
    assert (0 < (e - D) / T) as Hover.
    { apply Qlt_shift_div_l; [done|]. lra. }
    rewrite easeInOut_high.
    - rewrite Hs. ring.
    - rewrite Hs. lra. }
  split; [exact Hzoom|]. split.
  - rewrite Hzoom. intros Heq.
    assert (0 < (e - D) / T) as Hover.
    { apply Qlt_shift_div_l; [done|]. lra. }
    assert ((a_finalZoom a - zoomOut) * (((e - D) / T) * ((e - D) / T)) == 0) as Hprod by lra.
    apply Qmult_integral in Hprod as [Hprod|Hprod]; [lra|].
    apply Qmult_integral in Hprod as [Hprod|Hprod]; lra.
  - unfold continues. fold D.
    assert (1 <= e / D) as Hfrac.
    { apply Qle_shift_div_l; [done|]. lra. }
    destruct (CanvasFacts.Math_min_spec (e / D) 1) as [[Hm ->]|[Hm ->]].
    + unfold Qltb. apply negb_false_iff. apply Qle_bool_iff. lra.
    + reflexivity.
Qed.

End Phases.

Lemma zoom_out_keeps_screen_centre_witness :
  (centerWorld (a_container sampleAnimation) (animate sampleAnimation 500)).1
  == (centerWorld (a_container sampleAnimation) (a_start sampleAnimation)).1.
Proof.
  assert (0 < a_duration sampleAnimation) as HD by reflexivity.
  assert (0 < vp_zoom (a_start sampleAnimation)) as Hz by reflexivity.
  assert (0 <= 500) as H0 by (vm_compute; discriminate).
  assert (500 <= a_duration sampleAnimation / 3) as H1 by (vm_compute; discriminate).
  exact (proj1 (zoom_out_keeps_screen_centre sampleAnimation HD 500 Hz H0 H1)).
Defined.

Lemma zoom_in_keeps_target_centred_witness :
  Math_min (clampZoom (vp_zoom (a_start sampleAnimation) * 0.3)) (a_finalZoom sampleAnimation)
  <= vp_zoom (animate sampleAnimation 2500).
Proof.
  assert (0 < a_duration sampleAnimation) as HD by reflexivity.
  assert (2 * a_duration sampleAnimation / 3 < 2500) as H0 by reflexivity.
  assert (2500 <= a_duration sampleAnimation) as H1 by (vm_compute; discriminate).
  exact (proj1 (proj2 (zoom_in_keeps_target_centred sampleAnimation HD 2500 H0) H1)).
Defined.

Lemma late_frame_misses_final_zoom_witness :
  ~ vp_zoom (animate sampleAnimation 3016) == a_finalZoom sampleAnimation.
Proof.
  assert (0 < a_duration sampleAnimation) as HD by reflexivity.
  assert (a_duration sampleAnimation < 3016) as H0 by reflexivity.
  assert (~ a_finalZoom sampleAnimation
            == clampZoom (vp_zoom (a_start sampleAnimation) * 0.3)) as H1
    by (vm_compute; discriminate).
  exact (proj1 (proj2 (late_frame_misses_final_zoom sampleAnimation HD 3016 H0 H1))).
Defined.

Lemma progress_complete e D : 0 < D -> D <= e -> Qltb (Math_min (e / D) 1) 1 = false.
Proof.
  intros HD He.
  assert (1 <= e / D) as Hfrac by (apply Qle_shift_div_l; [done|lra]).
  destruct (CanvasFacts.Math_min_spec (e / D) 1) as [[Hm ->]|[Hm ->]].
  - unfold Qltb. apply negb_false_iff. apply Qle_bool_iff. lra.
  - reflexivity.
Qed.

(** X30: A [centerOnItem] call made while no animation is running keeps asking
    for frames exactly as long as less than the duration has elapsed: a
    frame before that leaves the loop pending, the first frame at or after
    it ends the loop, and from then on frames leave the viewport where that
    frame put it. *)
Theorem animation_runs_for_duration
    (st : ClientState) (itemId : string) (item : BoardItem) (c : Container)
    (finalZoom D : Q) :
  findById itemId (items st) = Some item -> container st = Some c ->
  animations st = [] -> 0 < D ->
  let started := centerOnItem itemId finalZoom D st in
  animations started = [mkAnimation (viewport st) c item finalZoom D (clock st)] /\
  forall e,
    (e < D -> animations (frame (clock st + e) started) = animations started) /\
    (D <= e ->
     animations (frame (clock st + e) started) = [] /\
     forall t, viewport (frame t (frame (clock st + e) started))
               = viewport (frame (clock st + e) started)).
Proof.
  intros Hitem Hc Hnone HD started. subst started.
  unfold centerOnItem. rewrite Hitem, Hc. cbn [animations]. rewrite Hnone.
  split; [done|]. intros e. unfold frame at 1 3.
  cbn [animations List.filter app a_startTime]. unfold continues. cbn [a_duration a_startTime].
  assert (clock st + e - clock st == e) as Hel by ring.
  split.
  - intros He.
    assert (Qltb (Math_min ((clock st + e - clock st) / D) 1) 1 = true) as ->; [|done].
    apply AppFacts.progress_below_one; [done|]. by rewrite Hel.
  - intros He.
    assert (Qltb (Math_min ((clock st + e - clock st) / D) 1) 1 = false) as Hdone.
    { apply progress_complete; [done|]. by rewrite Hel. }
    unfold frame. cbn [animations List.filter app a_startTime viewport]. unfold continues.
    cbn [a_duration a_startTime]. rewrite Hdone. done.
Qed.

Lemma animation_runs_for_duration_witness :
  animations (frame (clock sampleClient + 2999) (centerOnItem "todo-1" 2 3000 sampleClient))
  = animations (centerOnItem "todo-1" 2 3000 sampleClient) /\
  animations (frame (clock sampleClient + 3000) (centerOnItem "todo-1" 2 3000 sampleClient))
  = [].
Proof.
  assert (0 < 3000) as HD by reflexivity.
  destruct (animation_runs_for_duration sampleClient "todo-1" todoCard (mkContainer 1200 800)
              2 3000 eq_refl eq_refl eq_refl HD) as [_ Hrun].
  split.
  - apply (proj1 (Hrun 2999)). reflexivity.
  - apply (proj2 (Hrun 3000)). vm_compute. discriminate.
Defined.

End CameraFacts.
